(** * spey / madstats: hypothesis testing and combination engine

    A shallow embedding of the parts of the repository that the
    specification talks about:

    - [madstats/tools/utils_cls.py]: [teststatistics], [pvalues],
      [expected_pvalues], [compute_confidence_level], [find_root_limits];
    - [spey/hypothesis_testing/asymptotic_calculator.py]:
      [AsymptoticTestStatisticsDistribution];
    - [spey/hypothesis_testing/upper_limits.py]: [find_root_limits],
      [find_poi_upper_limit]; the function [compute_confidence_level] of
      [spey/hypothesis_testing/utils.py] that it calls is not among the
      sources and is modelled from the specification (module [Utils]);
    - [madstats/base/recorder.py]: [Recorder];
    - [spey/combiner/statistics_combiner.py]: [StatisticsCombiner.likelihood],
      and in the module [Combiner] the other methods of the class;
    - [spey/optimizer/core.py]: [fit].

    Numbers.  A Python float is modelled by an extended real: a real
    number, one of the two infinities, or NaN.  The special values are the
    ones the code tests for ([np.isnan], [-np.inf], [!= 0.0]); the
    rounding and the overflow of binary64 and the sign of zero are not
    modelled (the zero of the model divides like [+0.0]).  The cast to
    single precision, [np.float32], is a function that the definitions
    take as a parameter, so that what it does to a number (rounding,
    underflow to zero) is not lost. *)

From Stdlib Require Import Reals Lra List String Ascii Bool.
From stdpp Require Import gmap strings.
Import ListNotations.

Open Scope R_scope.
Open Scope string_scope.
Open Scope list_scope.

(** ** Python floats *)

Inductive pyfloat : Type :=
| Finite (r : R)
| PInf
| NInf
| NaN.

Module Float.

Definition Rltb (x y : R) : bool := if Rlt_dec x y then true else false.
Definition Reqb (x y : R) : bool := if Req_dec_T x y then true else false.

Definition isnan (x : pyfloat) : bool :=
  match x with NaN => true | _ => false end.

(** [x < y]; every comparison with NaN is false. *)
Definition ltb (x y : pyfloat) : bool :=
  match x, y with
  | NaN, _ | _, NaN => false
  | Finite a, Finite b => Rltb a b
  | NInf, NInf => false
  | NInf, _ => true
  | _, PInf => match x with PInf => false | _ => true end
  | _, _ => false
  end.

(** [x == y]. *)
Definition eqb (x y : pyfloat) : bool :=
  match x, y with
  | Finite a, Finite b => Reqb a b
  | PInf, PInf | NInf, NInf => true
  | _, _ => false
  end.

(** [x <= y]. *)
Definition leb (x y : pyfloat) : bool := ltb x y || eqb x y.

(** [x > y], [x >= y] and [x != y] as Python evaluates them. *)
Definition gtb (x y : pyfloat) : bool := ltb y x.
Definition geb (x y : pyfloat) : bool := leb y x.
Definition neb (x y : pyfloat) : bool := negb (eqb x y).

Definition neg (x : pyfloat) : pyfloat :=
  match x with
  | Finite a => Finite (- a)
  | PInf => NInf
  | NInf => PInf
  | NaN => NaN
  end.

Definition add (x y : pyfloat) : pyfloat :=
  match x, y with
  | NaN, _ | _, NaN => NaN
  | Finite a, Finite b => Finite (a + b)
  | PInf, NInf | NInf, PInf => NaN
  | PInf, _ | _, PInf => PInf
  | NInf, _ | _, NInf => NInf
  end.

Definition sub (x y : pyfloat) : pyfloat := add x (neg y).

(** The infinity whose sign is that of the real [a]; NaN at zero. *)
Definition signed_inf (positive : bool) (a : R) : pyfloat :=
  if Rltb 0 a then (if positive then PInf else NInf)
  else if Rltb a 0 then (if positive then NInf else PInf)
  else NaN.

Definition mul (x y : pyfloat) : pyfloat :=
  match x, y with
  | NaN, _ | _, NaN => NaN
  | Finite a, Finite b => Finite (a * b)
  | PInf, Finite b => signed_inf true b
  | NInf, Finite b => signed_inf false b
  | Finite a, PInf => signed_inf true a
  | Finite a, NInf => signed_inf false a
  | PInf, PInf | NInf, NInf => PInf
  | PInf, NInf | NInf, PInf => NInf
  end.

(** numpy's division: dividing by zero gives an infinity (NaN for 0/0)
    and a warning, never an exception.  The zero divisor counts as
    [+0.0]: the infinity has the sign of the dividend. *)
Definition div (x y : pyfloat) : pyfloat :=
  match x, y with
  | NaN, _ | _, NaN => NaN
  | Finite a, Finite b =>
      if Reqb b 0 then signed_inf true a else Finite (a / b)
  | Finite _, _ => Finite 0
  | PInf, Finite b => if Rltb b 0 then NInf else PInf
  | NInf, Finite b => if Rltb b 0 then PInf else NInf
  | _, _ => NaN
  end.

(** [np.sqrt]. *)
Definition sqrt (x : pyfloat) : pyfloat :=
  match x with
  | Finite a => if Rltb a 0 then NaN else Finite (R_sqrt.sqrt a)
  | PInf => PInf
  | NInf | NaN => NaN
  end.

(** [np.exp]. *)
Definition exp (x : pyfloat) : pyfloat :=
  match x with
  | Finite a => Finite (Rtrigo_def.exp a)
  | PInf => PInf
  | NInf => Finite 0
  | NaN => NaN
  end.

(** Python's [max(a, b)]: [b] replaces [a] only when [b > a]. *)
Definition max (a b : pyfloat) : pyfloat := if gtb b a then b else a.

(** Truth value of a float: zero is false, everything else (NaN too) is
    true. *)
Definition truthy (x : pyfloat) : bool := neb x (Finite 0).

End Float.

Declare Scope pyfloat_scope.
Delimit Scope pyfloat_scope with py.
Bind Scope pyfloat_scope with pyfloat.
Infix "+" := Float.add : pyfloat_scope.
Infix "-" := Float.sub : pyfloat_scope.
Infix "*" := Float.mul : pyfloat_scope.
Infix "/" := Float.div : pyfloat_scope.
Notation "- x" := (Float.neg x) : pyfloat_scope.
Infix "<?" := Float.ltb : pyfloat_scope.
Infix "<=?" := Float.leb : pyfloat_scope.
Infix ">?" := Float.gtb : pyfloat_scope.
Infix ">=?" := Float.geb : pyfloat_scope.
Infix "==?" := Float.eqb (at level 70) : pyfloat_scope.
Infix "!=?" := Float.neb (at level 70) : pyfloat_scope.

(** ** Python values and control *)

(** Nested lists of floats, as [pvalues] and [expected_pvalues] build
    them. *)
#[warnings="-register-all"]
Inductive pyval : Type :=
| VFloat (x : pyfloat)
| VList (xs : list pyval).

(** [ExpectationType] of [spey.utils] / [madstats.utils]. *)
Inductive ExpectationType : Type := observed | apriori | aposteriori.

Global Instance ExpectationType_eq_dec : EqDecision ExpectationType.
Proof. solve_decision. Defined.

(** [x in xs] on strings. *)
Definition str_in (x : string) (xs : list string) : bool :=
  existsb (String.eqb x) xs.

(** The exceptions the modelled code raises or lets through. *)
Inductive exn : Type :=
| NegativeExpectedYields (msg : string)
| AssertionError (msg : string)
| IndexError
| OtherError (name : string).

(** Result of a call: a value or a raised exception. *)
Inductive outcome (A : Type) : Type :=
| Returns (a : A)
| Raises (e : exn).
Arguments Returns {A} a.
Arguments Raises {A} e.

Inductive warning : Type :=
| RuntimeWarning (msg : string).

(** A [while cond: body] loop whose body may [break]; [None] when the
    fuel runs out before the loop stops. *)
Fixpoint while_break {St : Type} (fuel : nat) (cond : St -> bool)
    (body : St -> St * bool) (s : St) : option St :=
  match fuel with
  | O => None
  | S n =>
      if cond s then
        let '(s', stop) := body s in
        if stop then Some s' else while_break n cond body s'
      else Some s
  end.

(** The two loops of [find_root_limits], with the step as a parameter:
    [while computer(low) > loc: low *= step; if low < 1e-10: break] and
    [while computer(hig) < loc: hig *= step; if hig > 1e10: break]. *)
Definition lower_loop (computer : pyfloat -> pyfloat) (loc step : pyfloat)
    (fuel : nat) (low : pyfloat) : option pyfloat :=
  while_break fuel (fun low => (computer low >? loc)%py)
    (fun low => let low := (low * step)%py in
                (low, (low <? Finite 1e-10)%py)) low.

Definition upper_loop (computer : pyfloat -> pyfloat) (loc step : pyfloat)
    (fuel : nat) (hig : pyfloat) : option pyfloat :=
  while_break fuel (fun hig => (computer hig <? loc)%py)
    (fun hig => let hig := (hig * step)%py in
                (hig, (hig >? Finite 1e10)%py)) hig.

(** ** spey/hypothesis_testing/asymptotic_calculator.py *)

Module AsymptoticCalculator.

Record AsymptoticTestStatisticsDistribution : Type := {
  shift : pyfloat;
  cutoff : pyfloat
}.

(** [__init__(shift, cutoff=-inf)]. *)
Definition new (shift : pyfloat) (cutoff : option pyfloat) :
    AsymptoticTestStatisticsDistribution :=
  {| shift := shift; cutoff := default NInf cutoff |}.

Section Methods.
(** [scipy.stats.multivariate_normal.cdf], the standard normal
    cumulative distribution function. *)
Variable norm_cdf : pyfloat -> pyfloat.

Definition pvalue (self : AsymptoticTestStatisticsDistribution)
    (value : pyfloat) : pyfloat :=
  let return_value := norm_cdf (shift self - value)%py in
  if (return_value >=? cutoff self)%py then return_value else NaN.

Definition cdf (self : AsymptoticTestStatisticsDistribution)
    (value : pyfloat) : pyfloat :=
  norm_cdf (value - shift self)%py.

Definition expected_value (self : AsymptoticTestStatisticsDistribution)
    (nsigma : pyfloat) : pyfloat :=
  let tot := (nsigma + shift self)%py in
  if (tot >? cutoff self)%py then tot else cutoff self.
End Methods.

End AsymptoticCalculator.

(** ** madstats/tools/utils_cls.py *)

Module UtilsCls.
Import AsymptoticCalculator.

(** An argument that is either a callable of the POI or a number. *)
Inductive nll_arg : Type :=
| NllFun (f : pyfloat -> pyfloat)
| NllVal (v : pyfloat).

(** [f(poi_test) if callable(f) else f]. *)
Definition call_or_value (a : nll_arg) (poi_test : pyfloat) : pyfloat :=
  match a with
  | NllFun f => f poi_test
  | NllVal v => v
  end.

(** [qmu = 0.0 if 2.0 * (nll - min_nll) < 0.0 else 2.0 * (nll - min_nll)] *)
Definition qmu (nll min_negloglikelihood : pyfloat) : pyfloat :=
  if (Finite 2 * (nll - min_negloglikelihood) <? Finite 0)%py
  then Finite 0
  else (Finite 2 * (nll - min_negloglikelihood))%py.

(** [qmuA = max(2.0 * (nllA - min_nllA), 0.0)] *)
Definition qmuA (nllA min_negloglikelihood_asimov : pyfloat) : pyfloat :=
  Float.max (Finite 2 * (nllA - min_negloglikelihood_asimov))%py (Finite 0).

(** The source wraps a scalar [poi_test] into a one-element array before
    it calls the likelihoods; here they are called with the number. *)
Definition teststatistics (poi_test : pyfloat)
    (negloglikelihood_asimov : nll_arg)
    (min_negloglikelihood_asimov : pyfloat)
    (negloglikelihood : nll_arg)
    (min_negloglikelihood : pyfloat)
    (test_stat : string) : pyfloat * pyfloat * pyfloat :=
  let nllA := call_or_value negloglikelihood_asimov poi_test in
  let nll := call_or_value negloglikelihood poi_test in
  let qmu := qmu nll min_negloglikelihood in
  let qmuA := qmuA nllA min_negloglikelihood_asimov in
  let sqrt_qmu := Float.sqrt qmu in
  let sqrt_qmuA := Float.sqrt qmuA in
  let test_statistics :=
    if str_in test_stat ["q"; "q0"] then (sqrt_qmu - sqrt_qmuA)%py
    else if (sqrt_qmu <=? sqrt_qmuA)%py then (sqrt_qmu - sqrt_qmuA)%py
    else ((qmu - qmuA) / (Finite 2 * sqrt_qmuA))%py in
  (sqrt_qmu, sqrt_qmuA, test_statistics).

(** The bracketing of this file: both bounds start at 1.0, the steps
    are a factor of ten. *)
Definition find_root_limits (fuel : nat) (computer : pyfloat -> pyfloat)
    (loc : pyfloat) : option (pyfloat * pyfloat) :=
  let low := Finite 1 in
  let hig := Finite 1 in
  match lower_loop computer loc (Finite 0.1) fuel low with
  | None => None
  | Some low =>
      match upper_loop computer loc (Finite 10) fuel hig with
      | None => None
      | Some hig => Some (low, hig)
      end
  end.

Section WithCdf.
(** [np.float32], the cast to single precision, and the standard normal
    cumulative distribution function. *)
Variable float32 : pyfloat -> pyfloat.
Variable norm_cdf : pyfloat -> pyfloat.

(** [np.true_divide(CLsb, CLb, dtype=np.float32)] divides in single
    precision: the two numbers are cast to single precision and their
    quotient is a single-precision number.  The test [CLb != 0.0] is on
    the number before the cast. *)
Definition pvalues (teststatistic : pyfloat)
    (sig_plus_bkg_distribution bkg_only_distribution :
       AsymptoticTestStatisticsDistribution) : pyval * pyval * pyval :=
  let CLsb := pvalue norm_cdf sig_plus_bkg_distribution teststatistic in
  let CLb := pvalue norm_cdf bkg_only_distribution teststatistic in
  let CLs := float32 (float32 CLsb / float32 CLb)%py in
  (VList [VFloat CLsb], VList [VFloat CLb],
   VList [VFloat (if (CLb !=? Finite 0)%py then CLs else Finite 0)]).

(** [list(map(list, zip( *[pvalues(...) for nsigma in ...])))]: the
    five triples, transposed into three rows of five. *)
Definition expected_pvalues
    (sig_plus_bkg_distribution bkg_only_distribution :
       AsymptoticTestStatisticsDistribution) : pyval * pyval * pyval :=
  let rows :=
    map (fun nsigma =>
           pvalues (expected_value bkg_only_distribution nsigma)
             sig_plus_bkg_distribution bkg_only_distribution)
        [Finite 2; Finite 1; Finite 0; Finite (-1); Finite (-2)] in
  (VList (map (fun r => fst (fst r)) rows),
   VList (map (fun r => snd (fst r)) rows),
   VList (map snd rows)).

(** The two distributions [compute_confidence_level] builds. *)
Definition sig_plus_bkg_distribution (sqrt_qmuA : pyfloat) :
    AsymptoticTestStatisticsDistribution :=
  new (- sqrt_qmuA)%py (Some NInf).

Definition bkg_only_distribution : AsymptoticTestStatisticsDistribution :=
  new (Finite 0) (Some NInf).

Definition compute_confidence_level (sqrt_qmuA test_statistic : pyfloat)
    (expected : ExpectationType) (test_stat : string) : pyval :=
  let sig_plus_bkg_distribution := sig_plus_bkg_distribution sqrt_qmuA in
  let bkg_only_distribution := bkg_only_distribution in
  let '(CLsb, CLb, CLs) :=
    if bool_decide (expected ∈ [observed; apriori])
    then pvalues test_statistic sig_plus_bkg_distribution
           bkg_only_distribution
    else expected_pvalues sig_plus_bkg_distribution
           bkg_only_distribution in
  if String.eqb test_stat "qtilde" then CLs else CLsb.
End WithCdf.

End UtilsCls.

(** ** spey/hypothesis_testing/upper_limits.py *)

Module UpperLimits.

(** The bracketing of this file: the caller gives the two starting
    bounds, the steps are a factor of two. *)
Definition find_root_limits (fuel : nat) (computer : pyfloat -> pyfloat)
    (loc low_ini hig_ini : pyfloat) : option (pyfloat * pyfloat) :=
  let low := low_ini in
  let hig := hig_ini in
  match lower_loop computer loc (Finite 0.5) fuel low with
  | None => None
  | Some low =>
      match upper_loop computer loc (Finite 2) fuel hig with
      | None => None
      | Some hig => Some (low, hig)
      end
  end.

(** What [scipy.optimize.toms748(..., full_output=True)] reports next to
    the root. *)
Record RootResults : Type := {
  converged : bool;
  repr : string
}.

(** [test_stat = "q" if allow_negative_signal else "qtilde"] *)
Definition test_stat_of (allow_negative_signal : bool) : string :=
  if allow_negative_signal then "q" else "qtilde".

(** [init = 1.0 if not init or not np.isnan(init) else init]; [None] is
    Python's [None]. *)
Definition checked_init (init : option pyfloat) : pyfloat :=
  match init with
  | None => Finite 1
  | Some v =>
      if negb (Float.truthy v) || negb (Float.isnan v) then Finite 1 else v
  end.

(** [index_range[expected_pvalue]] *)
Definition index_range (expected : ExpectationType)
    (expected_pvalue : string) : list nat :=
  if String.eqb expected_pvalue "nominal"
  then [if bool_decide (expected = observed) then 0%nat else 2%nat]
  else if String.eqb expected_pvalue "1sigma" then [1; 2; 3]%nat
  else [0; 1; 2; 3; 4]%nat.

Section FindPoiUpperLimit.
(** Two functions that [upper_limits.py] imports and the sources do not
    contain, and scipy's root finder:
    [spey.hypothesis_testing.test_statistics.compute_teststatistics],
    which returns [(sqrt_qmu, sqrt_qmuA, delta_teststat)];
    [spey.hypothesis_testing.utils.compute_confidence_level], called with
    three arguments and indexed by [0] (observed) or [1] (expected band),
    of which [Utils.compute_confidence_level] below is the model;
    [scipy.optimize.toms748]. *)
Variable compute_teststatistics :
  pyfloat -> pyfloat * pyfloat -> (pyfloat -> pyfloat) ->
  pyfloat * pyfloat -> (pyfloat -> pyfloat) -> string ->
  pyfloat * pyfloat * pyfloat.
Variable compute_confidence_level :
  pyfloat -> pyfloat -> string -> list pyfloat * list pyfloat.
Variable toms748 :
  (pyfloat -> pyfloat) -> pyfloat -> pyfloat -> Z ->
  outcome (pyfloat * RootResults).

Variable maximum_likelihood : pyfloat * pyfloat.
Variable logpdf : pyfloat -> pyfloat.
Variable maximum_asimov_likelihood : pyfloat * pyfloat.
Variable asimov_logpdf : pyfloat -> pyfloat.
Variable expected : ExpectationType.
Variable confidence_level : pyfloat.

(** The closure [computer] of [find_poi_upper_limit].  [pvalue_idx] comes
    from [index_range]; an index past the end of the list (an IndexError
    in Python) reads as NaN here. *)
Definition computer (test_stat : string) (poi_test : pyfloat)
    (pvalue_idx : nat) : pyfloat :=
  let '(_, sqrt_qmuA, delta_teststat) :=
    compute_teststatistics poi_test maximum_likelihood logpdf
      maximum_asimov_likelihood asimov_logpdf test_stat in
  let levels := compute_confidence_level sqrt_qmuA delta_teststat test_stat in
  let pvalue :=
    map (fun x => (Finite 1 - x)%py)
      (if bool_decide (expected = observed) then fst levels else snd levels) in
  (nth pvalue_idx pvalue NaN - confidence_level)%py.

(** The body of [for pvalue_idx in index_range[expected_pvalue]]. *)
Fixpoint solve_each (fuel : nat) (test_stat : string)
    (low_init hig_init : pyfloat) (maxiter : Z) (indices : list nat) :
    option (outcome (list pyfloat * list warning)) :=
  match indices with
  | [] => Some (Returns ([], []))
  | pvalue_idx :: rest =>
      let comp := fun poi_test => computer test_stat poi_test pvalue_idx in
      match find_root_limits fuel comp (Finite 0) low_init hig_init with
      | None => None
      | Some (low, hig) =>
          match toms748 comp low hig maxiter with
          | Raises e => Some (Raises e)
          | Returns (x0, r) =>
              let warned :=
                if converged r then []
                else [RuntimeWarning
                        ("Optimiser did not converge."
                         +:+ String "010"%char (repr r))] in
              match solve_each fuel test_stat low_init hig_init maxiter rest
              with
              | Some (Returns (result, warnings)) =>
                  Some (Returns (x0 :: result, warned ++ warnings))
              | other => other
              end
          end
      end
  end.

(** [None]: a bracketing loop did not stop within the fuel. *)
Definition find_poi_upper_limit (fuel : nat) (allow_negative_signal : bool)
    (low_init hig_init : option pyfloat) (expected_pvalue : string)
    (maxiter : Z) : option (outcome (pyval * list warning)) :=
  if negb (str_in expected_pvalue ["nominal"; "1sigma"; "2sigma"])
  then Some (Raises (AssertionError
                       ("Unknown pvalue range " +:+ expected_pvalue)))
  else
    let expected_pvalue :=
      if bool_decide (expected = observed) then "nominal"
      else expected_pvalue in
    let test_stat := test_stat_of allow_negative_signal in
    let low_init := checked_init low_init in
    let hig_init := checked_init hig_init in
    match solve_each fuel test_stat low_init hig_init maxiter
            (index_range expected expected_pvalue) with
    | None => None
    | Some (Raises e) => Some (Raises e)
    | Some (Returns (result, warnings)) =>
        (* return result if len(result) > 1 else result[0] *)
        match result with
        | [] => Some (Raises IndexError)
        | [x0] => Some (Returns (VFloat x0, warnings))
        | _ => Some (Returns (VList (map VFloat result), warnings))
        end
    end.
End FindPoiUpperLimit.

End UpperLimits.

(** ** spey/hypothesis_testing/utils.py (not among the sources) *)

Module Utils.
Import AsymptoticCalculator.

Section WithCdf.
Variable norm_cdf : pyfloat -> pyfloat.

(** Modelled from the spec: CLs at the test statistic [x], as the
    missing [compute_confidence_level] of
    [spey/hypothesis_testing/utils.py] is described to compute it: CLsb
    and CLb are the p-values of the two distributions, and CLs is their
    quotient, defined as 0 when CLb is 0. *)
Definition CLs (sig_plus_bkg_distribution bkg_only_distribution :
                  AsymptoticTestStatisticsDistribution) (x : pyfloat) :
    pyfloat :=
  let CLsb := pvalue norm_cdf sig_plus_bkg_distribution x in
  let CLb := pvalue norm_cdf bkg_only_distribution x in
  if (CLb ==? Finite 0)%py then Finite 0 else (CLsb / CLb)%py.

(** Modelled from the spec: [compute_confidence_level] of
    [spey/hypothesis_testing/utils.py], which [upper_limits.py] imports
    and calls as [compute_confidence_level(sqrt_qmuA, delta_teststat,
    test_stat)[0 or 1]]; that file is missing from the sources.  By the
    specification the confidence levels of the upper-limit solver are
    CLs values, for either kind of test statistic.  The
    signal-plus-background distribution has the shift [-sqrt_qmuA], the
    background-only one the shift 0; both are unbounded to the left,
    except that the expected computations use the cutoff 0 on the
    signal-plus-background side.  Entry 0 of the result is the observed
    CLs, one value at the given test statistic; entry 1 is the expected
    band, five values at the expected values of the background-only
    distribution at 2, 1, 0, -1 and -2 sigma, in this order. *)
Definition compute_confidence_level (sqrt_qmuA delta_teststat : pyfloat)
    (test_stat : string) : list pyfloat * list pyfloat :=
  let bkg_only := new (Finite 0) None in
  ([CLs (new (- sqrt_qmuA)%py None) bkg_only delta_teststat],
   map (fun nsigma =>
          CLs (new (- sqrt_qmuA)%py (Some (Finite 0))) bkg_only
            (expected_value bkg_only nsigma))
       [Finite 2; Finite 1; Finite 0; Finite (-1); Finite (-2)]).
End WithCdf.

End Utils.

(** ** madstats/base/recorder.py *)

Module Recorder.

(** A dictionary with one entry per expectation type, as [__init__]
    builds them (the keys are [str(ExpectationType.x)]). *)
Record per_expected (A : Type) : Type := {
  at_observed : A;
  at_aposteriori : A;
  at_apriori : A
}.
Arguments at_observed {A} _.
Arguments at_aposteriori {A} _.
Arguments at_apriori {A} _.

Definition getitem {A : Type} (d : per_expected A)
    (expected : ExpectationType) : A :=
  match expected with
  | observed => at_observed d
  | aposteriori => at_aposteriori d
  | apriori => at_apriori d
  end.

Definition setitem {A : Type} (d : per_expected A)
    (expected : ExpectationType) (v : A) : per_expected A :=
  match expected with
  | observed =>
      {| at_observed := v; at_aposteriori := at_aposteriori d;
         at_apriori := at_apriori d |}
  | aposteriori =>
      {| at_observed := at_observed d; at_aposteriori := v;
         at_apriori := at_apriori d |}
  | apriori =>
      {| at_observed := at_observed d; at_aposteriori := at_aposteriori d;
         at_apriori := v |}
  end.

(** A dictionary from floats to floats, in insertion order; keys are
    compared with [==], so a NaN key is never found again. *)
Fixpoint dict_get (k : pyfloat) (d : list (pyfloat * pyfloat)) :
    option pyfloat :=
  match d with
  | [] => None
  | (k', v) :: d' => if (k' ==? k)%py then Some v else dict_get k d'
  end.

Fixpoint dict_update (k v : pyfloat) (d : list (pyfloat * pyfloat)) :
    list (pyfloat * pyfloat) :=
  match d with
  | [] => [(k, v)]
  | (k', v') :: d' =>
      if (k' ==? k)%py then (k', v) :: d' else (k', v') :: dict_update k v d'
  end.

(** An instance.  [None] is the [False] a slot holds before its first
    record. *)
Record Recorder : Type := {
  _poi_test_record : per_expected (list (pyfloat * pyfloat));
  _maximum_likelihood_record : per_expected (option (pyfloat * pyfloat))
}.

Definition __init__ : Recorder :=
  {| _poi_test_record :=
       {| at_observed := []; at_aposteriori := []; at_apriori := [] |};
     _maximum_likelihood_record :=
       {| at_observed := None; at_aposteriori := None; at_apriori := None |}
  |}.

(** The class attribute [Recorder.RECORD] is the state the three static
    methods work on. *)
Definition RECORD_default : bool := false.
Definition turn_off (RECORD : bool) : bool := false.
Definition turn_on (RECORD : bool) : bool := true.
Definition is_on (RECORD : bool) : bool := RECORD.

Section Methods.
(** [np.float32], the cast to single precision. *)
Variable float32 : pyfloat -> pyfloat.

(** [None] is the returned [False]. *)
Definition get_poi_test (RECORD : bool) (self : Recorder)
    (expected : ExpectationType) (poi_test : pyfloat) : option pyfloat :=
  let poi_test := float32 poi_test in
  if is_on RECORD
  then dict_get poi_test (getitem (_poi_test_record self) expected)
  else None.

Definition get_maximum_likelihood (RECORD : bool) (self : Recorder)
    (expected : ExpectationType) : option (pyfloat * pyfloat) :=
  if is_on RECORD
  then getitem (_maximum_likelihood_record self) expected
  else None.

Definition record_poi_test (self : Recorder)
    (expected : ExpectationType) (poi_test negative_loglikelihood : pyfloat) :
    Recorder :=
  let poi_test := float32 poi_test in
  let negative_loglikelihood := float32 negative_loglikelihood in
  {| _poi_test_record :=
       setitem (_poi_test_record self) expected
         (dict_update poi_test negative_loglikelihood
            (getitem (_poi_test_record self) expected));
     _maximum_likelihood_record := _maximum_likelihood_record self |}.

Definition record_maximum_likelihood (RECORD : bool) (self : Recorder)
    (expected : ExpectationType) (poi_test negative_loglikelihood : pyfloat) :
    Recorder :=
  let poi_test := float32 poi_test in
  let negative_loglikelihood := float32 negative_loglikelihood in
  let record := true in
  let record :=
    match get_maximum_likelihood RECORD self expected with
    | Some (_, stored) =>
        if (stored <? negative_loglikelihood)%py then false else record
    | None => record
    end in
  if record
  then {| _poi_test_record := _poi_test_record self;
          _maximum_likelihood_record :=
            setitem (_maximum_likelihood_record self) expected
              (Some (poi_test, negative_loglikelihood)) |}
  else self.

(** A sequence of [record_maximum_likelihood(expected, poi, nll)] calls on
    one instance, first call first. *)
Definition record_maximum_likelihoods (RECORD : bool) (self : Recorder)
    (expected : ExpectationType) (calls : list (pyfloat * pyfloat)) :
    Recorder :=
  fold_left
    (fun self call =>
       record_maximum_likelihood RECORD self expected (fst call) (snd call))
    calls self.
End Methods.

End Recorder.

(** ** spey/combiner/statistics_combiner.py *)

(** What the combiner uses of a [StatisticalModel] (its class is not among
    the sources): its name, the string of its backend type, and its
    [likelihood(poi_test, expected, ** kwargs)], which returns a number or
    raises. *)
Module StatisticalModel.

Record StatisticalModel : Type := {
  analysis : string;
  backend_type : string;
  likelihood : pyfloat -> ExpectationType -> gmap string pyval ->
               outcome pyfloat
}.

End StatisticalModel.

Module StatisticsCombiner.
Import StatisticalModel.

(** The slot [_recorder] is not used by [likelihood]. *)
Record StatisticsCombiner : Type := {
  _statistical_models : list StatisticalModel
}.

Section Likelihood.
(** [f"{poi_test:.3f}"] *)
Variable format_3f : pyfloat -> string.

Definition nan_message (msg : string) (poi_test : pyfloat) : string :=
  msg +:+ String "010"%char "Setting NLL(" +:+ format_3f poi_test
      +:+ ") = nan".

(** The [for statistical_model in self] loop of [likelihood], from the
    running [nll]. *)
Fixpoint likelihood_loop (poi_test : pyfloat) (expected : ExpectationType)
    (kwargs : gmap string (gmap string pyval))
    (models : list StatisticalModel) (nll : pyfloat) :
    outcome (pyfloat * list warning) :=
  match models with
  | [] => Returns (nll, [])
  | statistical_model :: rest =>
      let current_kwargs :=
        default ∅ (kwargs !! backend_type statistical_model) in
      let step :=
        match StatisticalModel.likelihood statistical_model poi_test
                expected current_kwargs
        with
        | Returns value => Returns ((nll + value)%py, [])
        | Raises (NegativeExpectedYields msg) =>
            Returns (NaN, [RuntimeWarning (nan_message msg poi_test)])
        | Raises err => Raises err
        end in
      match step with
      | Raises err => Raises err
      | Returns (nll, warned) =>
          if Float.isnan nll then Returns (nll, warned)
          else
            match likelihood_loop poi_test expected kwargs rest nll with
            | Returns (nll, warnings) => Returns (nll, warned ++ warnings)
            | Raises err => Raises err
            end
      end
  end.

Definition likelihood (self : StatisticsCombiner)
    (poi_test : pyfloat) (expected : ExpectationType) (return_nll : bool)
    (kwargs : gmap string (gmap string pyval)) :
    outcome (pyfloat * list warning) :=
  match likelihood_loop poi_test expected kwargs
          (_statistical_models self) (Finite 0) with
  | Raises err => Raises err
  | Returns (nll, warnings) =>
      Returns (if return_nll || Float.isnan nll then nll
               else Float.exp (- nll)%py, warnings)
  end.
End Likelihood.

End StatisticsCombiner.

(** ** spey/optimizer/core.py *)

Module OptimizerCore.

(** [lambda v: v[poi_index] - fixed_poi_value], by what it captures. *)
Inductive closure : Type :=
| PoiMinusFixed (poi_index : Z) (fixed_poi_value : pyfloat).

(** A constraint dictionary [{"type": ..., "fun": ...}]. *)
Record constraint : Type := {
  c_type : string;
  c_fun : closure
}.

(** Keyword options handed on to the minimiser. *)
Inductive pyopt : Type :=
| OptInt (n : Z)
| OptFloat (x : pyfloat)
| OptStr (s : string).

(** The list objects of the program, by address: lists of numbers, of
    bound pairs and of constraint dictionaries.  An argument that is a
    list is the address of its object, so that a change made through one
    name is seen through every other. *)
Definition loc : Type := positive.

Record store : Type := {
  float_lists : gmap loc (list pyfloat);
  bound_lists : gmap loc (list (pyfloat * pyfloat));
  constraint_lists : gmap loc (list constraint)
}.

(** A fresh list object. *)
Definition new_floats (xs : list pyfloat) (st : store) : loc * store :=
  let l := fresh (dom (float_lists st)) in
  (l, {| float_lists := <[l := xs]> (float_lists st);
         bound_lists := bound_lists st;
         constraint_lists := constraint_lists st |}).

Definition new_bounds (xs : list (pyfloat * pyfloat)) (st : store) :
    loc * store :=
  let l := fresh (dom (bound_lists st)) in
  (l, {| float_lists := float_lists st;
         bound_lists := <[l := xs]> (bound_lists st);
         constraint_lists := constraint_lists st |}).

Definition new_constraints (xs : list constraint) (st : store) :
    loc * store :=
  let l := fresh (dom (constraint_lists st)) in
  (l, {| float_lists := float_lists st;
         bound_lists := bound_lists st;
         constraint_lists := <[l := xs]> (constraint_lists st) |}).

(** [l[i] = v] on a Python list: a negative index counts from the end,
    an index out of range raises IndexError ([None]). *)
Definition list_setitem {A : Type} (l : list A) (i : Z) (v : A) :
    option (list A) :=
  let n := Z.of_nat (length l) in
  let j := if (i <? 0)%Z then (i + n)%Z else i in
  if ((0 <=? j)%Z && (j <? n)%Z)%bool
  then Some (<[Z.to_nat j := v]> l)
  else None.

(** What [fit] reads of a [ModelConfig] (its class is not among the
    sources). *)
Record ModelConfig : Type := {
  poi_index : Z;
  suggested_init : list pyfloat;
  fixed_poi_bounds : option pyfloat -> list (pyfloat * pyfloat)
}.

(** The first three statements of [fit]:
    [init_pars = [*(initial_parameters or model_configuration.suggested_init)]],
    [par_bounds = [*(bounds or model_configuration.fixed_poi_bounds(fixed_poi_value))]],
    [constraints = constraints if constraints is not None else []].
    The two copies and the empty list are new objects; a given
    [constraints] is the caller's object itself. *)
Definition fit_lists (model_configuration : ModelConfig)
    (initial_parameters bounds : option loc)
    (fixed_poi_value : option pyfloat) (constraints : option loc)
    (st : store) : option (loc * loc * loc * store) :=
  initial ← match initial_parameters with
            | None => Some (suggested_init model_configuration)
            | Some l =>
                xs ← float_lists st !! l;
                Some (match xs with
                      | [] => suggested_init model_configuration
                      | _ => xs
                      end)
            end;
  let '(init_pars, st) := new_floats initial st in
  bound ← match bounds with
          | None => Some (fixed_poi_bounds model_configuration fixed_poi_value)
          | Some l =>
              xs ← bound_lists st !! l;
              Some (match xs with
                    | [] => fixed_poi_bounds model_configuration
                              fixed_poi_value
                    | _ => xs
                    end)
          end;
  let '(par_bounds, st) := new_bounds bound st in
  let '(constraints, st) :=
    match constraints with
    | Some l => (l, st)
    | None => new_constraints [] st
    end in
  Some (init_pars, par_bounds, constraints, st).

(** [if fixed_poi_value is not None:
       init_pars[model_configuration.poi_index] = fixed_poi_value
       constraints.append({"type": "eq", "fun": lambda v: ...})] *)
Definition fit_fix_poi (model_configuration : ModelConfig)
    (fixed_poi_value : option pyfloat) (init_pars constraints : loc)
    (st : store) : option (outcome store) :=
  match fixed_poi_value with
  | None => Some (Returns st)
  | Some value =>
      pars ← float_lists st !! init_pars;
      match list_setitem pars (poi_index model_configuration) value with
      | None => Some (Raises IndexError)
      | Some pars =>
          let st := {| float_lists := <[init_pars := pars]> (float_lists st);
                       bound_lists := bound_lists st;
                       constraint_lists := constraint_lists st |} in
          cs ← constraint_lists st !! constraints;
          Some (Returns
            {| float_lists := float_lists st;
               bound_lists := bound_lists st;
               constraint_lists :=
                 <[constraints :=
                     cs ++ [{| c_type := "eq";
                               c_fun := PoiMinusFixed
                                          (poi_index model_configuration)
                                          value |}]]>
                   (constraint_lists st) |})
      end
  end.

Section Fit.
(** The objective and Hessian are only handed on. *)
Variable objective : Type.
(** [minimize] of [spey/optimizer/scipy_tools.py], which the sources do
    not contain.  It is given the contents of the three lists and returns
    [(fun, x)] or raises; it is taken not to modify the lists. *)
Variable minimize :
  objective -> list pyfloat -> bool -> option objective ->
  list (pyfloat * pyfloat) -> list constraint -> gmap string pyopt ->
  outcome (pyfloat * list pyfloat).

(** [fit], from the store [st] in which its list arguments live.
    [None]: an argument is not the address of a list of its kind. *)
Definition fit (func : objective) (model_configuration : ModelConfig)
    (do_grad : bool) (hessian : option objective)
    (initial_parameters : option loc) (bounds : option loc)
    (fixed_poi_value : option pyfloat)
    (logpdf : option (list pyfloat -> pyfloat))
    (constraints : option loc) (options : gmap string pyopt)
    (st : store) : option (outcome (pyfloat * list pyfloat) * store) :=
  '(init_pars, par_bounds, constraints, st) ←
    fit_lists model_configuration initial_parameters bounds fixed_poi_value
      constraints st;
  written ← fit_fix_poi model_configuration fixed_poi_value init_pars
              constraints st;
  match written with
  | Raises err => Some (Raises err, st)
  | Returns st =>
      let options :=
        <["poi_index" := OptInt (poi_index model_configuration)]> options in
      pars ← float_lists st !! init_pars;
      bnds ← bound_lists st !! par_bounds;
      cs ← constraint_lists st !! constraints;
      match minimize func pars do_grad hessian bnds cs options with
      | Raises err => Some (Raises err, st)
      | Returns (fun_, x) =>
          Some (Returns (match logpdf with
                         | None => fun_
                         | Some logpdf => logpdf x
                         end, x), st)
      end
  end.
End Fit.

End OptimizerCore.

(** ** spey/combiner/statistics_combiner.py, the other methods *)

Module Combiner.
Import StatisticalModel StatisticsCombiner.

(** The exceptions of these methods; the text of a ValueError is the
    interpreter's and is left out. *)
Inductive error : Type :=
| AnalysisQueryError (msg : string)
| TypeError (msg : string)
| ListIndexError
| ValueError
| RuntimeWarningRaised (msg : string)
| Uncaught (e : exn).

Inductive result (A : Type) : Type :=
| Ok (a : A)
| Raise (e : error).
Arguments Ok {A} a.
Arguments Raise {A} e.

(** What these methods read of the result of
    [scipy.optimize.minimize]; [x] is the one entry of the array
    [opt.x]. *)
Record OptimizeResult : Type := {
  success : bool;
  fun_ : pyfloat;
  x : pyfloat
}.

(** An argument of [append]: a [StatisticalModel], or an object of
    another type, by the text of its type. *)
Inductive pyobject : Type :=
| Model (m : StatisticalModel)
| Other (type_repr : string).

(** [[model.analysis for model in self]] *)
Definition analyses (self : StatisticsCombiner) : list string :=
  map analysis (_statistical_models self).

(** [__len__] *)
Definition len (self : StatisticsCombiner) : nat :=
  length (_statistical_models self).

Definition append (self : StatisticsCombiner) (statistical_model : pyobject) :
    result StatisticsCombiner :=
  match statistical_model with
  | Model m =>
      if str_in (analysis m) (analyses self)
      then Raise (AnalysisQueryError (analysis m +:+ " already exists."))
      else Ok {| _statistical_models := _statistical_models self ++ [m] |}
  | Other type_repr =>
      Raise (TypeError ("Can not append type " +:+ type_repr +:+ "."))
  end.

(** [__init__( *args)]: the arguments are appended one by one to the empty
    list; the first failing [append] ends the construction. *)
Fixpoint append_all (self : StatisticsCombiner) (args : list pyobject) :
    result StatisticsCombiner :=
  match args with
  | [] => Ok self
  | arg :: rest =>
      match append self arg with
      | Ok self => append_all self rest
      | Raise e => Raise e
      end
  end.

Definition __init__ (args : list pyobject) : result StatisticsCombiner :=
  append_all {| _statistical_models := [] |} args.

(** An [item] of [__getitem__]: an integer or a name (slices are left
    out). *)
Inductive item : Type :=
| ItemInt (i : Z)
| ItemStr (name : string).

(** [l[i]] on a Python list. *)
Definition list_getitem {A : Type} (l : list A) (i : Z) : option A :=
  let n := Z.of_nat (length l) in
  let j := if (i <? 0)%Z then (i + n)%Z else i in
  if ((0 <=? j)%Z && (j <? n)%Z)%bool then l !! Z.to_nat j else None.

(** [for model in self: if model.analysis == item: return model] *)
Fixpoint first_named (name : string) (models : list StatisticalModel) :
    option StatisticalModel :=
  match models with
  | [] => None
  | model :: rest =>
      if String.eqb (analysis model) name then Some model
      else first_named name rest
  end.

Definition __getitem__ (self : StatisticsCombiner) (it : item) :
    result StatisticalModel :=
  match it with
  | ItemInt i =>
      if (i <? Z.of_nat (len self))%Z
      then match list_getitem (_statistical_models self) i with
           | Some model => Ok model
           | None => Raise ListIndexError
           end
      else Raise (AnalysisQueryError
                    "Request exceeds number of statistical models available.")
  | ItemStr name =>
      match first_named name (_statistical_models self) with
      | Some model => Ok model
      | None =>
          Raise (AnalysisQueryError
                   ("'" +:+ name +:+ "' is not among the analyses."))
      end
  end.

(** The loop of [remove]: the last model of that name, if any. *)
Fixpoint last_named (name : string) (models : list StatisticalModel)
    (to_remove : option StatisticalModel) : option StatisticalModel :=
  match models with
  | [] => to_remove
  | model :: rest =>
      last_named name rest
        (if String.eqb (analysis model) name then Some model else to_remove)
  end.

(** [l.remove(x)]: the first element that is, or equals, [x] goes;
    [None] is the ValueError of a list without such an element. *)
Fixpoint list_remove {A : Type} (same : A -> A -> bool) (x : A) (l : list A) :
    option (list A) :=
  match l with
  | [] => None
  | y :: rest =>
      if same y x then Some rest
      else match list_remove same x rest with
           | Some rest => Some (y :: rest)
           | None => None
           end
  end.

(** The position of Python's [min(xs)] in a non-empty list: a later
    element replaces the running minimum only when it is [<]. *)
Fixpoint min_position (best : nat) (best_value : pyfloat) (i : nat)
    (xs : list pyfloat) : nat :=
  match xs with
  | [] => best
  | x :: xs =>
      if (x <? best_value)%py then min_position i x (S i) xs
      else min_position best best_value (S i) xs
  end.

(** Python's [max] of a non-empty sequence, from its first element. *)
Definition py_max (first : pyfloat) (rest : list pyfloat) : pyfloat :=
  fold_left Float.max rest first.

(** [xs.index(x)] where [x] is the object at position [p] of [xs]: the
    first position that holds that object or a number equal to it. *)
Fixpoint index_of_position (p : nat) (value : pyfloat) (i : nat)
    (xs : list pyfloat) : option nat :=
  match xs with
  | [] => None
  | x :: xs =>
      if Nat.eqb i p || (x ==? value)%py then Some i
      else index_of_position p value (S i) xs
  end.

Section Members.
(** What these methods read of a member and its backend, next to the
    name: whether two model objects are the same or compare equal
    ([list.remove]), [model.backend.model.minimum_poi], [model.isAlive],
    [model.s95exp], and [model.asimov_likelihood(poi_test, expected,
    test_statistics, ** kwargs)]. *)
Variable same_model : StatisticalModel -> StatisticalModel -> bool.
Variable minimum_poi_of : StatisticalModel -> pyfloat.
Variable isAlive_of : StatisticalModel -> bool.
Variable s95exp_of : StatisticalModel -> pyfloat.
Variable asimov_likelihood_of :
  StatisticalModel -> pyfloat -> ExpectationType -> string ->
  gmap string pyval -> outcome pyfloat.

Definition remove (self : StatisticsCombiner) (analysis : string) :
    result StatisticsCombiner :=
  match last_named analysis (_statistical_models self) None with
  | None =>
      Raise (AnalysisQueryError
               ("'" +:+ analysis +:+ "' is not among the analyses."))
  | Some to_remove =>
      match list_remove same_model to_remove (_statistical_models self) with
      | Some models => Ok {| _statistical_models := models |}
      | None => Raise ValueError
      end
  end.

(** [max(model.backend.model.minimum_poi for model in self)] *)
Definition minimum_poi (self : StatisticsCombiner) : result pyfloat :=
  match map minimum_poi_of (_statistical_models self) with
  | [] => Raise ValueError
  | first :: rest => Ok (py_max first rest)
  end.

(** [any(model.isAlive for model in self)] *)
Definition isAlive (self : StatisticsCombiner) : bool :=
  existsb isAlive_of (_statistical_models self).

(** [results = [model.s95exp for model in self];
     return self[results.index(min(results))]] *)
Definition find_most_sensitive (self : StatisticsCombiner) :
    result StatisticalModel :=
  let results := map s95exp_of (_statistical_models self) in
  match results with
  | [] => Raise ValueError
  | first :: rest =>
      let p := min_position 0 first 1 rest in
      match index_of_position p (nth p results NaN) 0 results with
      | None => Raise ValueError
      | Some index => __getitem__ self (ItemInt (Z.of_nat index))
      end
  end.

(** The loop of [asimov_likelihood], from the running [nll]: a member's
    exception is not caught. *)
Fixpoint asimov_likelihood_loop (poi_test : pyfloat)
    (expected : ExpectationType) (test_statistics : string)
    (kwargs : gmap string (gmap string pyval))
    (models : list StatisticalModel) (nll : pyfloat) : outcome pyfloat :=
  match models with
  | [] => Returns nll
  | statistical_model :: rest =>
      let current_kwargs :=
        default ∅ (kwargs !! backend_type statistical_model) in
      match asimov_likelihood_of statistical_model poi_test expected
              test_statistics current_kwargs with
      | Raises err => Raises err
      | Returns value =>
          let nll := (nll + value)%py in
          if Float.isnan nll then Returns nll
          else asimov_likelihood_loop poi_test expected test_statistics
                 kwargs rest nll
      end
  end.

Definition asimov_likelihood (self : StatisticsCombiner)
    (poi_test : pyfloat) (expected : ExpectationType) (return_nll : bool)
    (test_statistics : string) (kwargs : gmap string (gmap string pyval)) :
    outcome pyfloat :=
  match asimov_likelihood_loop poi_test expected test_statistics kwargs
          (_statistical_models self) (Finite 0) with
  | Raises err => Raises err
  | Returns nll =>
      Returns (if return_nll || Float.isnan nll then nll
               else Float.exp (- nll)%py)
  end.
(** *** The two fits of the combined likelihood *)

(** [f"{poi_test:.3f}"] of [likelihood]; of a member, the first entry of
    [maximize_likelihood(expected=expected)] and
    [sigma_mu(mu, expected=expected)], both taken to return; and
    [scipy.optimize.minimize(fun, x0, method="SLSQP", bounds=[(low, high)],
    tol=1e-6, options={"maxiter": maxiter})], which calls the objective
    and returns its result, next to the warnings its calls gave, or lets
    an exception of the objective through. *)
Variable format_3f : pyfloat -> string.
Variable maximize_likelihood_of :
  StatisticalModel -> ExpectationType -> pyfloat.
Variable sigma_mu_of :
  StatisticalModel -> pyfloat -> ExpectationType -> pyfloat.
Variable scipy_minimize :
  (pyfloat -> outcome (pyfloat * list warning)) -> pyfloat ->
  pyfloat * pyfloat -> Z -> outcome (OptimizeResult * list warning).

(** [np.sum] of an array. *)
Definition np_sum (xs : list pyfloat) : pyfloat :=
  fold_left Float.add xs (Finite 0).

(** [np.sum(np.power(_sigma_mu, -2))
     * np.sum(np.true_divide(_mu, np.square(_sigma_mu)))] *)
Definition mu_init (self : StatisticsCombiner) (expected : ExpectationType) :
    pyfloat :=
  let _mu :=
    map (fun stat_model => maximize_likelihood_of stat_model expected)
      (_statistical_models self) in
  let _sigma_mu :=
    map (fun stat_model =>
           sigma_mu_of stat_model (maximize_likelihood_of stat_model expected)
             expected)
      (_statistical_models self) in
  (np_sum (map (fun sigma => Finite 1 / (sigma * sigma)) _sigma_mu)
   * np_sum (map (fun pair => fst pair / (snd pair * snd pair))
               (combine _mu _sigma_mu)))%py.

(** The closure [twice_nll] of [maximize_likelihood]. *)
Definition twice_nll (self : StatisticsCombiner) (expected : ExpectationType)
    (kwargs : gmap string (gmap string pyval)) (mu : pyfloat) :
    outcome (pyfloat * list warning) :=
  match likelihood format_3f self mu expected true kwargs with
  | Raises err => Raises err
  | Returns (nll, warnings) => Returns ((Finite 2 * nll)%py, warnings)
  end.

(** The closure [twice_nll] of [maximize_asimov_likelihood]: the call
    passes neither [return_nll] nor [test_statistics], which are then the
    defaults [True] and ["qtilde"]. *)
Definition twice_asimov_nll (self : StatisticsCombiner)
    (expected : ExpectationType) (kwargs : gmap string (gmap string pyval))
    (mu : pyfloat) : outcome (pyfloat * list warning) :=
  match asimov_likelihood self mu expected true "qtilde" kwargs with
  | Raises err => Raises err
  | Returns nll => Returns ((Finite 2 * nll)%py, [])
  end.

(** [(self.minimum_poi if allow_negative_signal else 0.0, poi_upper_bound)] *)
Definition poi_bounds (self : StatisticsCombiner)
    (allow_negative_signal : bool) (poi_upper_bound : pyfloat) :
    result (pyfloat * pyfloat) :=
  if allow_negative_signal
  then match minimum_poi self with
       | Ok low => Ok (low, poi_upper_bound)
       | Raise e => Raise e
       end
  else Ok (Finite 0, poi_upper_bound).

(** The statements after the call of the optimiser:
    [if not opt.success: raise RuntimeWarning(...)],
    [nll, muhat = opt.fun / 2.0, opt.x],
    [return muhat, nll if return_nll else np.exp(-nll)]. *)
Definition fitted (return_nll : bool)
    (opt : outcome (OptimizeResult * list warning)) :
    result (pyfloat * pyfloat) * list warning :=
  match opt with
  | Raises err => (Raise (Uncaught err), [])
  | Returns (opt, warnings) =>
      if negb (success opt)
      then (Raise (RuntimeWarningRaised
                     "Optimiser was not able to reach required precision."),
            warnings)
      else
        let nll := (fun_ opt / Finite 2)%py in
        let muhat := x opt in
        (Ok (muhat, if return_nll then nll else Float.exp (- nll)%py),
         warnings)
  end.

(** The result is [(muhat, nll)] or an exception, next to the warnings
    given on the way. *)
Definition maximize_likelihood (self : StatisticsCombiner)
    (return_nll : bool) (expected : ExpectationType)
    (allow_negative_signal : bool) (poi_upper_bound : pyfloat) (maxiter : Z)
    (kwargs : gmap string (gmap string pyval)) :
    result (pyfloat * pyfloat) * list warning :=
  let mu_init := mu_init self expected in
  match poi_bounds self allow_negative_signal poi_upper_bound with
  | Raise e => (Raise e, [])
  | Ok bounds =>
      fitted return_nll
        (scipy_minimize (twice_nll self expected kwargs) mu_init bounds
           maxiter)
  end.

Definition maximize_asimov_likelihood (self : StatisticsCombiner)
    (return_nll : bool) (expected : ExpectationType)
    (test_statistics : string) (poi_upper_bound : pyfloat)
    (kwargs : gmap string (gmap string pyval)) :
    result (pyfloat * pyfloat) * list warning :=
  let allow_negative_signal := str_in test_statistics ["q"; "qmu"] in
  match poi_bounds self allow_negative_signal poi_upper_bound with
  | Raise e => (Raise e, [])
  | Ok bounds =>
      fitted return_nll
        (scipy_minimize (twice_asimov_nll self expected kwargs) (Finite 0)
           bounds 10000)
  end.
End Members.

End Combiner.

(** ** Vocabulary of the properties *)

(** [f] is decreasing: a larger argument never gives a larger value. *)
Definition decreasing (f : pyfloat -> pyfloat) : Prop :=
  forall x y, (x <=? y)%py = true -> (f y <=? f x)%py = true.

(** [f] takes the value [loc] somewhere in [[1e-10, 1e10]]. *)
Definition crosses (f : pyfloat -> pyfloat) (loc : pyfloat) : Prop :=
  exists x : R, 1e-10 <= x <= 1e10 /\ (f (Finite x) ==? loc)%py = true.

(** The keyword arguments a member is called with. *)
Definition kwargs_of (kwargs : gmap string (gmap string pyval))
    (m : StatisticalModel.StatisticalModel) : gmap string pyval :=
  default ∅ (kwargs !! StatisticalModel.backend_type m).

(** [m] returns [v] at this POI and expectation type. *)
Definition returns (poi_test : pyfloat) (expected : ExpectationType)
    (kwargs : gmap string (gmap string pyval)) (m : StatisticalModel.StatisticalModel)
    (v : pyfloat) : Prop :=
  StatisticalModel.likelihood m poi_test expected (kwargs_of kwargs m)
  = Returns v.

(** The list arguments of [fit] are addresses of lists of their kind. *)
Definition well_addressed (st : OptimizerCore.store)
    (initial_parameters bounds constraints : option OptimizerCore.loc) :
    Prop :=
  (forall l, initial_parameters = Some l ->
     is_Some (OptimizerCore.float_lists st !! l))
  /\ (forall l, bounds = Some l ->
        is_Some (OptimizerCore.bound_lists st !! l))
  /\ (forall l, constraints = Some l ->
        is_Some (OptimizerCore.constraint_lists st !! l)).

(** The lists of [st] are in [st'] with the same contents. *)
Definition preserved (st st' : OptimizerCore.store) : Prop :=
  (forall l xs, OptimizerCore.float_lists st !! l = Some xs ->
     OptimizerCore.float_lists st' !! l = Some xs)
  /\ (forall l xs, OptimizerCore.bound_lists st !! l = Some xs ->
        OptimizerCore.bound_lists st' !! l = Some xs)
  /\ (forall l xs, OptimizerCore.constraint_lists st !! l = Some xs ->
        OptimizerCore.constraint_lists st' !! l = Some xs).

(** The dictionary [fit] appends for a fixed POI. *)
Definition fixed_poi_constraint (model_configuration : OptimizerCore.ModelConfig)
    (value : pyfloat) : OptimizerCore.constraint :=
  {| OptimizerCore.c_type := "eq";
     OptimizerCore.c_fun :=
       OptimizerCore.PoiMinusFixed
         (OptimizerCore.poi_index model_configuration) value |}.

(** [np.float32] on the numbers of the examples (1.0, 2.0, 5.0), which
    single precision represents exactly. *)
Definition float32_exact (x : pyfloat) : pyfloat := x.

(** [np.float32] as far as the range of single precision goes: a number
    of magnitude at most [2^-150], half the least positive
    single-precision number, becomes zero, and one of magnitude at least
    [(2 - 2^-24) * 2^127] an infinity; the rounding of the numbers in
    between is not modelled. *)
Definition single (x : pyfloat) : pyfloat :=
  match x with
  | Finite r =>
      if Float.Rltb (/ 2 ^ 150) (Rabs r)
      then if Float.Rltb (Rabs r) ((2 - / 2 ^ 24) * 2 ^ 127) then Finite r
           else if Float.Rltb 0 r then PInf else NInf
      else Finite 0
  | PInf => PInf
  | NInf => NInf
  | NaN => NaN
  end.

(** A cumulative distribution function to evaluate examples with, that of
    the uniform distribution on [[-2, 2]]: like the standard normal one
    it is 1/2 at zero, nondecreasing, 0 at minus infinity and 1 at plus
    infinity. *)
Definition uniform_cdf (x : pyfloat) : pyfloat :=
  match x with
  | Finite r => Finite (Rmax 0 (Rmin 1 (1 / 2 + r / 4)))
  | PInf => Finite 1
  | NInf => Finite 0
  | NaN => NaN
  end.

(** The standard normal cumulative distribution function at the two
    arguments of the example of [pvalues], to two digits: 3.7e-51 at -15
    and 6.4e-58 at -16.  Elsewhere it is the stand-in [uniform_cdf]. *)
Definition normal_tail (x : pyfloat) : pyfloat :=
  match x with
  | Finite r =>
      if Float.Reqb r (-15) then Finite 3.7e-51
      else if Float.Reqb r (-16) then Finite 6.4e-58
      else uniform_cdf x
  | _ => uniform_cdf x
  end.

(** [F] is nondecreasing on the real numbers (and takes no NaN there). *)
Definition nondecreasing (F : pyfloat -> pyfloat) : Prop :=
  forall x y : R, x <= y -> (F (Finite x) <=? F (Finite y))%py = true.

(** [F] is symmetric around zero as a distribution function:
    [F(-x) = 1 - F(x)]. *)
Definition symmetric_cdf (F : pyfloat -> pyfloat) : Prop :=
  forall x : R, exists p : R,
    F (Finite x) = Finite p /\ F (Finite (- x)) = Finite (1 - p).

(** On the real numbers [F] takes its values in [[0, 1]]. *)
Definition unit_valued (F : pyfloat -> pyfloat) : Prop :=
  forall x : R, exists p : R, F (Finite x) = Finite p /\ 0 <= p <= 1.

(** [f] is strictly increasing on the real numbers. *)
Definition increasing (f : pyfloat -> pyfloat) : Prop :=
  forall x y : R, x < y -> (f (Finite x) <? f (Finite y))%py = true.

(** The value of a call without its warnings. *)
Definition value_of {A W : Type} (r : option (outcome (A * W))) :
    option (outcome A) :=
  match r with
  | None => None
  | Some (Raises e) => Some (Raises e)
  | Some (Returns (a, _)) => Some (Returns a)
  end.

(** The warnings of a call that returns. *)
Definition warnings_of {A W : Type} (r : option (outcome (A * list W))) :
    list W :=
  match r with
  | Some (Returns (_, ws)) => ws
  | _ => []
  end.

(** The root finder with its report of convergence replaced by
    success. *)
Definition always_converged
    (toms748 : (pyfloat -> pyfloat) -> pyfloat -> pyfloat -> Z ->
               outcome (pyfloat * UpperLimits.RootResults))
    (f : pyfloat -> pyfloat) (low hig : pyfloat) (maxiter : Z) :
    outcome (pyfloat * UpperLimits.RootResults) :=
  match toms748 f low hig maxiter with
  | Returns (x0, r) => Returns (x0, {| UpperLimits.converged := true;
                          UpperLimits.repr := UpperLimits.repr r |})
  | Raises e => Raises e
  end.

(** Two model objects count as the same when they carry the same name:
    the comparison of the examples. *)
Definition same_name (a b : StatisticalModel.StatisticalModel) : bool :=
  String.eqb (StatisticalModel.analysis a) (StatisticalModel.analysis b).

(** A member of the examples: its likelihood is [nll] at every POI. *)
Definition constant_member (name : string) (nll : pyfloat) :
    StatisticalModel.StatisticalModel :=
  {| StatisticalModel.analysis := name;
     StatisticalModel.backend_type := "simplified_likelihoods";
     StatisticalModel.likelihood := fun _ _ _ => Returns nll |}.

(** The optimiser of the examples: it stops at its starting point and
    reports the value of the objective there. *)
Definition one_step_minimize
    (objective : pyfloat -> outcome (pyfloat * list warning))
    (x0 : pyfloat) (bounds : pyfloat * pyfloat) (maxiter : Z) :
    outcome (Combiner.OptimizeResult * list warning) :=
  match objective x0 with
  | Raises err => Raises err
  | Returns (value, warnings) =>
      Returns ({| Combiner.success := true; Combiner.fun_ := value;
                  Combiner.x := x0 |}, warnings)
  end.

(** What [fit] returns for a result of [minimize]: the value is that of
    [logpdf] at the minimum when a [logpdf] is given. *)
Definition reported (logpdf : option (list pyfloat -> pyfloat))
    (result : outcome (pyfloat * list pyfloat)) :
    outcome (pyfloat * list pyfloat) :=
  match result with
  | Raises err => Raises err
  | Returns (fun_, x) =>
      Returns (match logpdf with
               | None => fun_
               | Some logpdf => logpdf x
               end, x)
  end.

(** * Properties *)

(** ** Facts about the float model *)

Module FloatFacts.
Import Float.

Lemma Rltb_true (x y : R) : Rltb x y = true <-> x < y.
Proof. unfold Rltb; destruct (Rlt_dec x y); split; (lra || discriminate || auto). Qed.

Lemma Rltb_false (x y : R) : Rltb x y = false <-> y <= x.
Proof. unfold Rltb; destruct (Rlt_dec x y); split; (lra || discriminate || auto). Qed.

Lemma Reqb_true (x y : R) : Reqb x y = true <-> x = y.
Proof. unfold Reqb; destruct (Req_dec_T x y); split; (lra || discriminate || auto). Qed.

Lemma Reqb_false (x y : R) : Reqb x y = false <-> x <> y.
Proof. unfold Reqb; destruct (Req_dec_T x y); split; (lra || discriminate || auto). Qed.

Lemma leb_Finite (x y : R) : leb (Finite x) (Finite y) = true <-> x <= y.
Proof.
  unfold leb; simpl. rewrite orb_true_iff, Rltb_true, Reqb_true. lra.
Qed.

Lemma leb_Finite_false (x y : R) : leb (Finite x) (Finite y) = false <-> y < x.
Proof.
  unfold leb; simpl. rewrite orb_false_iff, Rltb_false, Reqb_false. lra.
Qed.

Lemma eqb_zero (x : pyfloat) : eqb x (Finite 0) = true <-> x = Finite 0.
Proof.
  destruct x; simpl; try (split; discriminate).
  rewrite Reqb_true. split; [intros ->; reflexivity | intros [= ->]; reflexivity].
Qed.

Lemma neb_zero (x : pyfloat) : neb x (Finite 0) = true <-> x <> Finite 0.
Proof.
  unfold neb. rewrite negb_true_iff, <- eqb_zero.
  destruct (eqb x (Finite 0)); split; congruence.
Qed.

Lemma sqrt_Finite (x : R) : 0 <= x -> sqrt (Finite x) = Finite (R_sqrt.sqrt x).
Proof.
  intros Hx; simpl. destruct (Rltb x 0) eqn:E; [|reflexivity].
  apply Rltb_true in E; lra.
Qed.

Lemma isnan_true (x : pyfloat) : isnan x = true <-> x = NaN.
Proof. destruct x; simpl; split; congruence. Qed.

End FloatFacts.

(** Case analysis on the comparisons of reals that a goal tests. *)
Ltac real_cases :=
  repeat match goal with
  | |- context [Float.Rltb ?a ?b] =>
      let E := fresh "E" in
      destruct (Float.Rltb a b) eqn:E;
      [apply FloatFacts.Rltb_true in E | apply FloatFacts.Rltb_false in E]
  | |- context [Float.Reqb ?a ?b] =>
      let E := fresh "E" in
      destruct (Float.Reqb a b) eqn:E;
      [apply FloatFacts.Reqb_true in E | apply FloatFacts.Reqb_false in E]
  end.

(** ** Test statistics ([teststatistics]) *)

Module TestStatisticsSpec.
Import UtilsCls.

Lemma qmu_Finite (nll min_nll : R) :
  qmu (Finite nll) (Finite min_nll) = Finite (Rmax (2 * (nll - min_nll)) 0).
Proof.
  unfold qmu, Rmax; simpl.
  destruct (Rle_dec (2 * (nll - min_nll)) 0); real_cases;
    try lra; f_equal; lra.
Qed.

Lemma qmuA_Finite (nllA min_nllA : R) :
  qmuA (Finite nllA) (Finite min_nllA)
  = Finite (Rmax (2 * (nllA - min_nllA)) 0).
Proof.
  unfold qmuA, Float.max, Float.gtb, Rmax; simpl.
  destruct (Rle_dec (2 * (nllA - min_nllA)) 0); real_cases;
    try lra; f_equal; lra.
Qed.

(** A callable likelihood enters only through its value at the POI. *)
Lemma teststatistics_call_or_value poi aA minA a min kind :
  teststatistics poi aA minA a min kind
  = teststatistics poi (NllVal (call_or_value aA poi)) minA
      (NllVal (call_or_value a poi)) min kind.
Proof. reflexivity. Qed.

(** C3.  For real [nll], [min_nll], [nllA], [min_nllA], [teststatistics]
    returns the square roots of [max(2 (nll - min_nll), 0)] and of
    [max(2 (nllA - min_nllA), 0)]; both clamped values are nonnegative and
    the first is zero when [nll <= min_nll].  The third component is the
    difference of the two roots for the kinds q and q0; for qtilde it is
    that difference when the first root is at most the second, and
    [(qmu - qmuA) / (2 sqrt_qmuA)] otherwise. *)
Theorem teststatistics_real_inputs (poi : pyfloat) (nll min_nll nllA min_nllA : R) :
  let q := Rmax (2 * (nll - min_nll)) 0 in
  let qA := Rmax (2 * (nllA - min_nllA)) 0 in
  let run := teststatistics poi (NllVal (Finite nllA)) (Finite min_nllA)
               (NllVal (Finite nll)) (Finite min_nll) in
  (forall kind, In kind ["q"; "q0"; "qtilde"] ->
     fst (run kind) = (Finite (sqrt q), Finite (sqrt qA)))
  /\ qmu (Finite nll) (Finite min_nll) = Finite q
  /\ qmuA (Finite nllA) (Finite min_nllA) = Finite qA
  /\ 0 <= q /\ 0 <= qA /\ 0 <= sqrt q /\ 0 <= sqrt qA
  /\ (nll <= min_nll -> q = 0)
  /\ snd (run "q") = Finite (sqrt q - sqrt qA)
  /\ snd (run "q0") = Finite (sqrt q - sqrt qA)
  /\ (sqrt q <= sqrt qA -> snd (run "qtilde") = Finite (sqrt q - sqrt qA))
  /\ (sqrt qA < sqrt q ->
      snd (run "qtilde") = (Finite (q - qA) / Finite (2 * sqrt qA))%py
      /\ (0 < sqrt qA ->
          snd (run "qtilde") = Finite ((q - qA) / (2 * sqrt qA)))).
Proof.
  intros q qA run.
  assert (Hq : 0 <= q) by apply Rmax_r.
  assert (HqA : 0 <= qA) by apply Rmax_r.
  assert (Hrun : forall kind,
             run kind =
             (Finite (sqrt q), Finite (sqrt qA),
              if str_in kind ["q"; "q0"] then Finite (sqrt q - sqrt qA)
              else if (Finite (sqrt q) <=? Finite (sqrt qA))%py
                   then Finite (sqrt q - sqrt qA)
                   else (Finite (q - qA) / Finite (2 * sqrt qA))%py)).
  { intros kind. unfold run, teststatistics. cbn [call_or_value].
    rewrite qmu_Finite, qmuA_Finite. fold q qA.
    rewrite !FloatFacts.sqrt_Finite by assumption.
    reflexivity. }
  assert (Htilde : snd (run "qtilde")
                   = if (Finite (sqrt q) <=? Finite (sqrt qA))%py
                     then Finite (sqrt q - sqrt qA)
                     else (Finite (q - qA) / Finite (2 * sqrt qA))%py)
    by (rewrite Hrun; reflexivity).
  split; [intros kind _; rewrite Hrun; reflexivity|].
  split; [apply qmu_Finite|]. split; [apply qmuA_Finite|].
  split; [exact Hq|]. split; [exact HqA|].
  split; [apply sqrt_pos|]. split; [apply sqrt_pos|].
  split.
  { intros Hle. unfold q, Rmax.
    destruct (Rle_dec (2 * (nll - min_nll)) 0); lra. }
  split; [rewrite Hrun; reflexivity|].
  split; [rewrite Hrun; reflexivity|].
  split.
  { intros Hle. apply FloatFacts.leb_Finite in Hle.
    rewrite Htilde, Hle. reflexivity. }
  intros Hgt. apply FloatFacts.leb_Finite_false in Hgt.
  rewrite Htilde, Hgt. split; [reflexivity|].
  intros Hpos. cbn [Float.div].
  replace (Float.Reqb (2 * sqrt qA) 0) with false; [reflexivity|].
  symmetry. apply FloatFacts.Reqb_false. lra.
Qed.

End TestStatisticsSpec.

(** ** p-values ([pvalues], [compute_confidence_level]) *)

Module ConfidenceLevelSpec.
Import AsymptoticCalculator UtilsCls.

Section WithCdf.
Variable float32 : pyfloat -> pyfloat.
Variable norm_cdf : pyfloat -> pyfloat.

(** [pvalues] returns the three one-element lists [CLsb], [CLb] and
    [CLs]; [CLs] is 0.0 when [CLb] is zero, and otherwise the quotient
    taken in single precision.  The function is total: no input makes
    it raise. *)
Lemma pvalues_guard (teststatistic : pyfloat)
    (sig_plus_bkg bkg_only : AsymptoticTestStatisticsDistribution) :
  let CLsb := pvalue norm_cdf sig_plus_bkg teststatistic in
  let CLb := pvalue norm_cdf bkg_only teststatistic in
  exists CLs,
    pvalues float32 norm_cdf teststatistic sig_plus_bkg bkg_only
    = (VList [VFloat CLsb], VList [VFloat CLb], VList [VFloat CLs])
    /\ (CLb = Finite 0 -> CLs = Finite 0)
    /\ (CLb <> Finite 0 -> CLs = float32 (float32 CLsb / float32 CLb)%py).
Proof.
  intros CLsb CLb.
  exists (if (CLb !=? Finite 0)%py
          then float32 (float32 CLsb / float32 CLb)%py else Finite 0).
  split; [reflexivity|]. split.
  - intros H. rewrite H. unfold Float.neb.
    replace (Finite 0 ==? Finite 0)%py with true
      by (symmetry; apply FloatFacts.eqb_zero; reflexivity).
    reflexivity.
  - intros Hne. apply FloatFacts.neb_zero in Hne. rewrite Hne. reflexivity.
Qed.

(** The p-value of a distribution is the normal CDF at [shift - value],
    or NaN when that number is below the cutoff. *)
Lemma pvalue_below_cutoff (d : AsymptoticTestStatisticsDistribution)
    (value : pyfloat) :
  (norm_cdf (shift d - value) >=? cutoff d)%py = false ->
  pvalue norm_cdf d value = NaN.
Proof. unfold pvalue. intros ->. reflexivity. Qed.

Lemma pvalue_above_cutoff (d : AsymptoticTestStatisticsDistribution)
    (value : pyfloat) :
  (norm_cdf (shift d - value) >=? cutoff d)%py = true ->
  pvalue norm_cdf d value = norm_cdf (shift d - value)%py.
Proof. unfold pvalue. intros ->. reflexivity. Qed.

(** What [compute_confidence_level] computes, with the two distributions
    written out. *)
Lemma compute_confidence_level_unfold (sqrt_qmuA test_statistic : pyfloat)
    (expected : ExpectationType) (test_stat : string) :
  let sb := {| shift := (- sqrt_qmuA)%py; cutoff := NInf |} in
  let b := {| shift := Finite 0; cutoff := NInf |} in
  compute_confidence_level float32 norm_cdf sqrt_qmuA test_statistic expected
    test_stat
  = let '(CLsb, CLb, CLs) :=
      match expected with
      | observed | apriori => pvalues float32 norm_cdf test_statistic sb b
      | aposteriori => expected_pvalues float32 norm_cdf sb b
      end in
    if String.eqb test_stat "qtilde" then CLs else CLsb.
Proof. destruct expected; reflexivity. Qed.

(** C7 (as the code has it).  For every expectation type, the observed and
    apriori ones and the expected band of aposteriori alike,
    [compute_confidence_level] builds the signal-plus-background
    distribution with shift [-sqrt_qmuA] and the background-only one with
    shift 0, both with cutoff minus infinity, and computes with these two;
    and [pvalue] returns NaN instead of a value below the cutoff. *)
Theorem distributions_unbounded (sqrt_qmuA test_statistic : pyfloat)
    (expected : ExpectationType) (test_stat : string) :
  cutoff (sig_plus_bkg_distribution sqrt_qmuA) = NInf
  /\ cutoff bkg_only_distribution = NInf
  /\ shift (sig_plus_bkg_distribution sqrt_qmuA) = (- sqrt_qmuA)%py
  /\ shift bkg_only_distribution = Finite 0
  /\ compute_confidence_level float32 norm_cdf sqrt_qmuA test_statistic
       expected test_stat
     = (let '(CLsb, CLb, CLs) :=
          if bool_decide (expected ∈ [observed; apriori])
          then pvalues float32 norm_cdf test_statistic
                 (sig_plus_bkg_distribution sqrt_qmuA) bkg_only_distribution
          else expected_pvalues float32 norm_cdf
                 (sig_plus_bkg_distribution sqrt_qmuA) bkg_only_distribution
        in if String.eqb test_stat "qtilde" then CLs else CLsb)
  /\ (forall d value,
        (norm_cdf (shift d - value) <? cutoff d)%py = true ->
        pvalue norm_cdf d value = NaN)
  /\ (forall d value,
        (norm_cdf (shift d - value) >=? cutoff d)%py = true ->
        pvalue norm_cdf d value = norm_cdf (shift d - value)%py).
Proof.
  repeat split.
  - intros d value Hlt. apply pvalue_below_cutoff.
    unfold Float.geb, Float.leb.
    destruct (norm_cdf (shift d - value)%py), (cutoff d); simpl in *;
      try discriminate; try reflexivity.
    apply FloatFacts.Rltb_true in Hlt.
    real_cases; try lra; reflexivity.
  - apply pvalue_above_cutoff.
Qed.

End WithCdf.

(** C7, the claim as stated fails: the expected band of the aposteriori
    expectation type is computed with a signal-plus-background
    distribution whose cutoff is minus infinity, not zero. *)
Lemma aposteriori_cutoff_is_not_zero :
  compute_confidence_level single uniform_cdf (Finite 1) (Finite 0)
    aposteriori "qtilde"
  = snd (expected_pvalues single uniform_cdf
           {| shift := (- Finite 1)%py; cutoff := NInf |}
           {| shift := Finite 0; cutoff := NInf |})
  /\ sig_plus_bkg_distribution (Finite 1)
     = {| shift := (- Finite 1)%py; cutoff := NInf |}
  /\ cutoff (sig_plus_bkg_distribution (Finite 1)) <> Finite 0.
Proof. split; [reflexivity | split; [reflexivity | discriminate]]. Qed.

(** Numbers that single precision takes to zero. *)
Lemma single_underflow (r : R) :
  Rabs r <= / 2 ^ 150 -> single (Finite r) = Finite 0.
Proof.
  intros H. unfold single.
  replace (Float.Rltb (/ 2 ^ 150) (Rabs r)) with false; [reflexivity|].
  symmetry. apply FloatFacts.Rltb_false. exact H.
Qed.

Lemma normal_tail_15 : normal_tail (Finite 0 - Finite 15)%py = Finite 3.7e-51.
Proof.
  unfold normal_tail, Float.sub. cbn [Float.neg Float.add].
  destruct (Float.Reqb _ (-15)) eqn:E; [reflexivity|].
  apply FloatFacts.Reqb_false in E. lra.
Qed.

Lemma normal_tail_16 :
  normal_tail (- Finite 1 - Finite 15)%py = Finite 6.4e-58.
Proof.
  unfold normal_tail, Float.sub. cbn [Float.neg Float.add].
  destruct (Float.Reqb _ (-15)) eqn:E15;
    [apply FloatFacts.Reqb_true in E15; lra|].
  destruct (Float.Reqb _ (-16)) eqn:E16; [reflexivity|].
  apply FloatFacts.Reqb_false in E16. lra.
Qed.

(** C4 (what the code does).  [pvalues] returns 0.0 for CLs when CLb is
    zero, and otherwise the quotient taken in single precision.  The
    guard tests CLb before the cast, so a CLb that is not zero but
    becomes zero in single precision is divided by, and with a CLsb that
    becomes zero as well the result is NaN.  This is so at the test
    statistic 15 with [sqrt_qmuA = 1]: CLb is the normal distribution
    function at -15, about 3.7e-51, and CLsb the one at -16, about
    6.4e-58, both below the least single-precision number, where the
    claim has the quotient [CLsb / CLb], a number. *)
Theorem CLs_guard_misses_underflow :
  (forall float32 norm_cdf teststatistic sig_plus_bkg bkg_only,
     let CLsb := pvalue norm_cdf sig_plus_bkg teststatistic in
     let CLb := pvalue norm_cdf bkg_only teststatistic in
     exists CLs,
       pvalues float32 norm_cdf teststatistic sig_plus_bkg bkg_only
       = (VList [VFloat CLsb], VList [VFloat CLb], VList [VFloat CLs])
       /\ (CLb = Finite 0 -> CLs = Finite 0)
       /\ (CLb <> Finite 0 ->
           CLs = float32 (float32 CLsb / float32 CLb)%py))
  /\ (forall norm_cdf teststatistic sig_plus_bkg bkg_only (CLsb CLb : R),
        pvalue norm_cdf sig_plus_bkg teststatistic = Finite CLsb ->
        pvalue norm_cdf bkg_only teststatistic = Finite CLb ->
        Rabs CLsb <= / 2 ^ 150 -> CLb <> 0 -> Rabs CLb <= / 2 ^ 150 ->
        pvalues single norm_cdf teststatistic sig_plus_bkg bkg_only
        = (VList [VFloat (Finite CLsb)], VList [VFloat (Finite CLb)],
           VList [VFloat NaN]))
  /\ pvalues single normal_tail (Finite 15)
       (sig_plus_bkg_distribution (Finite 1)) bkg_only_distribution
     = (VList [VFloat (Finite 6.4e-58)], VList [VFloat (Finite 3.7e-51)],
        VList [VFloat NaN])
  /\ (Finite 6.4e-58 / Finite 3.7e-51)%py = Finite (6.4e-58 / 3.7e-51).
Proof.
  assert (Hunder : forall norm_cdf teststatistic sig_plus_bkg bkg_only
                          (CLsb CLb : R),
             pvalue norm_cdf sig_plus_bkg teststatistic = Finite CLsb ->
             pvalue norm_cdf bkg_only teststatistic = Finite CLb ->
             Rabs CLsb <= / 2 ^ 150 -> CLb <> 0 -> Rabs CLb <= / 2 ^ 150 ->
             pvalues single norm_cdf teststatistic sig_plus_bkg bkg_only
             = (VList [VFloat (Finite CLsb)], VList [VFloat (Finite CLb)],
                VList [VFloat NaN])).
  { intros norm_cdf ts sb b CLsb CLb Hsb Hb Ha Hne Hc.
    unfold pvalues. rewrite Hsb, Hb.
    rewrite (single_underflow CLsb Ha), (single_underflow CLb Hc).
    assert (Hguard : (Finite CLb !=? Finite 0)%py = true)
      by (apply FloatFacts.neb_zero; intros E; injection E as E; auto).
    rewrite Hguard.
    replace (Finite 0 / Finite 0)%py with NaN; [reflexivity|].
    unfold Float.div, Float.signed_inf.
    replace (Float.Reqb 0 0) with true
      by (symmetry; apply FloatFacts.Reqb_true; reflexivity).
    replace (Float.Rltb 0 0) with false
      by (symmetry; apply FloatFacts.Rltb_false; lra).
    reflexivity. }
  split; [intros float32 norm_cdf; apply pvalues_guard|].
  split; [exact Hunder|]. split.
  - apply Hunder.
    + unfold pvalue, sig_plus_bkg_distribution, new.
      cbn [shift cutoff default]. rewrite normal_tail_16. reflexivity.
    + unfold pvalue, bkg_only_distribution, new.
      cbn [shift cutoff default]. rewrite normal_tail_15. reflexivity.
    + rewrite Rabs_pos_eq by lra. lra.
    + lra.
    + rewrite Rabs_pos_eq by lra. lra.
  - unfold Float.div.
    replace (Float.Reqb 3.7e-51 0) with false; [reflexivity|].
    symmetry. apply FloatFacts.Reqb_false. lra.
Qed.

End ConfidenceLevelSpec.

(** ** Bracketing ([find_root_limits]) *)

Module FloatOrder.
Import Float.

(** Unfold the comparisons and decide the ones between reals. *)
Ltac order :=
  unfold gtb, geb, leb, neb, ltb, eqb, Rltb, Reqb in *;
  repeat match goal with
  | H : context [Rlt_dec ?a ?b] |- _ => destruct (Rlt_dec a b)
  | H : context [Req_dec_T ?a ?b] |- _ => destruct (Req_dec_T a b)
  | |- context [Rlt_dec ?a ?b] => destruct (Rlt_dec a b)
  | |- context [Req_dec_T ?a ?b] => destruct (Req_dec_T a b)
  end;
  simpl in *; try discriminate; try reflexivity; try lra;
  try (exfalso; lra).

Lemma ltb_leb_trans (a b c : pyfloat) :
  ltb a b = true -> leb b c = true -> ltb a c = true.
Proof. destruct a, b, c; intros H1 H2; order. Qed.


Lemma leb_trans (a b c : pyfloat) :
  leb a b = true -> leb b c = true -> leb a c = true.
Proof. destruct a, b, c; intros H1 H2; order. Qed.



Lemma eqb_leb (a b : pyfloat) :
  eqb a b = true -> leb a b = true /\ leb b a = true.
Proof. destruct a, b; intros H; split; order. Qed.

Lemma not_ltb_leb (a b : pyfloat) :
  isnan a = false -> isnan b = false -> ltb a b = false -> leb b a = true.
Proof. destruct a, b; intros H1 H2 H3; order. Qed.


Lemma leb_refl (a : pyfloat) : isnan a = false -> leb a a = true.
Proof. destruct a; intros H; order. Qed.

End FloatOrder.

Module BracketLoops.
Import Float.

(** A loop that stops within some fuel stops with the same result within
    any larger one. *)
Lemma while_break_more_fuel {St : Type} (cond : St -> bool)
    (body : St -> St * bool) (n m : nat) (s r : St) :
  while_break n cond body s = Some r -> (n <= m)%nat ->
  while_break m cond body s = Some r.
Proof.
  revert m s. induction n as [|n IH]; intros m s H Hle; [discriminate|].
  destruct m as [|m]; [lia|]. simpl in *.
  destruct (cond s); [|exact H].
  destruct (body s) as [s' stop]. destruct stop; [exact H|].
  apply IH; [exact H | lia].
Qed.

(** A loop that stops does so on a false condition or on a [break]. *)
Lemma while_break_exit {St : Type} (cond : St -> bool)
    (body : St -> St * bool) (n : nat) (s r : St) :
  while_break n cond body s = Some r ->
  cond r = false \/ exists s', cond s' = true /\ body s' = (r, true).
Proof.
  revert s. induction n as [|n IH]; intros s H; [discriminate|].
  cbn [while_break] in H. destruct (cond s) eqn:Hcond.
  - destruct (body s) as [s' stop] eqn:Hbody. destruct stop.
    + injection H as <-. right. exists s. split; assumption.
    + exact (IH s' H).
  - injection H as <-. left. exact Hcond.
Qed.

(** What the bracketing gives for any [computer], decreasing or not: each
    returned bound is one where the loop's test fails, so that
    [computer(low) <= loc <= computer(hig)] when the values compare, or one
    past the bail-out limit. *)
Lemma find_root_limits_stops_on (computer : pyfloat -> pyfloat)
    (loc low_ini hig_ini : pyfloat) (fuel : nat) (low hig : pyfloat) :
  UpperLimits.find_root_limits fuel computer loc low_ini hig_ini
  = Some (low, hig) ->
  ((computer low >? loc)%py = false \/ (low <? Finite 1e-10)%py = true)
  /\ ((computer hig <? loc)%py = false \/ (hig >? Finite 1e10)%py = true).
Proof.
  unfold UpperLimits.find_root_limits, lower_loop, upper_loop. intros H.
  destruct (while_break fuel (fun low => (computer low >? loc)%py) _ low_ini)
    as [low'|] eqn:Hlow; [|discriminate].
  destruct (while_break fuel (fun hig => (computer hig <? loc)%py) _ hig_ini)
    as [hig'|] eqn:Hhig; [|discriminate].
  injection H as <- <-.
  apply while_break_exit in Hlow. apply while_break_exit in Hhig.
  split.
  - destruct Hlow as [Hlow | (s' & _ & Hbody)]; [left; exact Hlow|].
    right. injection Hbody as <- Hstop. exact Hstop.
  - destruct Hhig as [Hhig | (s' & _ & Hbody)]; [left; exact Hhig|].
    right. injection Hbody as <- Hstop. exact Hstop.
Qed.

Section Loops.
Variable f : pyfloat -> pyfloat.
Variable loc : pyfloat.
Hypothesis f_decreasing : decreasing f.



Section Upper.
Hypothesis f_crosses : crosses f loc.




End Upper.

(** *** Termination *)

Lemma lower_loop_stops (c : R) (n : nat) (a : R) :
  0 < c < 1 -> a * c ^ n < 1e-10 ->
  exists r, lower_loop f loc (Finite c) (S n) (Finite a) = Some r.
Proof.
  intros Hc. unfold lower_loop. revert a.
  induction n as [|n IH]; intros a Ha.
  - cbn [while_break]. destruct (f (Finite a) >? loc)%py; [|eauto].
    cbn [mul]. replace (Finite (a * c) <? Finite 1e-10)%py with true; [eauto|].
    symmetry. apply FloatFacts.Rltb_true. simpl in Ha. nra.
  - remember (S n) as k. cbn [while_break].
    destruct (f (Finite a) >? loc)%py; [|eauto].
    cbn [mul]. destruct (Finite (a * c) <? Finite 1e-10)%py; [eauto|].
    subst k. apply IH. simpl in Ha. lra.
Qed.

Lemma upper_loop_stops (c : R) (n : nat) (a : R) :
  1 < c -> a * c ^ n > 1e10 ->
  exists r, upper_loop f loc (Finite c) (S n) (Finite a) = Some r.
Proof.
  intros Hc. unfold upper_loop. revert a.
  induction n as [|n IH]; intros a Ha.
  - cbn [while_break]. destruct (f (Finite a) <? loc)%py; [|eauto].
    cbn [mul]. replace (Finite (a * c) >? Finite 1e10)%py with true; [eauto|].
    symmetry. apply FloatFacts.Rltb_true. simpl in Ha. nra.
  - remember (S n) as k. cbn [while_break].
    destruct (f (Finite a) <? loc)%py; [|eauto].
    cbn [mul]. destruct (Finite (a * c) >? Finite 1e10)%py; [eauto|].
    subst k. apply IH. simpl in Ha. lra.
Qed.

End Loops.
End BracketLoops.

Module BracketSpec.
Import Float BracketLoops.

Section Bracket.
Variable computer : pyfloat -> pyfloat.
Variable loc : pyfloat.
Hypothesis computer_decreasing : decreasing computer.
Hypothesis computer_crosses : crosses computer loc.

Lemma lower_loop_total (c a : R) :
  0 < c < 1 ->
  exists n r, lower_loop computer loc (Finite c) n (Finite a) = Some r.
Proof.
  intros Hc.
  assert (Hn : exists n, a * c ^ n < 1e-10).
  { destruct (Rle_dec a 0) as [Ha|Ha].
    - exists 0%nat. simpl. lra.
    - assert (Hpos : 0 < 1e-10 / a) by (apply Rdiv_lt_0_compat; lra).
      destruct (pow_lt_1_zero c) with (y := 1e-10 / a) as [N HN];
        [rewrite Rabs_pos_eq; lra | exact Hpos |].
      exists N. specialize (HN N (Nat.le_refl N)).
      rewrite Rabs_pos_eq in HN by (apply pow_le; lra).
      apply Rmult_lt_compat_l with (r := a) in HN; [|lra].
      replace (a * (1e-10 / a)) with 1e-10 in HN by (field; lra).
      exact HN. }
  destruct Hn as [n Hn]. exists (S n).
  exact (lower_loop_stops computer loc c n a Hc Hn).
Qed.




End Bracket.

(** A loop whose condition fails at the start returns its starting
    bound. *)
Lemma lower_loop_idle (computer : pyfloat -> pyfloat) (loc step : pyfloat)
    (fuel : nat) (low : pyfloat) :
  (computer low >? loc)%py = false ->
  lower_loop computer loc step (S fuel) low = Some low.
Proof. intros H. unfold lower_loop. cbn [while_break]. rewrite H. reflexivity. Qed.

Lemma upper_loop_idle (computer : pyfloat -> pyfloat) (loc step : pyfloat)
    (fuel : nat) (hig : pyfloat) :
  (computer hig <? loc)%py = false ->
  upper_loop computer loc step (S fuel) hig = Some hig.
Proof. intros H. unfold upper_loop. cbn [while_break]. rewrite H. reflexivity. Qed.

(** A decreasing function to evaluate with: [x |-> c - x]. *)
Lemma decreasing_minus (c : R) : decreasing (fun x => (Finite c - x)%py).
Proof.
  intros x y H. destruct x, y; unfold Float.sub; simpl in *;
    FloatOrder.order.
Qed.

Lemma crosses_minus (c : R) :
  1e-10 <= c <= 1e10 -> crosses (fun x => (Finite c - x)%py) (Finite 0).
Proof.
  intros Hc. exists c. split; [exact Hc|].
  unfold Float.sub; simpl. apply FloatFacts.Reqb_true. lra.
Qed.


(** Why the starting bounds are taken in order: [x |-> 1.5 - x] is
    decreasing and crosses 0 at 1.5; from [low_ini = 2] and [hig_ini = 1]
    neither loop runs, no bail-out is hit, and [(2, 1)] is returned, where
    [computer(low) = -0.5] is below [loc = 0].  The caller in
    [upper_limits.py] starts from 1.0 and 1.0. *)
Lemma find_root_limits_swapped_bounds :
  decreasing (fun x => (Finite 1.5 - x)%py)
  /\ crosses (fun x => (Finite 1.5 - x)%py) (Finite 0)
  /\ (forall fuel,
        UpperLimits.find_root_limits (S fuel) (fun x => (Finite 1.5 - x)%py)
          (Finite 0) (Finite 2) (Finite 1) = Some (Finite 2, Finite 1))
  /\ (Finite 2 <? Finite 1e-10)%py = false
  /\ (Finite 1 >? Finite 1e10)%py = false
  /\ (Finite 1.5 - Finite 2 >=? Finite 0)%py = false.
Proof.
  split; [exact (decreasing_minus 1.5)|].
  split; [apply crosses_minus; lra|].
  split.
  { intros fuel. unfold UpperLimits.find_root_limits.
    rewrite lower_loop_idle
      by (unfold Float.sub; simpl; apply FloatFacts.Rltb_false; lra).
    rewrite upper_loop_idle
      by (unfold Float.sub; simpl; apply FloatFacts.Rltb_false; lra).
    reflexivity. }
  unfold Float.sub; simpl. repeat split; FloatOrder.order.
Qed.

End BracketSpec.

(** ** Upper limits ([find_poi_upper_limit]) *)

Module UpperLimitSpec.
Import AsymptoticCalculator UpperLimits.

Lemma checked_init_not_nan (v : pyfloat) :
  Float.isnan v = false -> checked_init (Some v) = Finite 1.
Proof. intros H. unfold checked_init. rewrite H, orb_true_r. reflexivity. Qed.

Section Solver.
Variable compute_teststatistics :
  pyfloat -> pyfloat * pyfloat -> (pyfloat -> pyfloat) ->
  pyfloat * pyfloat -> (pyfloat -> pyfloat) -> string ->
  pyfloat * pyfloat * pyfloat.
Variable compute_confidence_level :
  pyfloat -> pyfloat -> string -> list pyfloat * list pyfloat.
Variable toms748 :
  (pyfloat -> pyfloat) -> pyfloat -> pyfloat -> Z ->
  outcome (pyfloat * RootResults).
Variable maximum_likelihood : pyfloat * pyfloat.
Variable logpdf : pyfloat -> pyfloat.
Variable maximum_asimov_likelihood : pyfloat * pyfloat.
Variable asimov_logpdf : pyfloat -> pyfloat.
Variable expected : ExpectationType.
Variable confidence_level : pyfloat.

(** C6 (what the code does).  Whatever starting bounds the caller gives,
    as long as they are numbers, the bracketing starts from 1.0 and 1.0:
    [checked_init] replaces every value that is not NaN by 1.0, and lets
    NaN through.  The result of [find_poi_upper_limit] is that of the
    default bounds. *)
Theorem supplied_bounds_are_replaced (fuel : nat)
    (allow_negative_signal : bool) (low_init hig_init : R)
    (expected_pvalue : string) (maxiter : Z) :
  checked_init (Some (Finite low_init)) = Finite 1
  /\ checked_init (Some (Finite hig_init)) = Finite 1
  /\ checked_init (Some NaN) = NaN
  /\ find_poi_upper_limit compute_teststatistics compute_confidence_level
       toms748 maximum_likelihood logpdf maximum_asimov_likelihood
       asimov_logpdf expected confidence_level fuel allow_negative_signal
       (Some (Finite low_init)) (Some (Finite hig_init)) expected_pvalue
       maxiter
     = find_poi_upper_limit compute_teststatistics compute_confidence_level
         toms748 maximum_likelihood logpdf maximum_asimov_likelihood
         asimov_logpdf expected confidence_level fuel allow_negative_signal
         (Some (Finite 1)) (Some (Finite 1)) expected_pvalue maxiter.
Proof.
  assert (H : forall r, checked_init (Some (Finite r)) = Finite 1)
    by (intros r; apply checked_init_not_nan; reflexivity).
  repeat split; try apply H.
  unfold find_poi_upper_limit. rewrite !H. reflexivity.
Qed.

End Solver.

(** The starting bounds matter to the bracketing: on [x |-> x - 3], which
    is under 0 up to 3, the bounds 0.5 and 4 are returned as they are,
    while from 1.0 and 1.0 the upper bound has to be doubled twice. *)
Lemma bracket_depends_on_bounds :
  find_root_limits 3 (fun x => (x - Finite 3)%py) (Finite 0)
    (Finite 0.5) (Finite 4) = Some (Finite 0.5, Finite 4)
  /\ find_root_limits 3 (fun x => (x - Finite 3)%py) (Finite 0)
       (Finite 1) (Finite 1) = Some (Finite 1, Finite (1 * 2 * 2)).
Proof.
  unfold find_root_limits, lower_loop, upper_loop, Float.sub.
  cbn [while_break Float.neg Float.add Float.mul Float.gtb Float.ltb].
  repeat match goal with
  | |- context [Float.Rltb ?a ?b] =>
      first [ replace (Float.Rltb a b) with true
                by (symmetry; apply FloatFacts.Rltb_true; lra)
            | replace (Float.Rltb a b) with false
                by (symmetry; apply FloatFacts.Rltb_false; lra) ];
      cbn [while_break Float.neg Float.add Float.mul Float.gtb Float.ltb]
  end.
  split; reflexivity.
Qed.

Section Target.
Variable norm_cdf : pyfloat -> pyfloat.
Variable compute_teststatistics :
  pyfloat -> pyfloat * pyfloat -> (pyfloat -> pyfloat) ->
  pyfloat * pyfloat -> (pyfloat -> pyfloat) -> string ->
  pyfloat * pyfloat * pyfloat.
Variable maximum_likelihood : pyfloat * pyfloat.
Variable logpdf : pyfloat -> pyfloat.
Variable maximum_asimov_likelihood : pyfloat * pyfloat.
Variable asimov_logpdf : pyfloat -> pyfloat.
Variable confidence_level : pyfloat.


End Target.

End UpperLimitSpec.

(** ** The recorder *)

Module RecorderSpec.
Import Recorder.

Lemma eqb_eq (a b : pyfloat) : (a ==? b)%py = true -> a = b.
Proof.
  destruct a, b; simpl; try discriminate; try reflexivity.
  intros H. apply FloatFacts.Reqb_true in H. congruence.
Qed.

Lemma eqb_refl (a : pyfloat) : Float.isnan a = false -> (a ==? a)%py = true.
Proof.
  destruct a; simpl; try discriminate; try reflexivity.
  intros _. apply FloatFacts.Reqb_true. reflexivity.
Qed.

Lemma getitem_setitem_eq {A : Type} (d : per_expected A)
    (expected : ExpectationType) (v : A) :
  getitem (setitem d expected v) expected = v.
Proof. destruct expected; reflexivity. Qed.

Lemma getitem_setitem_ne {A : Type} (d : per_expected A)
    (expected other : ExpectationType) (v : A) :
  other <> expected -> getitem (setitem d expected v) other = getitem d other.
Proof. destruct expected, other; intros H; try reflexivity; congruence. Qed.

(** A key that equals itself is found again after [update]. *)
Lemma dict_get_update_eq (k v : pyfloat) (d : list (pyfloat * pyfloat)) :
  Float.isnan k = false -> dict_get k (dict_update k v d) = Some v.
Proof.
  intros Hk. induction d as [|[k' v'] d IH]; simpl.
  - rewrite (eqb_refl k Hk). reflexivity.
  - destruct (k' ==? k)%py eqn:E; simpl; rewrite E; [reflexivity | exact IH].
Qed.

(** The other keys keep their values. *)
Lemma dict_get_update_ne (k k2 v : pyfloat) (d : list (pyfloat * pyfloat)) :
  (k ==? k2)%py = false -> dict_get k2 (dict_update k v d) = dict_get k2 d.
Proof.
  intros Hne. induction d as [|[k' v'] d IH]; simpl.
  - rewrite Hne. reflexivity.
  - destruct (k' ==? k)%py eqn:E; simpl.
    + apply eqb_eq in E. subst k'. rewrite Hne. reflexivity.
    + destruct (k' ==? k2)%py; [reflexivity | exact IH].
Qed.

Section Methods.
Variable float32 : pyfloat -> pyfloat.

(** The best-fit slot after one [record_maximum_likelihood] with the
    switch on. *)
Lemma record_maximum_likelihood_on (self : Recorder)
    (expected : ExpectationType) (poi_test nll : pyfloat) :
  getitem (_maximum_likelihood_record
             (record_maximum_likelihood float32 true self expected
                poi_test nll)) expected
  = match getitem (_maximum_likelihood_record self) expected with
    | Some (p, stored) =>
        if (stored <? float32 nll)%py then Some (p, stored)
        else Some (float32 poi_test, float32 nll)
    | None => Some (float32 poi_test, float32 nll)
    end.
Proof.
  unfold record_maximum_likelihood, get_maximum_likelihood, is_on.
  destruct (getitem (_maximum_likelihood_record self) expected)
    as [[p stored]|] eqn:Hslot.
  - destruct (stored <? float32 nll)%py; simpl.
    + exact Hslot.
    + apply getitem_setitem_eq.
  - simpl. apply getitem_setitem_eq.
Qed.

(** With the switch off the comparison is not made. *)
Lemma record_maximum_likelihood_off (self : Recorder)
    (expected : ExpectationType) (poi_test nll : pyfloat) :
  getitem (_maximum_likelihood_record
             (record_maximum_likelihood float32 false self expected
                poi_test nll)) expected
  = Some (float32 poi_test, float32 nll).
Proof.
  unfold record_maximum_likelihood, get_maximum_likelihood, is_on. simpl.
  apply getitem_setitem_eq.
Qed.

(** C8 (as the code has it).  With the switch off both getters return the
    "not found" value whatever has been recorded.  The switch is no part
    of an instance, so switching off and on again shows what was there.
    Recording is not gated: [record_poi_test] does not read the switch,
    and the entry it writes, whatever the switch was at that time, is read
    back once the switch is on; [record_maximum_likelihood] fills an empty
    slot with the switch on or off. *)
Theorem switch_hides_records_persist (RECORD : bool) (self : Recorder)
    (expected : ExpectationType) (poi_test nll : pyfloat) :
  get_poi_test float32 (turn_off RECORD) self expected poi_test = None
  /\ get_maximum_likelihood (turn_off RECORD) self expected = None
  /\ get_poi_test float32 (turn_on (turn_off RECORD)) self expected poi_test
     = get_poi_test float32 true self expected poi_test
  /\ get_maximum_likelihood (turn_on (turn_off RECORD)) self expected
     = getitem (_maximum_likelihood_record self) expected
  /\ (Float.isnan (float32 poi_test) = false ->
      get_poi_test float32 (turn_on RECORD)
        (record_poi_test float32 self expected poi_test nll)
        expected poi_test
      = Some (float32 nll))
  /\ (getitem (_maximum_likelihood_record self) expected = None ->
      get_maximum_likelihood (turn_on RECORD)
        (record_maximum_likelihood float32 RECORD self expected poi_test nll)
        expected
      = Some (float32 poi_test, float32 nll)).
Proof.
  repeat split.
  - intros Hk. unfold get_poi_test, record_poi_test, turn_on, is_on.
    cbn [_poi_test_record]. rewrite getitem_setitem_eq.
    apply dict_get_update_eq. exact Hk.
  - intros Hslot. unfold get_maximum_likelihood, turn_on, is_on.
    destruct RECORD.
    + rewrite record_maximum_likelihood_on, Hslot. reflexivity.
    + apply record_maximum_likelihood_off.
Qed.

(** C9 (as the code has it).  With the switch on, one
    [record_maximum_likelihood] leaves the instance as it is when the
    stored NLL is strictly lower than the new one, and writes the new
    (POI, NLL) pair otherwise: into an empty slot, when the new NLL is
    lower, and also on a tie, where the last writer's pair replaces the
    first.  The other slots and the POI cache are not touched.  Over any
    sequence of calls whose NLLs are numbers the stored NLL never
    increases. *)
Theorem best_fit_slot_update (self : Recorder) (expected : ExpectationType)
    (poi_test nll : pyfloat) :
  let slot s := getitem (_maximum_likelihood_record s) expected in
  let after := record_maximum_likelihood float32 true self expected
                 poi_test nll in
  (slot self = None -> slot after = Some (float32 poi_test, float32 nll))
  /\ (forall p stored, slot self = Some (p, stored) ->
        ((stored <? float32 nll)%py = true -> after = self)
        /\ ((stored <? float32 nll)%py = false ->
            slot after = Some (float32 poi_test, float32 nll))
        /\ ((stored ==? float32 nll)%py = true ->
            slot after = Some (float32 poi_test, float32 nll)))
  /\ (forall other, other <> expected ->
        getitem (_maximum_likelihood_record after) other
        = getitem (_maximum_likelihood_record self) other)
  /\ _poi_test_record after = _poi_test_record self
  /\ (forall calls p stored,
        slot self = Some (p, stored) -> Float.isnan stored = false ->
        Forall (fun call => Float.isnan (float32 (snd call)) = false) calls ->
        exists p' stored',
          slot (record_maximum_likelihoods float32 true self expected calls)
          = Some (p', stored')
          /\ (stored' <=? stored)%py = true).
Proof.
  intros slot after. subst slot after. cbv beta.
  split; [|split; [|split; [|split]]].
  - intros Hslot. rewrite record_maximum_likelihood_on, Hslot. reflexivity.
  - intros p stored Hslot. split; [|split].
    + intros Hlt. unfold record_maximum_likelihood, get_maximum_likelihood,
        is_on. rewrite Hslot, Hlt. reflexivity.
    + intros Hlt. rewrite record_maximum_likelihood_on, Hslot, Hlt.
      reflexivity.
    + intros Htie. rewrite record_maximum_likelihood_on, Hslot.
      apply eqb_eq in Htie. rewrite <- Htie.
      replace (stored <? stored)%py with false; [reflexivity|].
      destruct stored; simpl; try reflexivity.
      symmetry. apply FloatFacts.Rltb_false. lra.
  - intros other Hother.
    unfold record_maximum_likelihood.
    destruct (match get_maximum_likelihood true self expected with
              | Some (_, stored) =>
                  if (stored <? float32 nll)%py then false else true
              | None => true
              end); [|reflexivity].
    cbn [_maximum_likelihood_record]. apply getitem_setitem_ne. exact Hother.
  - unfold record_maximum_likelihood.
    destruct (match get_maximum_likelihood true self expected with
              | Some (_, stored) =>
                  if (stored <? float32 nll)%py then false else true
              | None => true
              end); reflexivity.
  - intros calls. revert self.
    induction calls as [|[poi n] calls IH]; intros self p stored Hslot Hs Hcalls.
    + exists p, stored. split; [exact Hslot|].
      apply FloatOrder.leb_refl. exact Hs.
    + inversion Hcalls as [|c cs Hn Hrest]; subst. cbn [snd] in Hn.
      unfold record_maximum_likelihoods. cbn [fold_left fst snd].
      fold (record_maximum_likelihoods float32 true
              (record_maximum_likelihood float32 true self expected poi n)
              expected calls).
      pose proof (record_maximum_likelihood_on self expected poi n) as Hstep.
      rewrite Hslot in Hstep.
      destruct (stored <? float32 n)%py eqn:Hlt.
      * exact (IH _ p stored Hstep Hs Hrest).
      * destruct (IH _ _ _ Hstep Hn Hrest) as (p' & stored' & Hfin & Hle).
        exists p', stored'. split; [exact Hfin|].
        apply FloatOrder.leb_trans with (b := float32 n); [exact Hle|].
        apply FloatOrder.not_ltb_leb; assumption.
Qed.

End Methods.

(** C8, the claim as stated fails: with the switch off (the default)
    [record_poi_test] and [record_maximum_likelihood] do write, and the
    entry shows once the switch is on. *)
Lemma recording_while_off_is_kept :
  let off := turn_off RECORD_default in
  let self := record_poi_test float32_exact __init__ observed
                (Finite 1) (Finite 2) in
  is_on off = false
  /\ getitem (_poi_test_record __init__) observed = []
  /\ getitem (_poi_test_record self) observed = [(Finite 1, Finite 2)]
  /\ get_poi_test float32_exact (turn_on off) __init__ observed (Finite 1)
     = None
  /\ get_poi_test float32_exact (turn_on off) self observed (Finite 1)
     = Some (Finite 2)
  /\ getitem (_maximum_likelihood_record
                (record_maximum_likelihood float32_exact off __init__
                   observed (Finite 1) (Finite 2))) observed
     = Some (Finite 1, Finite 2).
Proof.
  cbv zeta. repeat split.
  unfold get_poi_test, turn_on, is_on, float32_exact. cbn.
  replace (Float.Reqb 1 1) with true
    by (symmetry; apply FloatFacts.Reqb_true; reflexivity).
  reflexivity.
Qed.

(** C9, the claim as stated fails: on a tie the slot is written again,
    and the pair it holds is the last writer's, not the first's. *)
Lemma tie_keeps_the_last_writer :
  let on := turn_on RECORD_default in
  let first := record_maximum_likelihood float32_exact on __init__ observed
                 (Finite 1) (Finite 5) in
  let second := record_maximum_likelihood float32_exact on first observed
                  (Finite 2) (Finite 5) in
  getitem (_maximum_likelihood_record first) observed
  = Some (Finite 1, Finite 5)
  /\ (Finite 5 <? Finite 5)%py = false
  /\ getitem (_maximum_likelihood_record second) observed
     = Some (Finite 2, Finite 5).
Proof.
  cbv zeta. unfold turn_on.
  assert (H55 : (Finite 5 <? Finite 5)%py = false)
    by (apply FloatFacts.Rltb_false; lra).
  split; [reflexivity|]. split; [exact H55|].
  rewrite record_maximum_likelihood_on. cbn.
  unfold float32_exact. simpl in H55. rewrite H55. reflexivity.
Qed.

End RecorderSpec.

(** ** The combiner ([StatisticsCombiner.likelihood]) *)

Module CombinerSpec.
Import StatisticalModel StatisticsCombiner.

(** NaN absorbs every further term of a sum. *)
Lemma sum_from_nan (values : list pyfloat) :
  fold_left Float.add values NaN = NaN.
Proof. induction values as [|v values IH]; [reflexivity | exact IH]. Qed.

Lemma sum_not_nan_start (values : list pyfloat) (nll : pyfloat) :
  Float.isnan (fold_left Float.add values nll) = false ->
  Float.isnan nll = false.
Proof.
  destruct nll; try reflexivity. rewrite sum_from_nan. discriminate.
Qed.

Section Likelihood.
Variable format_3f : pyfloat -> string.
Variable poi_test : pyfloat.
Variable expected : ExpectationType.
Variable kwargs : gmap string (gmap string pyval).

(** The loop over members that all return, from any running value. *)
Lemma likelihood_loop_all_return (models : list StatisticalModel)
    (values : list pyfloat) (nll : pyfloat) :
  Forall2 (returns poi_test expected kwargs) models values ->
  likelihood_loop format_3f poi_test expected kwargs models nll
  = Returns (fold_left Float.add values nll, []).
Proof.
  intros Hall. revert nll.
  induction Hall as [|m v models values Hm _ IH]; intros nll.
  - reflexivity.
  - cbn [likelihood_loop fold_left]. unfold returns, kwargs_of in Hm.
    rewrite Hm. destruct (Float.isnan (nll + v)%py) eqn:Hnan.
    + apply FloatFacts.isnan_true in Hnan. rewrite Hnan, sum_from_nan.
      reflexivity.
    + rewrite IH. reflexivity.
Qed.

(** The loop up to a member that raises NegativeExpectedYields: the
    members after it are not consulted. *)
Lemma likelihood_loop_raise (before after : list StatisticalModel)
    (m : StatisticalModel) (values : list pyfloat) (msg : string)
    (nll : pyfloat) :
  Forall2 (returns poi_test expected kwargs) before values ->
  Float.isnan (fold_left Float.add values nll) = false ->
  StatisticalModel.likelihood m poi_test expected (kwargs_of kwargs m)
  = Raises (NegativeExpectedYields msg) ->
  likelihood_loop format_3f poi_test expected kwargs
    (before ++ m :: after) nll
  = Returns (NaN, [RuntimeWarning (nan_message format_3f msg poi_test)]).
Proof.
  intros Hall. revert nll.
  induction Hall as [|m' v before values Hm' _ IH]; intros nll Hsum Hm.
  - cbn [app likelihood_loop]. unfold kwargs_of in Hm. rewrite Hm.
    reflexivity.
  - cbn [app likelihood_loop fold_left] in *. unfold returns, kwargs_of in Hm'.
    rewrite Hm'. rewrite (sum_not_nan_start _ _ Hsum).
    rewrite (IH _ Hsum Hm). reflexivity.
Qed.

(** C1.  When every member returns, [likelihood(mu, expected)] returns
    the sum of the members' values, in the order of the members and from
    0.0, and issues no warning (with [return_nll=False] it is the
    exponential of minus that sum, unless the sum is NaN).  When the loop
    comes to a member that raises NegativeExpectedYields, the result is
    NaN with one RuntimeWarning, whatever members follow: they are not
    asked. *)
Theorem likelihood_sums_members (self : StatisticsCombiner) :
  (forall values,
     Forall2 (returns poi_test expected kwargs)
       (_statistical_models self) values ->
     let sum := fold_left Float.add values (Finite 0) in
     likelihood format_3f self poi_test expected true kwargs
     = Returns (sum, [])
     /\ likelihood format_3f self poi_test expected false kwargs
        = Returns (if Float.isnan sum then sum else Float.exp (- sum)%py, []))
  /\ (forall before m after values msg,
        _statistical_models self = before ++ m :: after ->
        Forall2 (returns poi_test expected kwargs) before values ->
        Float.isnan (fold_left Float.add values (Finite 0)) = false ->
        StatisticalModel.likelihood m poi_test expected (kwargs_of kwargs m)
        = Raises (NegativeExpectedYields msg) ->
        forall return_nll,
          likelihood format_3f self poi_test expected return_nll kwargs
          = Returns (NaN,
                     [RuntimeWarning (nan_message format_3f msg poi_test)])
          /\ likelihood format_3f
               {| _statistical_models := before ++ [m] |}
               poi_test expected return_nll kwargs
             = likelihood format_3f self poi_test expected return_nll kwargs).
Proof.
  split.
  - intros values Hall sum. unfold likelihood.
    rewrite (likelihood_loop_all_return _ _ _ Hall). split; reflexivity.
  - intros before m after values msg Hself Hall Hsum Hm return_nll.
    unfold likelihood. rewrite Hself. cbn [_statistical_models].
    rewrite (likelihood_loop_raise before after m values msg _ Hall Hsum Hm).
    rewrite (likelihood_loop_raise before [] m values msg _ Hall Hsum Hm).
    cbn [Float.isnan]. rewrite orb_true_r. split; reflexivity.
Qed.

End Likelihood.

(** Two members that return 1.5 and 2, and one that raises between
    them. *)
Example likelihood_of_two_members :
  let member (name : string) (result : outcome pyfloat) :=
    {| analysis := name; backend_type := "simplified_likelihoods";
       StatisticalModel.likelihood := fun _ _ _ => result |} in
  let a := member "a" (Returns (Finite 1.5)) in
  let b := member "b" (Returns (Finite 2)) in
  let bad := member "bad" (Raises (NegativeExpectedYields "negative yields")) in
  let format_3f := fun _ : pyfloat => "1.000" in
  likelihood format_3f {| _statistical_models := [a; b] |} (Finite 1)
    observed true ∅
  = Returns (Finite (0 + 1.5 + 2), [])
  /\ likelihood format_3f {| _statistical_models := [a; bad; b] |} (Finite 1)
       observed true ∅
     = Returns (NaN,
                [RuntimeWarning
                   ("negative yields"
                    +:+ String "010"%char "Setting NLL(1.000) = nan")]).
Proof. split; reflexivity. Qed.

End CombinerSpec.

(** ** The optimiser adapter ([fit]) *)

Module FitSpec.
Import OptimizerCore.

(** A fresh list object leaves the lists that were there as they are. *)
Lemma lookup_insert_fresh {A : Type} (m : gmap loc A) (l : loc) (x y : A) :
  m !! l = Some x -> <[fresh (dom m) := y]> m !! l = Some x.
Proof.
  intros H. rewrite lookup_insert_ne; [exact H|].
  intros Heq. pose proof (is_fresh (dom m)) as Hfresh.
  rewrite Heq in Hfresh. apply Hfresh. apply elem_of_dom. eauto.
Qed.

Lemma lookup_fresh {A : Type} (m : gmap loc A) : m !! fresh (dom m) = None.
Proof. apply not_elem_of_dom. apply is_fresh. Qed.

Lemma fit_lists_spec (model_configuration : ModelConfig)
    (initial_parameters bounds : option loc)
    (fixed_poi_value : option pyfloat) (constraints : option loc)
    (st : store) :
  well_addressed st initial_parameters bounds constraints ->
  exists init_pars par_bounds cl st1,
    fit_lists model_configuration initial_parameters bounds fixed_poi_value
      constraints st = Some (init_pars, par_bounds, cl, st1)
    /\ preserved st st1
    /\ float_lists st !! init_pars = None
    /\ is_Some (float_lists st1 !! init_pars)
    /\ is_Some (bound_lists st1 !! par_bounds)
    /\ is_Some (constraint_lists st1 !! cl)
    /\ match constraints with
       | Some l => cl = l
       | None => constraint_lists st !! cl = None
       end.
Proof.
  intros (Hip & Hb & Hc). unfold fit_lists.
  assert (Hinit : exists initial,
             match initial_parameters with
             | None => Some (suggested_init model_configuration)
             | Some l =>
                 xs ← float_lists st !! l;
                 Some (match xs with
                       | [] => suggested_init model_configuration
                       | _ => xs
                       end)
             end = Some initial).
  { destruct initial_parameters as [l|]; [|eauto].
    destruct (Hip l eq_refl) as [xs ->]. simpl. eauto. }
  destruct Hinit as [initial ->]. cbn [mbind option_bind].
  unfold new_floats. cbn [float_lists bound_lists constraint_lists].
  assert (Hbound : exists bound,
             match bounds with
             | None =>
                 Some (fixed_poi_bounds model_configuration fixed_poi_value)
             | Some l =>
                 xs ← bound_lists st !! l;
                 Some (match xs with
                       | [] => fixed_poi_bounds model_configuration
                                 fixed_poi_value
                       | _ => xs
                       end)
             end = Some bound).
  { destruct bounds as [l|]; [|eauto].
    destruct (Hb l eq_refl) as [xs ->]. simpl. eauto. }
  destruct Hbound as [bound ->]. cbn [mbind option_bind].
  unfold new_bounds. cbn [float_lists bound_lists constraint_lists].
  destruct constraints as [l|].
  - do 4 eexists. split; [reflexivity|].
    cbn [float_lists bound_lists constraint_lists].
    split; [|split; [|split; [|split; [|split]]]].
    + split; [|split]; intros l' xs H.
      * apply lookup_insert_fresh. exact H.
      * apply lookup_insert_fresh. exact H.
      * exact H.
    + apply lookup_fresh.
    + rewrite lookup_insert_eq. eauto.
    + rewrite lookup_insert_eq. eauto.
    + apply Hc. reflexivity.
    + reflexivity.
  - unfold new_constraints. cbn [float_lists bound_lists constraint_lists].
    do 4 eexists. split; [reflexivity|].
    cbn [float_lists bound_lists constraint_lists].
    split; [|split; [|split; [|split; [|split]]]].
    + split; [|split]; intros l' xs H; apply lookup_insert_fresh; exact H.
    + apply lookup_fresh.
    + rewrite lookup_insert_eq. eauto.
    + rewrite lookup_insert_eq. eauto.
    + rewrite lookup_insert_eq. eauto.
    + apply lookup_fresh.
Qed.

Lemma fit_fix_poi_spec (model_configuration : ModelConfig)
    (fixed_poi_value : option pyfloat) (init_pars cl : loc) (st1 : store) :
  is_Some (float_lists st1 !! init_pars) ->
  is_Some (constraint_lists st1 !! cl) ->
  exists written,
    fit_fix_poi model_configuration fixed_poi_value init_pars cl st1
    = Some written
    /\ match written with
       | Raises err => err = IndexError
       | Returns st2 =>
           (forall l xs, l <> init_pars ->
              float_lists st1 !! l = Some xs -> float_lists st2 !! l = Some xs)
           /\ is_Some (float_lists st2 !! init_pars)
           /\ bound_lists st2 = bound_lists st1
           /\ match fixed_poi_value with
              | None => constraint_lists st2 = constraint_lists st1
              | Some value =>
                  exists cs,
                    constraint_lists st1 !! cl = Some cs
                    /\ constraint_lists st2
                       = <[cl := cs ++ [fixed_poi_constraint
                                          model_configuration value]]>
                           (constraint_lists st1)
              end
       end.
Proof.
  intros [pars Hpars] [cs Hcs]. unfold fit_fix_poi.
  destruct fixed_poi_value as [value|].
  - rewrite Hpars. cbn [mbind option_bind].
    destruct (list_setitem pars (poi_index model_configuration) value)
      as [pars'|].
    + cbn [float_lists bound_lists constraint_lists]. rewrite Hcs.
      cbn [mbind option_bind]. eexists. split; [reflexivity|].
      cbn [float_lists bound_lists constraint_lists].
      split; [|split; [|split]].
      * intros l xs Hne H. rewrite lookup_insert_ne; [exact H | congruence].
      * rewrite lookup_insert_eq. eauto.
      * reflexivity.
      * exists cs. split; reflexivity.
    + eexists. split; reflexivity.
  - eexists. split; [reflexivity|].
    split; [|split; [|split]]; eauto.
Qed.

Section Fit.
Variable objective : Type.
Variable minimize :
  objective -> list pyfloat -> bool -> option objective ->
  list (pyfloat * pyfloat) -> list constraint -> gmap string pyopt ->
  outcome (pyfloat * list pyfloat).

(** C10.  A call of [fit] whose list arguments are lists leaves every
    list the caller can see as it was, with one exception: when
    [fixed_poi_value] is not None and a [constraints] list is given (and
    the POI index is one of the parameter list, so that no IndexError is
    raised), that very list has the equality constraint of the fixed POI
    appended after the call.  With [fixed_poi_value] None, or no
    [constraints] list given, no list of the caller is changed. *)
Theorem fit_appends_to_the_given_list (func : objective)
    (model_configuration : ModelConfig) (do_grad : bool)
    (hessian : option objective) (initial_parameters bounds : option loc)
    (fixed_poi_value : option pyfloat)
    (logpdf : option (list pyfloat -> pyfloat)) (constraints : option loc)
    (options : gmap string pyopt) (st : store) :
  well_addressed st initial_parameters bounds constraints ->
  exists res st',
    fit objective minimize func model_configuration do_grad hessian
      initial_parameters bounds fixed_poi_value logpdf constraints options st
    = Some (res, st')
    /\ (forall l xs, float_lists st !! l = Some xs ->
          float_lists st' !! l = Some xs)
    /\ (forall l xs, bound_lists st !! l = Some xs ->
          bound_lists st' !! l = Some xs)
    /\ (forall l cs, constraint_lists st !! l = Some cs ->
          (fixed_poi_value = None \/ constraints <> Some l ->
           constraint_lists st' !! l = Some cs)
          /\ (forall value,
                fixed_poi_value = Some value -> constraints = Some l ->
                res <> Raises IndexError ->
                constraint_lists st' !! l
                = Some (cs ++ [fixed_poi_constraint model_configuration
                                 value])))
    /\ (fixed_poi_value = None \/ constraints = None -> preserved st st').
Proof.
  intros Hwf.
  destruct (fit_lists_spec model_configuration initial_parameters bounds
              fixed_poi_value constraints st Hwf)
    as (init_pars & par_bounds & cl & st1 & Hlists & Hpres & Hfresh
        & Hip & Hpb & Hcl & Hgiven).
  destruct (fit_fix_poi_spec model_configuration fixed_poi_value init_pars
              cl st1 Hip Hcl) as (written & Hfix & Hwritten).
  destruct Hpres as (Hpf & Hpb' & Hpc).
  unfold fit. rewrite Hlists. cbn [mbind option_bind]. rewrite Hfix.
  cbn [mbind option_bind].
  assert (Hfloat_ne : forall l xs, float_lists st !! l = Some xs ->
                                   l <> init_pars)
    by (intros l xs H ->; congruence).
  destruct written as [st2|err].
  - destruct Hwritten as (Hf2 & Hip2 & Hb2 & Hc2).
    assert (Hres : exists res,
               (pars ← float_lists st2 !! init_pars;
                bnds ← bound_lists st2 !! par_bounds;
                cs ← constraint_lists st2 !! cl;
                match minimize func pars do_grad hessian bnds cs
                        (<["poi_index" :=
                             OptInt (poi_index model_configuration)]> options)
                with
                | Raises err => Some (Raises err, st2)
                | Returns (fun_, x) =>
                    Some (Returns (match logpdf with
                                   | None => fun_
                                   | Some logpdf => logpdf x
                                   end, x), st2)
                end) = Some (res, st2)).
    { destruct Hip2 as [pars ->]. rewrite Hb2. destruct Hpb as [bnds ->].
      assert (Hcs : is_Some (constraint_lists st2 !! cl)).
      { destruct fixed_poi_value as [value|].
        - destruct Hc2 as (cs & _ & ->). rewrite lookup_insert_eq. eauto.
        - rewrite Hc2. exact Hcl. }
      destruct Hcs as [cs ->]. cbn [mbind option_bind].
      destruct (minimize func pars do_grad hessian bnds cs _) as [[fun_ x]|err];
        eauto. }
    destruct Hres as [res ->]. exists res, st2. split; [reflexivity|].
    assert (Hconstr : forall l cs, constraint_lists st !! l = Some cs ->
              fixed_poi_value = None \/ constraints <> Some l ->
              constraint_lists st2 !! l = Some cs).
    { intros l cs Hl Hcase. destruct fixed_poi_value as [value|].
      - destruct Hcase as [Hcase|Hcase]; [discriminate|].
        destruct Hc2 as (cs' & _ & ->).
        rewrite lookup_insert_ne; [apply Hpc; exact Hl|].
        destruct constraints as [l'|]; [congruence|].
        intros ->. congruence.
      - rewrite Hc2. apply Hpc. exact Hl. }
    split; [|split; [|split]].
    + intros l xs H. apply Hf2; [eapply Hfloat_ne; exact H | apply Hpf; exact H].
    + intros l xs H. rewrite Hb2. apply Hpb'. exact H.
    + intros l cs Hl. split; [apply Hconstr; exact Hl|].
      intros value -> -> _. subst cl.
      destruct Hc2 as (cs' & Hcs' & ->). rewrite lookup_insert_eq.
      apply Hpc in Hl. congruence.
    + intros Hcase. split; [|split].
      * intros l xs H.
        apply Hf2; [eapply Hfloat_ne; exact H | apply Hpf; exact H].
      * intros l xs H. rewrite Hb2. apply Hpb'. exact H.
      * intros l cs Hl. apply Hconstr; [exact Hl|].
        destruct Hcase as [->| ->]; [left; reflexivity | right; discriminate].
  - subst err. exists (Raises IndexError), st1. split; [reflexivity|].
    split; [|split; [|split]].
    + exact Hpf.
    + exact Hpb'.
    + intros l cs Hl. split; [intros _; apply Hpc; exact Hl|].
      intros value _ _ Hne. congruence.
    + intros _. split; [|split]; assumption.
Qed.

End Fit.

(** C10, witness: a fixed POI and a given, so far empty, list of
    constraints at address 1. *)
Lemma fit_appends_to_the_given_list_witness :
  let st := {| float_lists := ∅; bound_lists := ∅;
               constraint_lists := {[ 1%positive := [] ]} |} in
  let config := {| poi_index := 0;
                   suggested_init := [Finite 0; Finite 0];
                   fixed_poi_bounds := fun _ => [(Finite 0, Finite 10);
                                                 (NInf, PInf)] |} in
  let minimize := fun (_ : unit) (pars : list pyfloat) (_ : bool)
                      (_ : option unit) (_ : list (pyfloat * pyfloat))
                      (_ : list constraint) (_ : gmap string pyopt) =>
                    Returns (Finite 0, pars) in
  well_addressed st None None (Some 1%positive)
  /\ exists st',
       fit unit minimize tt config false None None None (Some (Finite 1))
         None (Some 1%positive) ∅ st
       = Some (Returns (Finite 0, [Finite 1; Finite 0]), st')
       /\ constraint_lists st' !! 1%positive
          = Some [fixed_poi_constraint config (Finite 1)].
Proof.
  intros st config minimize.
  assert (Hwf : well_addressed st None None (Some 1%positive)).
  { split; [|split]; intros l H; try discriminate.
    injection H as <-. exists []. reflexivity. }
  split; [exact Hwf|].
  destruct (fit_appends_to_the_given_list unit minimize tt config false None
              None None (Some (Finite 1)) None (Some 1%positive) ∅ st Hwf)
    as (res & st' & Hfit & _ & _ & Hc & _).
  assert (Hres : res = Returns (Finite 0, [Finite 1; Finite 0])).
  { vm_compute in Hfit. injection Hfit as Hres _. symmetry. exact Hres. }
  exists st'. split; [rewrite Hfit, Hres; reflexivity|].
  apply (proj2 (Hc 1%positive [] eq_refl) (Finite 1) eq_refl eq_refl).
  rewrite Hres. discriminate.
Defined.

End FitSpec.

(** * Further properties of the code *)

(** ** The asymptotic distribution: cut-off and monotonicity *)

Module DistributionFacts.
Import Float AsymptoticCalculator.

Ltac clip_cases :=
  unfold Rmin;
  repeat match goal with
         | |- context [Rle_dec 1 ?b] => destruct (Rle_dec 1 b)
         end;
  unfold Rmax;
  repeat match goal with
         | |- context [Rle_dec 0 ?b] => destruct (Rle_dec 0 b)
         end;
  lra.

Lemma uniform_cdf_nondecreasing : nondecreasing uniform_cdf.
Proof.
  intros x y Hxy. unfold uniform_cdf. apply FloatFacts.leb_Finite.
  clip_cases.
Qed.

Lemma uniform_cdf_symmetric : symmetric_cdf uniform_cdf.
Proof.
  intros x. exists (Rmax 0 (Rmin 1 (1 / 2 + x / 4))). split; [reflexivity|].
  unfold uniform_cdf. f_equal. unfold Rdiv. rewrite Ropp_mult_distr_l_reverse.
  fold (Rdiv x 4). clip_cases.
Qed.

Lemma uniform_cdf_unit_valued : unit_valued uniform_cdf.
Proof.
  intros x. exists (Rmax 0 (Rmin 1 (1 / 2 + x / 4))). split; [reflexivity|].
  clip_cases.
Qed.

(** X1. [expected_value] clamps [nsigma + shift] from below at the
    cut-off: the result is one of the two, never under either of them
    when both are numbers, and it does not decrease when [nsigma] grows.
    A NaN sum does not propagate, the cut-off is returned; a NaN cut-off
    is returned whatever the sum. *)
Theorem expected_value_is_clamped (d : AsymptoticTestStatisticsDistribution)
    (nsigma : pyfloat) :
  let tot := (nsigma + shift d)%py in
  (expected_value d nsigma = tot \/ expected_value d nsigma = cutoff d)
  /\ (isnan tot = true -> expected_value d nsigma = cutoff d)
  /\ (isnan (cutoff d) = true -> expected_value d nsigma = NaN)
  /\ (isnan tot = false -> isnan (cutoff d) = false ->
      (cutoff d <=? expected_value d nsigma)%py = true
      /\ (tot <=? expected_value d nsigma)%py = true)
  /\ (forall n1 n2 : R,
        n1 <= n2 -> isnan (shift d) = false -> isnan (cutoff d) = false ->
        (expected_value d (Finite n1) <=? expected_value d (Finite n2))%py
        = true).
Proof.
  unfold expected_value. cbv zeta.
  repeat split.
  - destruct (_ >? _)%py; auto.
  - intros H. apply FloatFacts.isnan_true in H. rewrite H.
    destruct (cutoff d); reflexivity.
  - intros H. apply FloatFacts.isnan_true in H. rewrite H.
    destruct (nsigma + shift d)%py; reflexivity.
  - destruct (nsigma + shift d)%py, (cutoff d); try discriminate;
      FloatOrder.order.
  - destruct (nsigma + shift d)%py, (cutoff d); try discriminate;
      FloatOrder.order.
  - intros n1 n2 Hn Hs Hc.
    destruct (shift d), (cutoff d); try discriminate; simpl;
      FloatOrder.order.
Qed.

(** X2. For a nondecreasing distribution function and a real shift, a
    larger test statistic never has a larger p-value: either its p-value
    fell under the cut-off (NaN), or it is at most the p-value of the
    smaller statistic. *)
Theorem pvalue_decreases_with_the_statistic (norm_cdf : pyfloat -> pyfloat)
    (d : AsymptoticTestStatisticsDistribution) (s v1 v2 : R) :
  nondecreasing norm_cdf -> shift d = Finite s -> v1 <= v2 ->
  pvalue norm_cdf d (Finite v2) = NaN
  \/ (pvalue norm_cdf d (Finite v2) <=? pvalue norm_cdf d (Finite v1))%py
     = true.
Proof.
  intros Hmono Hs Hv. unfold pvalue. cbv zeta. rewrite Hs. simpl.
  pose proof (Hmono (s + - v2) (s + - v1) ltac:(lra)) as H.
  destruct (norm_cdf (Finite (s + - v2)) >=? cutoff d)%py eqn:E2; [|now left].
  right.
  assert (E1 : (norm_cdf (Finite (s + - v1)) >=? cutoff d)%py = true).
  { unfold geb in *. eapply FloatOrder.leb_trans; eassumption. }
  rewrite E1. exact H.
Qed.

(** X2, witness. *)
Lemma pvalue_decreases_with_the_statistic_witness :
  nondecreasing uniform_cdf
  /\ shift (new (Finite 0) None) = Finite 0
  /\ 0 <= 1
  /\ (pvalue uniform_cdf (new (Finite 0) None) (Finite 1) = NaN
      \/ (pvalue uniform_cdf (new (Finite 0) None) (Finite 1)
          <=? pvalue uniform_cdf (new (Finite 0) None) (Finite 0))%py = true).
Proof.
  split; [exact uniform_cdf_nondecreasing|].
  split; [reflexivity|]. split; [lra|].
  apply (pvalue_decreases_with_the_statistic uniform_cdf
           (new (Finite 0) None) 0 0 1).
  - exact uniform_cdf_nondecreasing.
  - reflexivity.
  - lra.
Defined.

(** X3. [pvalue] and [cdf] evaluate the distribution function at opposite
    arguments, so for a symmetric distribution function, a real shift and
    no cut-off they are complementary: [pvalue(v) + cdf(v) = 1]. *)
Theorem pvalue_complements_cdf (norm_cdf : pyfloat -> pyfloat)
    (d : AsymptoticTestStatisticsDistribution) (s v : R) :
  symmetric_cdf norm_cdf -> shift d = Finite s -> cutoff d = NInf ->
  (pvalue norm_cdf d (Finite v) + cdf norm_cdf d (Finite v))%py = Finite 1.
Proof.
  intros Hsym Hs Hc. unfold pvalue, cdf. cbv zeta. rewrite Hs, Hc. simpl.
  destruct (Hsym (v + - s)) as (p & Hp & Hq).
  replace (s + - v) with (- (v + - s)) by lra.
  rewrite Hp, Hq. simpl. f_equal. lra.
Qed.

(** X3, witness. *)
Lemma pvalue_complements_cdf_witness :
  symmetric_cdf uniform_cdf
  /\ shift (new (Finite 1) None) = Finite 1
  /\ cutoff (new (Finite 1) None) = NInf
  /\ (pvalue uniform_cdf (new (Finite 1) None) (Finite 0)
      + cdf uniform_cdf (new (Finite 1) None) (Finite 0))%py = Finite 1.
Proof.
  split; [exact uniform_cdf_symmetric|].
  split; [reflexivity|]. split; [reflexivity|].
  apply (pvalue_complements_cdf uniform_cdf (new (Finite 1) None) 1 0).
  - exact uniform_cdf_symmetric.
  - reflexivity.
  - reflexivity.
Defined.

End DistributionFacts.

(** ** The test statistic: special values and the two kinds *)

Module TestStatisticsFacts.
Import Float UtilsCls.

(** X4. A NaN among the observed likelihood values is not hidden by the
    clamp at zero: [sqrt_qmu] and the test statistic are NaN for every
    kind of statistic; likewise a NaN among the Asimov values gives a NaN
    [sqrt_qmuA] and a NaN test statistic. *)
Theorem nan_likelihood_gives_nan_statistic (poi_test : pyfloat)
    (negloglikelihood_asimov negloglikelihood : nll_arg)
    (min_negloglikelihood_asimov min_negloglikelihood : pyfloat)
    (test_stat : string) :
  let '(sqrt_qmu, sqrt_qmuA, test_statistics) :=
    teststatistics poi_test negloglikelihood_asimov
      min_negloglikelihood_asimov negloglikelihood min_negloglikelihood
      test_stat in
  (isnan (call_or_value negloglikelihood poi_test) = true
   \/ isnan min_negloglikelihood = true ->
   sqrt_qmu = NaN /\ test_statistics = NaN)
  /\ (isnan (call_or_value negloglikelihood_asimov poi_test) = true
      \/ isnan min_negloglikelihood_asimov = true ->
      sqrt_qmuA = NaN /\ test_statistics = NaN).
Proof.
  unfold teststatistics. cbv zeta.
  set (nll := call_or_value negloglikelihood poi_test).
  set (nllA := call_or_value negloglikelihood_asimov poi_test).
  assert (Hq : isnan nll = true \/ isnan min_negloglikelihood = true ->
               qmu nll min_negloglikelihood = NaN).
  { intros [H | H]; apply FloatFacts.isnan_true in H; rewrite H;
      unfold qmu; [destruct min_negloglikelihood | destruct nll];
      reflexivity. }
  assert (HqA : isnan nllA = true \/ isnan min_negloglikelihood_asimov = true ->
                qmuA nllA min_negloglikelihood_asimov = NaN).
  { intros [H | H]; apply FloatFacts.isnan_true in H; rewrite H;
      unfold qmuA; [destruct min_negloglikelihood_asimov | destruct nllA];
      reflexivity. }
  set (kind := str_in test_stat ["q"; "q0"]).
  split.
  - intros H. rewrite (Hq H). clear Hq HqA. split; [reflexivity|].
    destruct kind, (qmuA nllA min_negloglikelihood_asimov) as [r | | |];
      try reflexivity; simpl; destruct (Rltb r 0); reflexivity.
  - intros H. rewrite (HqA H). clear Hq HqA. split; [reflexivity|].
    destruct kind, (qmu nll min_negloglikelihood) as [r | | |];
      try reflexivity; simpl; destruct (Rltb r 0); reflexivity.
Qed.

Section RealInputs.
Variable poi_test : pyfloat.
Variables nll min_nll nllA min_nllA : R.

Let run := teststatistics poi_test (NllVal (Finite nllA)) (Finite min_nllA)
             (NllVal (Finite nll)) (Finite min_nll).
Let q := Rmax (2 * (nll - min_nll)) 0.
Let qA := Rmax (2 * (nllA - min_nllA)) 0.

Lemma run_unfold (test_stat : string) :
  run test_stat
  = (Finite (R_sqrt.sqrt q), Finite (R_sqrt.sqrt qA),
     if str_in test_stat ["q"; "q0"]
     then Finite (R_sqrt.sqrt q - R_sqrt.sqrt qA)
     else if Rle_dec (R_sqrt.sqrt q) (R_sqrt.sqrt qA)
          then Finite (R_sqrt.sqrt q - R_sqrt.sqrt qA)
          else (Finite (q - qA) / Finite (2 * R_sqrt.sqrt qA))%py).
Proof.
  unfold run, teststatistics. cbv zeta. simpl call_or_value.
  rewrite TestStatisticsSpec.qmu_Finite, TestStatisticsSpec.qmuA_Finite.
  fold q qA.
  assert (0 <= q) by (unfold q; apply Rmax_r).
  assert (0 <= qA) by (unfold qA; apply Rmax_r).
  rewrite !FloatFacts.sqrt_Finite by assumption.
  f_equal.
  destruct (str_in test_stat ["q"; "q0"]); [reflexivity|].
  destruct (Rle_dec (R_sqrt.sqrt q) (R_sqrt.sqrt qA)) as [Hle | Hgt].
  - apply FloatFacts.leb_Finite in Hle. rewrite Hle. reflexivity.
  - assert (Hf : (Finite (R_sqrt.sqrt q) <=? Finite (R_sqrt.sqrt qA))%py = false)
      by (apply FloatFacts.leb_Finite_false; lra).
    rewrite Hf. reflexivity.
Qed.

(** X5. With real likelihood values and a positive Asimov statistic
    ([nllA > min_nllA]) the two kinds of statistic are real numbers, the
    "qtilde" one is never below the "q" one, the two agree exactly when
    [qmu <= qmuA], and the sign of either tells on which side of [qmuA]
    the observed [qmu] lies. *)
Theorem qtilde_dominates_q :
  min_nllA < nllA ->
  exists tq tt : R,
    snd (run "q") = Finite tq
    /\ snd (run "qtilde") = Finite tt
    /\ tq <= tt
    /\ (tq = tt <-> q <= qA)
    /\ (tq <= 0 <-> q <= qA)
    /\ (tt <= 0 <-> q <= qA).
Proof.
  intros HA.
  assert (Hq : 0 <= q) by (unfold q; apply Rmax_r).
  assert (HqA : 0 < qA).
  { unfold qA. apply Rlt_le_trans with (2 * (nllA - min_nllA)); [lra|].
    apply Rmax_l. }
  pose proof (sqrt_lt_R0 qA HqA) as Hb.
  pose proof (sqrt_pos q) as Ha.
  pose proof (sqrt_sqrt q Hq) as Ea.
  pose proof (sqrt_sqrt qA (Rlt_le _ _ HqA)) as Eb.
  set (a := R_sqrt.sqrt q) in *. set (b := R_sqrt.sqrt qA) in *.
  assert (Hord : q <= qA <-> a <= b).
  { split; intros H.
    - apply sqrt_le_1; lra.
    - rewrite <- Ea, <- Eb. nra. }
  rewrite !run_unfold. simpl snd. fold a b.
  replace (str_in "q" ["q"; "q0"]) with true by reflexivity.
  replace (str_in "qtilde" ["q"; "q0"]) with false by reflexivity.
  destruct (Rle_dec a b) as [Hle | Hgt].
  - exists (a - b), (a - b). repeat split; try reflexivity; try lra;
      intros; try apply Hord; lra.
  - assert (Hab : b < a) by lra.
    exists (a - b), ((q - qA) / (2 * b)).
    assert (Hdiv : (Finite (q - qA) / Finite (2 * b))%py
                   = Finite ((q - qA) / (2 * b))).
    { unfold div. replace (Reqb (2 * b) 0) with false; [reflexivity|].
      symmetry. apply FloatFacts.Reqb_false. lra. }
    assert (Hval : (q - qA) / (2 * b) = (a - b) + (a - b) * (a - b) / (2 * b)).
    { rewrite <- Ea, <- Eb. field. lra. }
    assert (Hpos : 0 < (a - b) * (a - b) / (2 * b)).
    { apply Rdiv_lt_0_compat; nra. }
    split; [reflexivity|]. split; [exact Hdiv|].
    repeat split; intros; try lra; exfalso;
      try (apply Hord in H; lra); lra.
Qed.

(** X6. The division by [2 * sqrt_qmuA] at a vanishing Asimov statistic:
    with real values, [nllA < min_nllA] and [nll > min_nll], the clamp
    [max(2.0 * (nllA - min_nllA), 0.0)] returns its second argument, the
    zero [0.0], and the "qtilde" statistic is plus infinity while the "q"
    statistic is the finite [sqrt_qmu]; no exception, no NaN.  (At
    [nllA = min_nllA] the clamp returns its first argument, a zero whose
    sign the model does not have.) *)
Theorem vanishing_asimov_statistic :
  nllA < min_nllA -> min_nll < nll ->
  run "qtilde" = (Finite (R_sqrt.sqrt q), Finite 0, PInf)
  /\ run "q" = (Finite (R_sqrt.sqrt q), Finite 0, Finite (R_sqrt.sqrt q))
  /\ 0 < R_sqrt.sqrt q.
Proof.
  intros HA Hn.
  assert (EqA : qA = 0).
  { unfold qA. apply Rmax_right. lra. }
  assert (Hq : 0 < q).
  { unfold q. apply Rlt_le_trans with (2 * (nll - min_nll)); [lra|].
    apply Rmax_l. }
  pose proof (sqrt_lt_R0 q Hq) as Ha.
  rewrite !run_unfold. rewrite EqA, sqrt_0.
  replace (str_in "q" ["q"; "q0"]) with true by reflexivity.
  replace (str_in "qtilde" ["q"; "q0"]) with false by reflexivity.
  destruct (Rle_dec (R_sqrt.sqrt q) 0) as [Hle | _]; [lra|].
  repeat split; try assumption.
  - f_equal. unfold div.
    replace (Reqb (2 * 0) 0) with true
      by (symmetry; apply FloatFacts.Reqb_true; lra).
    unfold signed_inf.
    replace (Rltb 0 (q - 0)) with true
      by (symmetry; apply FloatFacts.Rltb_true; lra).
    reflexivity.
  - do 2 f_equal. lra.
Qed.
End RealInputs.

(** X5, witness. *)
Lemma qtilde_dominates_q_witness :
  0 < 1
  /\ exists tq tt : R,
       snd (teststatistics (Finite 1) (NllVal (Finite 1)) (Finite 0)
              (NllVal (Finite 2)) (Finite 0) "q") = Finite tq
       /\ snd (teststatistics (Finite 1) (NllVal (Finite 1)) (Finite 0)
                 (NllVal (Finite 2)) (Finite 0) "qtilde") = Finite tt
       /\ tq <= tt.
Proof.
  split; [lra|].
  destruct (qtilde_dominates_q (Finite 1) 2 0 1 0 ltac:(lra))
    as (tq & tt & H1 & H2 & H3 & _).
  exists tq, tt. repeat split; assumption.
Defined.

(** X6, witness. *)
Lemma vanishing_asimov_statistic_witness :
  0 < 1 /\ 0 < 2
  /\ snd (teststatistics (Finite 1) (NllVal (Finite 0)) (Finite 1)
            (NllVal (Finite 2)) (Finite 0) "qtilde") = PInf.
Proof.
  split; [lra|]. split; [lra|].
  destruct (vanishing_asimov_statistic (Finite 1) 2 0 0 1 ltac:(lra) ltac:(lra))
    as (H & _).
  rewrite H. reflexivity.
Defined.

End TestStatisticsFacts.

(** ** Confidence levels: the expected band and the unit interval *)

Module ConfidenceLevelFacts.
Import Float AsymptoticCalculator UtilsCls.

Lemma expected_value_bkg (nsigma : R) :
  expected_value bkg_only_distribution (Finite nsigma) = Finite nsigma.
Proof.
  unfold expected_value, bkg_only_distribution. simpl. f_equal. lra.
Qed.

Lemma pvalue_unbounded (norm_cdf : pyfloat -> pyfloat) (shift value : pyfloat) :
  pvalue norm_cdf (new shift (Some NInf)) value = norm_cdf (shift - value)%py.
Proof.
  unfold pvalue. simpl. destruct (norm_cdf _); reflexivity.
Qed.

(** X7. What [compute_confidence_level] returns.  For the observed and
    the a-priori expectation it is one level, that of the given test
    statistic, and the two expectation types are treated alike.  For the
    a-posteriori expectation the given test statistic is not used: the
    result holds five levels, those of the test statistics 2, 1, 0, -1
    and -2, in this order.  Each level is CLs for "qtilde" (the quotient
    taken in single precision, 0 where CLb is 0) and CLsb for every other
    kind. *)
Theorem confidence_level_bands (float32 norm_cdf : pyfloat -> pyfloat)
    (sqrt_qmuA test_statistic : pyfloat) (test_stat : string) :
  let level ts :=
    let CLsb := norm_cdf (- sqrt_qmuA - ts)%py in
    let CLb := norm_cdf (Finite 0 - ts)%py in
    if String.eqb test_stat "qtilde"
    then if (CLb !=? Finite 0)%py
         then float32 (float32 CLsb / float32 CLb)%py else Finite 0
    else CLsb in
  compute_confidence_level float32 norm_cdf sqrt_qmuA test_statistic observed
    test_stat = VList [VFloat (level test_statistic)]
  /\ compute_confidence_level float32 norm_cdf sqrt_qmuA test_statistic
       apriori test_stat = VList [VFloat (level test_statistic)]
  /\ compute_confidence_level float32 norm_cdf sqrt_qmuA test_statistic
       aposteriori test_stat
     = VList (map (fun nsigma : R => VList [VFloat (level (Finite nsigma))])
                [2; 1; 0; -1; -2]).
Proof.
  cbv zeta.
  unfold compute_confidence_level, expected_pvalues, pvalues.
  unfold sig_plus_bkg_distribution.
  fold bkg_only_distribution.
  cbn [map fst snd].
  rewrite !expected_value_bkg.
  unfold bkg_only_distribution.
  rewrite !pvalue_unbounded.
  replace (bool_decide (observed ∈ [observed; apriori])) with true
    by reflexivity.
  replace (bool_decide (apriori ∈ [observed; apriori])) with true
    by reflexivity.
  replace (bool_decide (aposteriori ∈ [observed; apriori])) with false
    by reflexivity.
  destruct (String.eqb test_stat "qtilde"); repeat split; reflexivity.
Qed.

(** A cast that is nondecreasing and keeps 0 and 1 keeps the unit
    interval. *)
Lemma cast_unit (float32 : pyfloat -> pyfloat) (v : R) :
  nondecreasing float32 ->
  float32 (Finite 0) = Finite 0 -> float32 (Finite 1) = Finite 1 ->
  0 <= v <= 1 ->
  exists v' : R, float32 (Finite v) = Finite v' /\ 0 <= v' <= 1.
Proof.
  intros Hmono H0 H1 Hv.
  pose proof (Hmono 0 v ltac:(lra)) as Hl.
  pose proof (Hmono v 1 ltac:(lra)) as Hr.
  rewrite H0 in Hl. rewrite H1 in Hr.
  destruct (float32 (Finite v)) as [v' | | |]; try discriminate.
  exists v'. split; [reflexivity|].
  apply FloatFacts.leb_Finite in Hl, Hr. lra.
Qed.

(** X8. For a distribution function that is nondecreasing with values
    in [[0, 1]], a cast to single precision that is nondecreasing and
    keeps 0, 1 and NaN, a real test statistic and a real
    [sqrt_qmuA >= 0], [pvalues] returns numbers [CLsb] and [CLb] with
    [0 <= CLsb <= CLb <= 1].  CLs is 0.0 when CLb is 0; it is a number
    in [[0, 1]] when the cast of CLb is not zero; and it is NaN when CLb
    is not zero but its cast is, the guard being on CLb before the
    cast. *)
Theorem confidence_levels_are_probabilities
    (float32 norm_cdf : pyfloat -> pyfloat) (sqrt_qmuA teststatistic : R) :
  unit_valued norm_cdf -> nondecreasing norm_cdf ->
  nondecreasing float32 ->
  float32 (Finite 0) = Finite 0 -> float32 (Finite 1) = Finite 1 ->
  float32 NaN = NaN ->
  0 <= sqrt_qmuA ->
  exists (CLsb CLb : R) (CLs : pyfloat),
    pvalues float32 norm_cdf (Finite teststatistic)
      (sig_plus_bkg_distribution (Finite sqrt_qmuA)) bkg_only_distribution
    = (VList [VFloat (Finite CLsb)], VList [VFloat (Finite CLb)],
       VList [VFloat CLs])
    /\ 0 <= CLsb <= CLb /\ CLb <= 1
    /\ (CLb = 0 -> CLs = Finite 0)
    /\ (float32 (Finite CLb) <> Finite 0 ->
        exists c : R, CLs = Finite c /\ 0 <= c <= 1)
    /\ (CLb <> 0 -> float32 (Finite CLb) = Finite 0 -> CLs = NaN).
Proof.
  intros Hunit Hmono Hcast H0 H1 Hnan Hs.
  unfold pvalues, sig_plus_bkg_distribution, bkg_only_distribution.
  rewrite !pvalue_unbounded. cbn [sub neg add].
  destruct (Hunit (- sqrt_qmuA + - teststatistic)) as (a & Ea & Ha).
  destruct (Hunit (0 + - teststatistic)) as (b & Eb & Hb).
  pose proof (Hmono (- sqrt_qmuA + - teststatistic) (0 + - teststatistic)
                ltac:(lra)) as Hab.
  rewrite Ea, Eb in Hab. apply FloatFacts.leb_Finite in Hab.
  rewrite Ea, Eb.
  destruct (cast_unit float32 a Hcast H0 H1 Ha) as (a' & Ea' & Ha').
  destruct (cast_unit float32 b Hcast H0 H1 Hb) as (b' & Eb' & Hb').
  pose proof (Hcast a b Hab) as Hab'.
  rewrite Ea', Eb' in Hab'. apply FloatFacts.leb_Finite in Hab'.
  rewrite Ea', Eb'.
  exists a, b.
  destruct (Req_dec_T b 0) as [Hz | Hnz].
  - exists (Finite 0). subst b.
    replace (Finite 0 !=? Finite 0)%py with false
      by (unfold neb, eqb; symmetry; apply negb_false_iff;
          apply FloatFacts.Reqb_true; reflexivity).
    split; [reflexivity|]. split; [lra|]. split; [lra|].
    split; [reflexivity|]. split.
    + intros Hne. exfalso. apply Hne. exact H0.
    + intros Hne. exfalso. apply Hne. reflexivity.
  - assert (Hne : (Finite b !=? Finite 0)%py = true).
    { unfold neb, eqb. apply negb_true_iff. apply FloatFacts.Reqb_false.
      exact Hnz. }
    rewrite Hne.
    exists (float32 (Finite a' / Finite b')%py).
    split; [reflexivity|]. split; [lra|]. split; [lra|].
    split; [intros; exfalso; auto|].
    destruct (Req_dec_T b' 0) as [Hz' | Hnz'].
    + split; [intros Hc; exfalso; apply Hc; rewrite Eb'; f_equal; exact Hz'|].
      intros _ _. subst b'.
      assert (a' = 0) by lra. subst a'.
      unfold div, signed_inf.
      replace (Reqb 0 0) with true
        by (symmetry; apply FloatFacts.Reqb_true; reflexivity).
      replace (Rltb 0 0) with false
        by (symmetry; apply FloatFacts.Rltb_false; lra).
      exact Hnan.
    + split;
        [|intros _ Hc; exfalso; apply Hnz'; rewrite Eb' in Hc;
          injection Hc; auto].
      intros _. unfold div.
      replace (Reqb b' 0) with false
        by (symmetry; apply FloatFacts.Reqb_false; exact Hnz').
      apply (cast_unit float32 (a' / b') Hcast H0 H1).
      assert (0 < b') by lra. split.
      * apply Rmult_le_pos; [lra|]. apply Rlt_le, Rinv_0_lt_compat. lra.
      * apply Rmult_le_reg_r with b'; [lra|]. unfold Rdiv.
        rewrite Rmult_assoc, Rinv_l by lra. lra.
Qed.

(** The range model of single precision is such a cast. *)
Lemma single_thresholds :
  0 < / 2 ^ 150 /\ / 2 ^ 150 < 1 /\ 1 < (2 - / 2 ^ 24) * 2 ^ 127.
Proof.
  assert (H150 : 1 < 2 ^ 150) by (apply Rlt_pow_R1; [lra | lia]).
  assert (H24 : 1 < 2 ^ 24) by (apply Rlt_pow_R1; [lra | lia]).
  assert (H127 : 1 < 2 ^ 127) by (apply Rlt_pow_R1; [lra | lia]).
  assert (I150 : 0 < / 2 ^ 150) by (apply Rinv_0_lt_compat; lra).
  assert (I24 : 0 < / 2 ^ 24) by (apply Rinv_0_lt_compat; lra).
  assert (J150 : / 2 ^ 150 < 1).
  { rewrite <- Rinv_1. apply Rinv_lt_contravar; lra. }
  assert (J24 : / 2 ^ 24 < 1).
  { rewrite <- Rinv_1. apply Rinv_lt_contravar; lra. }
  split; [exact I150|]. split; [exact J150|]. nra.
Qed.

Lemma single_nondecreasing : nondecreasing single.
Proof.
  destruct single_thresholds as (Ht & Ht1 & HM).
  intros x y Hxy. unfold single.
  set (t := / 2 ^ 150) in *. set (M := (2 - / 2 ^ 24) * 2 ^ 127) in *.
  destruct (Rltb t (Rabs x)) eqn:Ex1; destruct (Rltb t (Rabs y)) eqn:Ey1;
    destruct (Rltb (Rabs x) M) eqn:Ex2; destruct (Rltb (Rabs y) M) eqn:Ey2;
    destruct (Rltb 0 x) eqn:Ex3; destruct (Rltb 0 y) eqn:Ey3;
    repeat match goal with
           | H : Rltb _ _ = true |- _ => apply FloatFacts.Rltb_true in H
           | H : Rltb _ _ = false |- _ => apply FloatFacts.Rltb_false in H
           end;
    revert Ex1 Ey1 Ex2 Ey2; unfold Rabs;
    destruct (Rcase_abs x), (Rcase_abs y); intros;
    first [ reflexivity | apply FloatFacts.leb_Finite; lra | exfalso; lra ].
Qed.

Lemma single_0 : single (Finite 0) = Finite 0.
Proof.
  destruct single_thresholds as (Ht & _). unfold single.
  replace (Rltb (/ 2 ^ 150) (Rabs 0)) with false; [reflexivity|].
  symmetry. apply FloatFacts.Rltb_false. rewrite Rabs_R0. lra.
Qed.

Lemma single_1 : single (Finite 1) = Finite 1.
Proof.
  destruct single_thresholds as (Ht & Ht1 & HM). unfold single.
  rewrite Rabs_R1.
  replace (Rltb (/ 2 ^ 150) 1) with true
    by (symmetry; apply FloatFacts.Rltb_true; lra).
  replace (Rltb 1 ((2 - / 2 ^ 24) * 2 ^ 127)) with true; [reflexivity|].
  symmetry. apply FloatFacts.Rltb_true. lra.
Qed.

(** X8, witness. *)
Lemma confidence_levels_are_probabilities_witness :
  unit_valued uniform_cdf /\ nondecreasing uniform_cdf
  /\ nondecreasing single
  /\ single (Finite 0) = Finite 0 /\ single (Finite 1) = Finite 1
  /\ single NaN = NaN
  /\ 0 <= 1
  /\ exists (CLsb CLb : R) (CLs : pyfloat),
       pvalues single uniform_cdf (Finite 0)
         (sig_plus_bkg_distribution (Finite 1)) bkg_only_distribution
       = (VList [VFloat (Finite CLsb)], VList [VFloat (Finite CLb)],
          VList [VFloat CLs])
       /\ 0 <= CLsb <= CLb /\ CLb <= 1.
Proof.
  split; [exact DistributionFacts.uniform_cdf_unit_valued|].
  split; [exact DistributionFacts.uniform_cdf_nondecreasing|].
  split; [exact single_nondecreasing|].
  split; [exact single_0|]. split; [exact single_1|].
  split; [reflexivity|]. split; [lra|].
  destruct (confidence_levels_are_probabilities single uniform_cdf 1 0
              DistributionFacts.uniform_cdf_unit_valued
              DistributionFacts.uniform_cdf_nondecreasing
              single_nondecreasing single_0 single_1 eq_refl ltac:(lra))
    as (a & b & c & H1 & H2 & H3 & _).
  exists a, b, c. split; [exact H1|]. split; [exact H2 | exact H3].
Defined.

End ConfidenceLevelFacts.

(** ** Bracketing: what the loops guarantee for any function *)

Module BracketFacts.
Import Float BracketLoops.

Section AnyComputer.
Variable computer : pyfloat -> pyfloat.
Variable loc : pyfloat.

(** *** The range of the returned bounds *)

Lemma lower_loop_range (c : R) (fuel : nat) (a : R) (r : pyfloat) :
  0 < c < 1 -> 1e-10 <= a ->
  lower_loop computer loc (Finite c) fuel (Finite a) = Some r ->
  exists lo, r = Finite lo /\ c * 1e-10 <= lo <= a.
Proof.
  intros Hc. unfold lower_loop. revert a r.
  induction fuel as [|fuel IH]; intros a r Ha H; [discriminate|].
  cbn [while_break] in H.
  destruct (computer (Finite a) >? loc)%py.
  - cbn [mul] in H. cbv zeta in H.
    destruct (Finite (a * c) <? Finite 1e-10)%py eqn:E.
    + injection H as <-. exists (a * c). split; [reflexivity|]. nra.
    + apply FloatFacts.Rltb_false in E.
      destruct (IH (a * c) r E H) as (lo & -> & Hlo).
      exists lo. split; [reflexivity|]. nra.
  - injection H as <-. exists a. split; [reflexivity|]. nra.
Qed.

Lemma upper_loop_range (c : R) (fuel : nat) (a : R) (r : pyfloat) :
  1 < c -> 0 < a <= 1e10 ->
  upper_loop computer loc (Finite c) fuel (Finite a) = Some r ->
  exists hi, r = Finite hi /\ a <= hi <= c * 1e10.
Proof.
  intros Hc. unfold upper_loop. revert a r.
  induction fuel as [|fuel IH]; intros a r Ha H; [discriminate|].
  cbn [while_break] in H.
  destruct (computer (Finite a) <? loc)%py.
  - cbn [mul] in H. cbv zeta in H.
    destruct (Finite (a * c) >? Finite 1e10)%py eqn:E.
    + injection H as <-. exists (a * c). split; [reflexivity|]. nra.
    + apply FloatFacts.Rltb_false in E.
      destruct (IH (a * c) r ltac:(nra) H) as (hi & -> & Hhi).
      exists hi. split; [reflexivity|]. nra.
  - injection H as <-. exists a. split; [reflexivity|]. nra.
Qed.

Lemma upper_loop_total_positive (c a : R) :
  1 < c -> 0 < a ->
  exists n r, upper_loop computer loc (Finite c) n (Finite a) = Some r.
Proof.
  intros Hc Ha.
  assert (Hn : exists n, a * c ^ n > 1e10).
  { destruct (Pow_x_infinity c) with (b := 1e10 / a + 1) as [N HN];
      [rewrite Rabs_pos_eq; lra |].
    exists N. specialize (HN N (Nat.le_refl N)).
    rewrite Rabs_pos_eq in HN by (apply pow_le; lra).
    assert (Hlt : 1e10 / a < c ^ N) by lra.
    apply Rmult_lt_compat_l with (r := a) in Hlt; [|lra].
    replace (a * (1e10 / a)) with 1e10 in Hlt by (field; lra).
    lra. }
  destruct Hn as [n Hn]. exists (S n).
  exact (upper_loop_stops computer loc c n a Hc Hn).
Qed.

Lemma default_bounds_return :
  exists low hig : R,
    (forall fuel, (35 <= fuel)%nat ->
       UpperLimits.find_root_limits fuel computer loc (Finite 1) (Finite 1)
       = Some (Finite low, Finite hig))
    /\ 5e-11 <= low <= 1 /\ 1 <= hig <= 2e10.
Proof.
  destruct (lower_loop_stops computer loc 0.5 34 1 ltac:(lra)
              ltac:(simpl; lra)) as [rl Hl].
  destruct (upper_loop_stops computer loc 2 34 1 ltac:(lra)
              ltac:(simpl; lra)) as [rh Hh].
  destruct (lower_loop_range 0.5 _ 1 rl ltac:(lra) ltac:(lra) Hl)
    as (lo & -> & Hlo).
  destruct (upper_loop_range 2 _ 1 rh ltac:(lra) ltac:(lra) Hh)
    as (hi & -> & Hhi).
  exists lo, hi. split; [|lra].
  intros fuel Hfuel. unfold UpperLimits.find_root_limits.
  unfold lower_loop, upper_loop in *.
  rewrite (while_break_more_fuel _ _ _ fuel _ _ Hl Hfuel).
  rewrite (while_break_more_fuel _ _ _ fuel _ _ Hh Hfuel).
  reflexivity.
Qed.

(** X9. From the default starting bounds [1.0, 1.0] both versions of
    [find_root_limits] return for every function and level, NaN-valued
    ones included: the two-fold steps of [upper_limits.py] within 35
    rounds of each loop, with [5e-11 <= low <= 1 <= hig <= 2e10]; the
    ten-fold steps of [utils_cls.py] within 12 rounds, with
    [1e-11 <= low <= 1 <= hig <= 1e11]. *)
Theorem default_bounds_always_return :
  (exists low hig : R,
     (forall fuel, (35 <= fuel)%nat ->
        UpperLimits.find_root_limits fuel computer loc (Finite 1) (Finite 1)
        = Some (Finite low, Finite hig))
     /\ 5e-11 <= low <= 1 /\ 1 <= hig <= 2e10)
  /\ (exists low hig : R,
        (forall fuel, (12 <= fuel)%nat ->
           UtilsCls.find_root_limits fuel computer loc
           = Some (Finite low, Finite hig))
        /\ 1e-11 <= low <= 1 /\ 1 <= hig <= 1e11).
Proof.
  split; [exact default_bounds_return|].
  destruct (lower_loop_stops computer loc 0.1 11 1 ltac:(lra)
              ltac:(simpl; lra)) as [rl Hl].
  destruct (upper_loop_stops computer loc 10 11 1 ltac:(lra)
              ltac:(simpl; lra)) as [rh Hh].
  destruct (lower_loop_range 0.1 _ 1 rl ltac:(lra) ltac:(lra) Hl)
    as (lo & -> & Hlo).
  destruct (upper_loop_range 10 _ 1 rh ltac:(lra) ltac:(lra) Hh)
    as (hi & -> & Hhi).
  exists lo, hi. split; [|lra].
  intros fuel Hfuel. unfold UtilsCls.find_root_limits.
  unfold lower_loop, upper_loop in *.
  rewrite (while_break_more_fuel _ _ _ fuel _ _ Hl Hfuel).
  rewrite (while_break_more_fuel _ _ _ fuel _ _ Hh Hfuel).
  reflexivity.
Qed.

(** *** A strictly increasing function *)

Section Increasing.
Hypothesis computer_increasing : increasing computer.
Variable x0 : R.
Hypothesis root : (computer (Finite x0) ==? loc)%py = true.
Hypothesis root_in_range : 1e-10 <= x0 <= 1e10.

Lemma above_right_of_root (a : R) :
  x0 < a -> (computer (Finite a) >? loc)%py = true.
Proof.
  intros H. apply RecorderSpec.eqb_eq in root. rewrite <- root.
  exact (computer_increasing x0 a H).
Qed.

Lemma below_left_of_root (a : R) :
  a < x0 -> (computer (Finite a) <? loc)%py = true.
Proof.
  intros H. apply RecorderSpec.eqb_eq in root. rewrite <- root.
  exact (computer_increasing a x0 H).
Qed.

Lemma lower_loop_left_of_root (c : R) (fuel : nat) (a : R) (r : pyfloat) :
  lower_loop computer loc (Finite c) fuel (Finite a) = Some r ->
  exists lo, r = Finite lo /\ lo <= x0
             /\ (computer (Finite lo) <=? loc)%py = true.
Proof.
  unfold lower_loop. revert a r.
  induction fuel as [|fuel IH]; intros a r H; [discriminate|].
  cbn [while_break] in H.
  destruct (computer (Finite a) >? loc)%py eqn:Hc.
  - cbn [mul] in H. cbv zeta in H.
    destruct (Finite (a * c) <? Finite 1e-10)%py eqn:E.
    + injection H as <-. apply FloatFacts.Rltb_true in E.
      exists (a * c). split; [reflexivity|]. split; [lra|].
      destruct (Req_dec_T (a * c) x0) as [-> | Hne].
      * exact (proj1 (FloatOrder.eqb_leb _ _ root)).
      * unfold leb. rewrite (below_left_of_root (a * c)) by lra. reflexivity.
    + exact (IH (a * c) r H).
  - injection H as <-. exists a. split; [reflexivity|].
    assert (Ha : a <= x0).
    { destruct (Rle_dec a x0) as [Hle | Hgt]; [exact Hle|].
      rewrite above_right_of_root in Hc by lra. discriminate. }
    split; [exact Ha|].
    destruct (Req_dec_T a x0) as [-> | Hne].
    + exact (proj1 (FloatOrder.eqb_leb _ _ root)).
    + unfold leb. rewrite (below_left_of_root a) by lra. reflexivity.
Qed.

Lemma upper_loop_right_of_root (c : R) (fuel : nat) (a : R) (r : pyfloat) :
  upper_loop computer loc (Finite c) fuel (Finite a) = Some r ->
  exists hi, r = Finite hi /\ x0 <= hi
             /\ (loc <=? computer (Finite hi))%py = true.
Proof.
  unfold upper_loop. revert a r.
  induction fuel as [|fuel IH]; intros a r H; [discriminate|].
  cbn [while_break] in H.
  destruct (computer (Finite a) <? loc)%py eqn:Hc.
  - cbn [mul] in H. cbv zeta in H.
    destruct (Finite (a * c) >? Finite 1e10)%py eqn:E.
    + injection H as <-. apply FloatFacts.Rltb_true in E.
      exists (a * c). split; [reflexivity|]. split; [lra|].
      destruct (Req_dec_T (a * c) x0) as [-> | Hne].
      * exact (proj2 (FloatOrder.eqb_leb _ _ root)).
      * unfold leb. pose proof (above_right_of_root (a * c) ltac:(lra)) as G.
        unfold gtb in G. rewrite G. reflexivity.
    + exact (IH (a * c) r H).
  - injection H as <-. exists a. split; [reflexivity|].
    assert (Ha : x0 <= a).
    { destruct (Rle_dec x0 a) as [Hle | Hgt]; [exact Hle|].
      rewrite below_left_of_root in Hc by lra. discriminate. }
    split; [exact Ha|].
    destruct (Req_dec_T a x0) as [-> | Hne].
    + exact (proj2 (FloatOrder.eqb_leb _ _ root)).
    + unfold leb. pose proof (above_right_of_root a ltac:(lra)) as G.
      unfold gtb in G. rewrite G. reflexivity.
Qed.

(** X10. For a strictly increasing function that takes the value [loc]
    at some [x0] in [[1e-10, 1e10]], [find_root_limits] of
    [upper_limits.py] returns from every real [low_ini] and every
    positive real [hig_ini], and what it returns is a bracket of the
    root: [low <= x0 <= hig] with [computer(low) <= loc <= computer(hig)],
    the change of sign the root finder needs.  The same holds for
    [find_root_limits] of [utils_cls.py]. *)
Theorem increasing_computer_is_bracketed (low_ini hig_ini : R) :
  0 < hig_ini ->
  let brackets (bounds : pyfloat * pyfloat) :=
    exists low hig : R,
      bounds = (Finite low, Finite hig) /\ low <= x0 <= hig
      /\ (computer (Finite low) <=? loc)%py = true
      /\ (loc <=? computer (Finite hig))%py = true in
  (exists fuel bounds,
     (forall fuel', (fuel <= fuel')%nat ->
        UpperLimits.find_root_limits fuel' computer loc
          (Finite low_ini) (Finite hig_ini) = Some bounds)
     /\ brackets bounds)
  /\ (exists fuel bounds,
        (forall fuel', (fuel <= fuel')%nat ->
           UtilsCls.find_root_limits fuel' computer loc = Some bounds)
        /\ brackets bounds).
Proof.
  intros Hh brackets.
  assert (both : forall c1 c2 l h, 0 < c1 < 1 -> 1 < c2 -> 0 < h ->
            exists fuel bounds,
              (forall fuel', (fuel <= fuel')%nat ->
                 match lower_loop computer loc (Finite c1) fuel' (Finite l) with
                 | None => None
                 | Some low =>
                     match upper_loop computer loc (Finite c2) fuel' (Finite h)
                     with
                     | None => None
                     | Some hig => Some (low, hig)
                     end
                 end = Some bounds)
              /\ brackets bounds).
  { intros c1 c2 l h Hc1 Hc2 Hpos.
    destruct (BracketSpec.lower_loop_total computer loc c1 l Hc1)
      as (n1 & rl & Hl).
    destruct (upper_loop_total_positive c2 h Hc2 Hpos) as (n2 & rh & Hu).
    destruct (lower_loop_left_of_root _ _ _ _ Hl) as (lo & -> & Hlo & Hflo).
    destruct (upper_loop_right_of_root _ _ _ _ Hu) as (hi & -> & Hhi & Hfhi).
    exists (Nat.max n1 n2), (Finite lo, Finite hi). split.
    - intros fuel' Hfuel. unfold lower_loop, upper_loop in *.
      rewrite (while_break_more_fuel _ _ _ fuel' _ _ Hl ltac:(lia)).
      rewrite (while_break_more_fuel _ _ _ fuel' _ _ Hu ltac:(lia)).
      reflexivity.
    - exists lo, hi. repeat split; assumption. }
  split.
  - exact (both 0.5 2 low_ini hig_ini ltac:(lra) ltac:(lra) Hh).
  - exact (both 0.1 10 1 1 ltac:(lra) ltac:(lra) ltac:(lra)).
Qed.
End Increasing.

(** X11. The upper loop has no exit from the starting bound 0.0 when
    the function is below [loc] there: doubling leaves 0.0 where it is,
    the bail-out [hig > 1e10] is never met, and [find_root_limits] of
    [upper_limits.py] does not return, whatever the number of rounds
    allowed. *)
Theorem zero_upper_bound_never_returns (low_ini : pyfloat) :
  (computer (Finite 0) <? loc)%py = true ->
  forall fuel,
    UpperLimits.find_root_limits fuel computer loc low_ini (Finite 0) = None.
Proof.
  intros Hunder fuel.
  assert (U : upper_loop computer loc (Finite 2) fuel (Finite 0) = None).
  { unfold upper_loop. induction fuel as [|fuel IH]; [reflexivity|].
    cbn [while_break]. rewrite Hunder. cbn [mul]. cbv zeta.
    replace (Finite (0 * 2)) with (Finite 0) by (f_equal; lra).
    replace (Finite 0 >? Finite 1e10)%py with false
      by (symmetry; apply FloatFacts.Rltb_false; lra).
    exact IH. }
  unfold UpperLimits.find_root_limits. rewrite U.
  destruct (lower_loop _ _ _ _ _); reflexivity.
Qed.
End AnyComputer.

Lemma increasing_shift (c : R) : increasing (fun x => (x - Finite c)%py).
Proof.
  intros x y H. simpl. apply FloatFacts.Rltb_true. lra.
Qed.

(** X10, witness. *)
Lemma increasing_computer_is_bracketed_witness :
  increasing (fun x => (x - Finite 3)%py)
  /\ (Finite 3 - Finite 3 ==? Finite 0)%py = true
  /\ 1e-10 <= 3 <= 1e10
  /\ 0 < 1
  /\ exists fuel bounds,
       (forall fuel', (fuel <= fuel')%nat ->
          UpperLimits.find_root_limits fuel' (fun x => (x - Finite 3)%py)
            (Finite 0) (Finite 1) (Finite 1) = Some bounds)
       /\ exists low hig : R,
            bounds = (Finite low, Finite hig) /\ low <= 3 <= hig.
Proof.
  assert (Hroot : (Finite 3 - Finite 3 ==? Finite 0)%py = true)
    by (apply FloatFacts.Reqb_true; lra).
  split; [exact (increasing_shift 3)|].
  split; [exact Hroot|]. split; [lra|]. split; [lra|].
  destruct (increasing_computer_is_bracketed (fun x => (x - Finite 3)%py)
              (Finite 0) (increasing_shift 3) 3 Hroot ltac:(lra) 1 1
              ltac:(lra))
    as [(fuel & bounds & Hrun & low & hig & Hb & Hx & _) _].
  exists fuel, bounds. split; [exact Hrun|].
  exists low, hig. split; assumption.
Defined.

(** X11, witness. *)
Lemma zero_upper_bound_never_returns_witness :
  (Finite (-1) <? Finite 0)%py = true
  /\ forall fuel,
       UpperLimits.find_root_limits fuel (fun _ => Finite (-1)) (Finite 0)
         (Finite 1) (Finite 0) = None.
Proof.
  assert (H : (Finite (-1) <? Finite 0)%py = true)
    by (apply FloatFacts.Rltb_true; lra).
  split; [exact H|].
  exact (zero_upper_bound_never_returns (fun _ => Finite (-1))
           (Finite 0) (Finite 1) H).
Defined.

End BracketFacts.

(** ** The upper limit: keyword handling, shape of the result, warnings *)

Module UpperLimitFacts.
Import UpperLimits.

Section Solver.
Variable compute_teststatistics :
  pyfloat -> pyfloat * pyfloat -> (pyfloat -> pyfloat) ->
  pyfloat * pyfloat -> (pyfloat -> pyfloat) -> string ->
  pyfloat * pyfloat * pyfloat.
Variable compute_confidence_level :
  pyfloat -> pyfloat -> string -> list pyfloat * list pyfloat.
Variable maximum_likelihood : pyfloat * pyfloat.
Variable logpdf : pyfloat -> pyfloat.
Variable maximum_asimov_likelihood : pyfloat * pyfloat.
Variable asimov_logpdf : pyfloat -> pyfloat.
Variable confidence_level : pyfloat.

Section RootFinder.
Variable toms748 :
  (pyfloat -> pyfloat) -> pyfloat -> pyfloat -> Z ->
  outcome (pyfloat * RootResults).
Variable expected : ExpectationType.

Let solve := solve_each compute_teststatistics compute_confidence_level
               toms748 maximum_likelihood logpdf maximum_asimov_likelihood
               asimov_logpdf expected confidence_level.
Let search := find_poi_upper_limit compute_teststatistics
             compute_confidence_level toms748 maximum_likelihood logpdf
             maximum_asimov_likelihood asimov_logpdf expected
             confidence_level.

Lemma solve_each_length (fuel : nat) (test_stat : string)
    (low_init hig_init : pyfloat) (maxiter : Z) (indices : list nat)
    (result : list pyfloat) (warnings : list warning) :
  solve fuel test_stat low_init hig_init maxiter indices
  = Some (Returns (result, warnings)) ->
  length result = length indices
  /\ (length warnings <= length indices)%nat.
Proof.
  unfold solve. revert result warnings.
  induction indices as [|i rest IH]; intros result warnings H.
  - injection H as <- <-. split; [reflexivity | simpl; lia].
  - cbn [solve_each] in H.
    destruct (find_root_limits _ _ _ _ _) as [[low hig]|]; [|discriminate].
    destruct (toms748 _ _ _ _) as [[x0 r]|e]; [|discriminate].
    destruct (solve_each _ _ _ _ _ _ _ _ _ _ _ _ _ _ rest)
      as [[[res ws]|e]|] eqn:E; try discriminate.
    injection H as <- <-.
    destruct (IH res ws eq_refl) as [Hl Hw].
    split; [simpl; lia|].
    rewrite length_app. destruct (converged r); simpl; lia.
Qed.

(** X12. How [find_poi_upper_limit] treats the band keyword.  A keyword
    other than "nominal", "1sigma" and "2sigma" raises the AssertionError
    before anything is computed.  For the observed expectation every
    accepted keyword gives the result of "nominal".  A call that returns
    gives one number for "nominal" or the observed expectation, and
    otherwise a list of three numbers for "1sigma" and of five for
    "2sigma"; there is never more than one warning per root. *)
Theorem upper_limit_shape (fuel : nat) (allow_negative_signal : bool)
    (low_init hig_init : option pyfloat) (expected_pvalue : string)
    (maxiter : Z) :
  let call := search fuel allow_negative_signal low_init hig_init in
  (str_in expected_pvalue ["nominal"; "1sigma"; "2sigma"] = false ->
   call expected_pvalue maxiter
   = Some (Raises (AssertionError
                     ("Unknown pvalue range " +:+ expected_pvalue))))
  /\ (str_in expected_pvalue ["nominal"; "1sigma"; "2sigma"] = true ->
      expected = observed ->
      call expected_pvalue maxiter = call "nominal" maxiter)
  /\ match call expected_pvalue maxiter with
     | Some (Returns (VFloat _, warnings)) =>
         (expected = observed \/ expected_pvalue = "nominal")
         /\ (length warnings <= 1)%nat
     | Some (Returns (VList xs, warnings)) =>
         expected <> observed
         /\ (exists roots, xs = map VFloat roots)
         /\ ((expected_pvalue = "1sigma" /\ length xs = 3%nat)
             \/ (expected_pvalue = "2sigma" /\ length xs = 5%nat))
         /\ (length warnings <= length xs)%nat
     | _ => True
     end.
Proof.
  cbv zeta. unfold search, find_poi_upper_limit. fold solve.
  split; [intros ->; reflexivity|].
  split.
  { intros -> ->. reflexivity. }
  destruct (str_in expected_pvalue ["nominal"; "1sigma"; "2sigma"]) eqn:Hin;
    [|exact I].
  cbn [negb].
  assert (Hkey : expected_pvalue = "nominal" \/ expected_pvalue = "1sigma"
                 \/ expected_pvalue = "2sigma").
  { unfold str_in in Hin. simpl in Hin.
    repeat (apply orb_true_iff in Hin; destruct Hin as [Hin | Hin]);
      try discriminate; apply String.eqb_eq in Hin; auto. }
  set (keyword := if bool_decide (expected = observed) then "nominal"
                  else expected_pvalue).
  destruct (solve fuel _ _ _ maxiter (index_range expected keyword))
    as [[[result warnings]|e]|] eqn:E; try exact I.
  apply solve_each_length in E. destruct E as [Hlen Hw].
  assert (Hshape :
    (expected = observed \/ expected_pvalue = "nominal") /\ length result = 1%nat
    \/ expected <> observed
       /\ ((expected_pvalue = "1sigma" /\ length result = 3%nat)
           \/ (expected_pvalue = "2sigma" /\ length result = 5%nat))).
  { rewrite Hlen. unfold keyword, index_range.
    destruct (bool_decide (expected = observed)) eqn:Hobs.
    - apply bool_decide_eq_true in Hobs. left. split; [left; exact Hobs|].
      reflexivity.
    - apply bool_decide_eq_false in Hobs.
      destruct Hkey as [-> | [-> | ->]]; simpl.
      + left. split; [right; reflexivity | reflexivity].
      + right. split; [exact Hobs|]. left. split; reflexivity.
      + right. split; [exact Hobs|]. right. split; reflexivity. }
  destruct result as [|x0 [|x1 rest]].
  - exact I.
  - destruct Hshape as [[H _] | [_ [[_ H] | [_ H]]]]; try discriminate.
    split; [exact H|]. rewrite <- Hlen in Hw. exact Hw.
  - destruct Hshape as [[_ H] | [Hne H]]; [discriminate|].
    split; [exact Hne|]. split; [eexists; reflexivity|].
    rewrite length_map. split; [exact H|]. rewrite Hlen. exact Hw.
Qed.
Lemma solve_each_returns (fuel : nat) (test_stat : string) (maxiter : Z)
    (indices : list nat) :
  (35 <= fuel)%nat ->
  exists r, solve fuel test_stat (Finite 1) (Finite 1) maxiter indices
            = Some r.
Proof.
  intros Hfuel. unfold solve.
  induction indices as [|i rest IH]; [eexists; reflexivity|].
  cbn [solve_each].
  destruct (BracketFacts.default_bounds_return
              (fun poi_test =>
                 computer compute_teststatistics compute_confidence_level
                   maximum_likelihood logpdf maximum_asimov_likelihood
                   asimov_logpdf expected confidence_level test_stat
                   poi_test i) (Finite 0))
    as (low & hig & Hrun & _).
  rewrite (Hrun fuel Hfuel).
  destruct (toms748 _ _ _ _) as [[x0 r]|e]; [|eexists; reflexivity].
  destruct IH as [[[res ws]|e] ->]; eexists; reflexivity.
Qed.

(** X13. The search for the upper limit does not hang in the
    bracketing: for starting bounds that are omitted or given as numbers,
    and 35 rounds of each loop allowed, [find_poi_upper_limit] comes to
    an end, with limits or with an exception, whatever the statistical
    model, the confidence level, the kind of expectation and the root
    finder are. *)
Theorem upper_limit_search_returns (fuel : nat)
    (allow_negative_signal : bool) (low_init hig_init : option pyfloat)
    (expected_pvalue : string) (maxiter : Z) :
  low_init <> Some NaN -> hig_init <> Some NaN -> (35 <= fuel)%nat ->
  exists r, search fuel allow_negative_signal low_init hig_init
              expected_pvalue maxiter = Some r.
Proof.
  intros Hlow Hhig Hfuel. unfold search, find_poi_upper_limit. fold solve.
  destruct (negb (str_in expected_pvalue _)); [eexists; reflexivity|].
  assert (Hinit : forall init, init <> Some NaN -> checked_init init = Finite 1).
  { intros [v|] H; [|reflexivity].
    apply UpperLimitSpec.checked_init_not_nan.
    destruct v; try reflexivity. congruence. }
  rewrite (Hinit low_init Hlow), (Hinit hig_init Hhig).
  match goal with
  | |- context [solve fuel ?t _ _ maxiter ?i] =>
      destruct (solve_each_returns fuel t maxiter i Hfuel)
        as [[[res ws]|e] ->]
  end; [|eexists; reflexivity].
  destruct res as [|x0 [|x1 rest]]; eexists; reflexivity.
Qed.
End RootFinder.

Section Convergence.
Variable toms748 :
  (pyfloat -> pyfloat) -> pyfloat -> pyfloat -> Z ->
  outcome (pyfloat * RootResults).
Variable expected : ExpectationType.

Lemma solve_each_convergence (fuel : nat) (test_stat : string)
    (low_init hig_init : pyfloat) (maxiter : Z) (indices : list nat) :
  let reported :=
    solve_each compute_teststatistics compute_confidence_level toms748
      maximum_likelihood logpdf maximum_asimov_likelihood asimov_logpdf
      expected confidence_level fuel test_stat low_init hig_init maxiter
      indices in
  let silent :=
    solve_each compute_teststatistics compute_confidence_level
      (always_converged toms748) maximum_likelihood logpdf
      maximum_asimov_likelihood asimov_logpdf expected confidence_level
      fuel test_stat low_init hig_init maxiter indices in
  value_of reported = value_of silent /\ warnings_of silent = [].
Proof.
  cbv zeta. induction indices as [|i rest IH]; [split; reflexivity|].
  cbn [solve_each]. unfold always_converged at 1 3.
  destruct (find_root_limits _ _ _ _ _) as [[low hig]|];
    [|split; reflexivity].
  destruct (toms748 _ low hig maxiter) as [[x0 r]|e]; [|split; reflexivity].
  cbn [converged].
  destruct IH as [IHv IHw].
  destruct (solve_each _ _ toms748 _ _ _ _ _ _ _ _ _ _ _ rest)
    as [[[res ws]|e]|];
    destruct (solve_each _ _ (always_converged toms748) _ _ _ _ _ _ _ _ _ _ _
                rest) as [[[res' ws']|e']|];
    simpl in IHv, IHw |- *; try discriminate; try (split; congruence).
Qed.

(** X14. A root on which the root finder reports no convergence is
    returned all the same: the limits, the exceptions and the cases of
    no return of [find_poi_upper_limit] are those of the call in which
    every report says "converged"; that call gives no warning, so the
    reports only add warnings. *)
Theorem convergence_only_adds_warnings (fuel : nat)
    (allow_negative_signal : bool) (low_init hig_init : option pyfloat)
    (expected_pvalue : string) (maxiter : Z) :
  let reported :=
    find_poi_upper_limit compute_teststatistics compute_confidence_level
      toms748 maximum_likelihood logpdf maximum_asimov_likelihood
      asimov_logpdf expected confidence_level fuel allow_negative_signal
      low_init hig_init expected_pvalue maxiter in
  let silent :=
    find_poi_upper_limit compute_teststatistics compute_confidence_level
      (always_converged toms748) maximum_likelihood logpdf
      maximum_asimov_likelihood asimov_logpdf expected confidence_level
      fuel allow_negative_signal low_init hig_init expected_pvalue maxiter in
  value_of reported = value_of silent /\ warnings_of silent = [].
Proof.
  cbv zeta. unfold find_poi_upper_limit.
  destruct (negb (str_in expected_pvalue _)); [split; reflexivity|].
  match goal with
  | |- context [solve_each _ _ toms748 _ _ _ _ _ _ ?f ?t ?l ?h ?m ?i] =>
      destruct (solve_each_convergence f t l h m i) as [Hv Hw];
      destruct (solve_each _ _ toms748 _ _ _ _ _ _ f t l h m i)
        as [[[res ws]|e]|];
      destruct (solve_each _ _ (always_converged toms748) _ _ _ _ _ _
                  f t l h m i) as [[[res' ws']|e']|]
  end;
    simpl in Hv, Hw |- *; try discriminate; try (split; congruence).
  injection Hv as <-. subst ws'.
  destruct res as [|x0 [|x1 rest]]; split; reflexivity.
Qed.
End Convergence.
End Solver.

(** X13, witness. *)
Lemma upper_limit_search_returns_witness :
  let stats := fun (_ : pyfloat) (_ : pyfloat * pyfloat)
                   (_ : pyfloat -> pyfloat) (_ : pyfloat * pyfloat)
                   (_ : pyfloat -> pyfloat) (_ : string) =>
                 (Finite 0, Finite 0, Finite 0) in
  let toms748 := fun (_ : pyfloat -> pyfloat) (low _ : pyfloat) (_ : Z) =>
                   Returns (low, {| converged := true;
                                    repr := "converged" |}) in
  (None : option pyfloat) <> Some NaN
  /\ Some (Finite 5) <> Some NaN
  /\ (35 <= 35)%nat
  /\ exists r,
       find_poi_upper_limit stats
         (Utils.compute_confidence_level uniform_cdf) toms748
         (Finite 0, Finite 0) (fun x => x) (Finite 0, Finite 0) (fun x => x)
         observed (Finite 0.95) 35 false None (Some (Finite 5)) "nominal" 200
       = Some r.
Proof.
  intros stats toms748.
  split; [discriminate|]. split; [discriminate|]. split; [lia|].
  exact (upper_limit_search_returns stats
           (Utils.compute_confidence_level uniform_cdf)
           (Finite 0, Finite 0) (fun x => x) (Finite 0, Finite 0) (fun x => x)
           (Finite 0.95) toms748 observed 35 false None (Some (Finite 5))
           "nominal" 200 ltac:(discriminate) ltac:(discriminate) ltac:(lia)).
Defined.

End UpperLimitFacts.


(** ** The recorder: round trips, frame, and the best-fit slot *)

Module RecorderFacts.
Import Recorder.

Lemma dict_update_length_present (k v v' : pyfloat)
    (d : list (pyfloat * pyfloat)) :
  Float.isnan k = false ->
  length (dict_update k v (dict_update k v' d))
  = length (dict_update k v' d).
Proof.
  intros Hk. induction d as [|[k0 v0] d IH]; simpl.
  - rewrite (RecorderSpec.eqb_refl k Hk). reflexivity.
  - destruct (k0 ==? k)%py eqn:E; simpl; rewrite E; simpl; [reflexivity|].
    f_equal. exact IH.
Qed.

Lemma dict_update_twice (k v v' : pyfloat) (d : list (pyfloat * pyfloat)) :
  Float.isnan k = false ->
  dict_update k v (dict_update k v' d) = dict_update k v d.
Proof.
  intros Hk. induction d as [|[k0 v0] d IH]; simpl.
  - rewrite (RecorderSpec.eqb_refl k Hk). reflexivity.
  - destruct (k0 ==? k)%py eqn:E; simpl; rewrite E; [reflexivity|].
    f_equal. exact IH.
Qed.

Lemma eqb_nan_r (a : pyfloat) : (a ==? NaN)%py = false.
Proof. destruct a; reflexivity. Qed.

Lemma dict_get_nan (d : list (pyfloat * pyfloat)) : dict_get NaN d = None.
Proof.
  induction d as [|[k0 v0] d IH]; simpl; [reflexivity|].
  rewrite eqb_nan_r. exact IH.
Qed.

Lemma dict_update_nan (v : pyfloat) (d : list (pyfloat * pyfloat)) :
  dict_update NaN v d = d ++ [(NaN, v)].
Proof.
  induction d as [|[k0 v0] d IH]; simpl; [reflexivity|].
  rewrite eqb_nan_r. f_equal. exact IH.
Qed.

Section Methods.
Variable float32 : pyfloat -> pyfloat.

(** X15. The POI cache reads back what was written: after
    [record_poi_test] a [get_poi_test] with the recorder switched on
    returns the recorded value (in single precision), for the same POI
    and for every POI with the same single-precision value.  Recording
    the same POI again replaces the value and leaves the dictionary as
    it is after the second call alone, so the cache does not grow. *)
Theorem poi_cache_round_trip (self : Recorder) (expected : ExpectationType)
    (poi_test poi_test' nll nll' : pyfloat) :
  Float.isnan (float32 poi_test) = false ->
  let once := record_poi_test float32 self expected poi_test nll in
  let twice := record_poi_test float32 once expected poi_test nll' in
  get_poi_test float32 true once expected poi_test = Some (float32 nll)
  /\ (float32 poi_test' = float32 poi_test ->
      get_poi_test float32 true once expected poi_test'
      = Some (float32 nll))
  /\ get_poi_test float32 true twice expected poi_test = Some (float32 nll')
  /\ twice = record_poi_test float32 self expected poi_test nll'.
Proof.
  intros Hk once twice. subst once twice.
  unfold get_poi_test, record_poi_test, is_on. cbn [_poi_test_record].
  rewrite !RecorderSpec.getitem_setitem_eq.
  repeat split.
  - apply RecorderSpec.dict_get_update_eq. exact Hk.
  - intros ->. apply RecorderSpec.dict_get_update_eq. exact Hk.
  - apply RecorderSpec.dict_get_update_eq. exact Hk.
  - cbn [_maximum_likelihood_record]. f_equal.
    rewrite dict_update_twice by exact Hk.
    destruct expected; reflexivity.
Qed.

(** X16. [record_poi_test] changes one entry only: the cached values of
    the other expectation types, those of every POI whose
    single-precision value differs from the recorded one, and the three
    best-fit slots are what they were.  A POI whose single-precision
    value is NaN is recorded but never found: the call appends one more
    entry to the dictionary and no lookup changes, that of the NaN POI
    included. *)
Theorem poi_cache_frame (self : Recorder) (expected : ExpectationType)
    (poi_test nll : pyfloat) :
  let after := record_poi_test float32 self expected poi_test nll in
  (forall other poi_test',
     other <> expected ->
     get_poi_test float32 true after other poi_test'
     = get_poi_test float32 true self other poi_test')
  /\ (forall poi_test',
        (float32 poi_test ==? float32 poi_test')%py = false ->
        get_poi_test float32 true after expected poi_test'
        = get_poi_test float32 true self expected poi_test')
  /\ (forall RECORD other,
        get_maximum_likelihood RECORD after other
        = get_maximum_likelihood RECORD self other)
  /\ (Float.isnan (float32 poi_test) = true ->
      getitem (_poi_test_record after) expected
      = getitem (_poi_test_record self) expected ++ [(NaN, float32 nll)]
      /\ get_poi_test float32 true after expected poi_test = None
      /\ forall poi_test',
           get_poi_test float32 true after expected poi_test'
           = get_poi_test float32 true self expected poi_test').
Proof.
  intros after. subst after.
  unfold get_poi_test, get_maximum_likelihood, record_poi_test, is_on.
  cbn [_poi_test_record _maximum_likelihood_record].
  split; [|split; [|split]].
  - intros other p Hne. rewrite RecorderSpec.getitem_setitem_ne by exact Hne.
    reflexivity.
  - intros p Hne. rewrite RecorderSpec.getitem_setitem_eq.
    apply RecorderSpec.dict_get_update_ne. exact Hne.
  - reflexivity.
  - intros Hk. apply FloatFacts.isnan_true in Hk.
    rewrite !RecorderSpec.getitem_setitem_eq. rewrite Hk.
    rewrite dict_update_nan. repeat split.
    + apply dict_get_nan.
    + intros p. induction (getitem (_poi_test_record self) expected)
        as [|[k0 v0] d IH]; simpl.
      * destruct (float32 p); reflexivity.
      * destruct (k0 ==? float32 p)%py; [reflexivity | exact IH].
Qed.

Lemma record_maximum_likelihoods_cons (RECORD : bool) (self : Recorder)
    (expected : ExpectationType) (call : pyfloat * pyfloat)
    (calls : list (pyfloat * pyfloat)) :
  record_maximum_likelihoods float32 RECORD self expected (call :: calls)
  = record_maximum_likelihoods float32 RECORD
      (record_maximum_likelihood float32 RECORD self expected
         (fst call) (snd call)) expected calls.
Proof. reflexivity. Qed.

Lemma best_fit_from_stored (self : Recorder) (expected : ExpectationType)
    (calls : list (pyfloat * pyfloat)) (p0 s0 : pyfloat) :
  getitem (_maximum_likelihood_record self) expected = Some (p0, s0) ->
  Float.isnan s0 = false ->
  Forall (fun call => Float.isnan (float32 (snd call)) = false) calls ->
  exists p s,
    getitem (_maximum_likelihood_record
               (record_maximum_likelihoods float32 true self expected calls))
      expected = Some (p, s)
    /\ (s <=? s0)%py = true
    /\ Forall (fun call => (s <=? float32 (snd call))%py = true) calls
    /\ ((p, s) = (p0, s0)
        \/ Exists (fun call => (p, s) = (float32 (fst call),
                                         float32 (snd call))) calls).
Proof.
  revert self p0 s0. induction calls as [|[poi nll] calls IH];
    intros self p0 s0 Hslot Hs0 Hcalls.
  - exists p0, s0. repeat split; try assumption.
    + apply FloatOrder.leb_refl. exact Hs0.
    + constructor.
    + left. reflexivity.
  - rewrite record_maximum_likelihoods_cons. cbn [fst snd].
    inversion Hcalls as [|? ? Hnll Hrest]; subst. cbn [snd] in Hnll.
    pose proof (RecorderSpec.record_maximum_likelihood_on float32 self
                  expected poi nll) as Hstep.
    rewrite Hslot in Hstep.
    destruct (s0 <? float32 nll)%py eqn:Hlt.
    + destruct (IH _ p0 s0 Hstep Hs0 Hrest) as (p & s & E & Hle & Hall & Hor).
      exists p, s. split; [exact E|]. split; [exact Hle|]. split.
      * constructor; [|exact Hall]. cbn [snd].
        eapply FloatOrder.leb_trans; [exact Hle|].
        unfold Float.leb. rewrite Hlt. reflexivity.
      * destruct Hor as [Hor | Hor]; [left; exact Hor|].
        right. apply Exists_cons_tl. exact Hor.
    + destruct (IH _ (float32 poi) (float32 nll) Hstep Hnll Hrest)
        as (p & s & E & Hle & Hall & Hor).
      assert (Hns : (float32 nll <=? s0)%py = true)
        by (apply FloatOrder.not_ltb_leb; assumption).
      exists p, s. split; [exact E|]. split.
      * eapply FloatOrder.leb_trans; eassumption.
      * split.
        -- constructor; [exact Hle | exact Hall].
        -- right. destruct Hor as [Hor | Hor].
           ++ apply Exists_cons_hd. exact Hor.
           ++ apply Exists_cons_tl. exact Hor.
Qed.

(** X17. With the recorder switched on, an empty best-fit slot and
    recorded likelihood values that are numbers, the slot holds after any
    non-empty series of [record_maximum_likelihood] calls the pair of one
    of the calls, and its likelihood value is the least of the series. *)
Theorem best_fit_is_the_minimum (self : Recorder)
    (expected : ExpectationType) (calls : list (pyfloat * pyfloat)) :
  getitem (_maximum_likelihood_record self) expected = None ->
  calls <> [] ->
  Forall (fun call => Float.isnan (float32 (snd call)) = false) calls ->
  exists p s,
    get_maximum_likelihood true
      (record_maximum_likelihoods float32 true self expected calls) expected
    = Some (p, s)
    /\ Forall (fun call => (s <=? float32 (snd call))%py = true) calls
    /\ Exists (fun call => (p, s) = (float32 (fst call),
                                     float32 (snd call))) calls.
Proof.
  intros Hslot Hne Hcalls. destruct calls as [|[poi nll] calls];
    [contradiction|].
  rewrite record_maximum_likelihoods_cons. cbn [fst snd].
  inversion Hcalls as [|? ? Hnll Hrest]; subst. cbn [snd] in Hnll.
  pose proof (RecorderSpec.record_maximum_likelihood_on float32 self
                expected poi nll) as Hstep.
  rewrite Hslot in Hstep.
  destruct (best_fit_from_stored _ expected calls _ _ Hstep Hnll Hrest)
    as (p & s & E & Hle & Hall & Hor).
  exists p, s. unfold get_maximum_likelihood, is_on.
  split; [exact E|]. split.
  - constructor; [exact Hle | exact Hall].
  - destruct Hor as [Hor | Hor].
    + apply Exists_cons_hd. exact Hor.
    + apply Exists_cons_tl. exact Hor.
Qed.

(** X18. With the recorder switched off nothing is compared: after a
    series of [record_maximum_likelihood] calls the slot holds the pair of
    the last call, whatever was stored and whatever the earlier calls
    recorded, so a stored best fit can be replaced by a worse one. *)
Theorem switched_off_last_call_wins (self : Recorder)
    (expected : ExpectationType) (calls : list (pyfloat * pyfloat))
    (poi_test nll : pyfloat) :
  getitem (_maximum_likelihood_record
             (record_maximum_likelihoods float32 false self expected
                (calls ++ [(poi_test, nll)]))) expected
  = Some (float32 poi_test, float32 nll).
Proof.
  unfold record_maximum_likelihoods. rewrite fold_left_app. cbn [fold_left fst snd].
  apply RecorderSpec.record_maximum_likelihood_off.
Qed.
End Methods.

(** X15, witness. *)
Lemma poi_cache_round_trip_witness :
  Float.isnan (float32_exact (Finite 1)) = false
  /\ get_poi_test float32_exact true
       (record_poi_test float32_exact
          (record_poi_test float32_exact __init__ observed (Finite 1)
             (Finite 2))
          observed (Finite 1) (Finite 3))
       observed (Finite 1)
     = Some (Finite 3).
Proof.
  split; [reflexivity|].
  exact (proj1 (proj2 (proj2
           (poi_cache_round_trip float32_exact __init__ observed
              (Finite 1) (Finite 1) (Finite 2) (Finite 3) eq_refl)))).
Defined.

(** X17, witness. *)
Lemma best_fit_is_the_minimum_witness :
  getitem (_maximum_likelihood_record __init__) observed = None
  /\ [(Finite 1, Finite 5); (Finite 2, Finite 3)] <> []
  /\ Forall (fun call => Float.isnan (float32_exact (snd call)) = false)
       [(Finite 1, Finite 5); (Finite 2, Finite 3)]
  /\ exists p s,
       get_maximum_likelihood true
         (record_maximum_likelihoods float32_exact true __init__ observed
            [(Finite 1, Finite 5); (Finite 2, Finite 3)]) observed
       = Some (p, s)
       /\ Forall (fun call => (s <=? float32_exact (snd call))%py = true)
            [(Finite 1, Finite 5); (Finite 2, Finite 3)].
Proof.
  assert (Hnan : Forall
                   (fun call => Float.isnan (float32_exact (snd call)) = false)
                   [(Finite 1, Finite 5); (Finite 2, Finite 3)])
    by (repeat constructor).
  split; [reflexivity|]. split; [discriminate|]. split; [exact Hnan|].
  destruct (best_fit_is_the_minimum float32_exact __init__ observed
              [(Finite 1, Finite 5); (Finite 2, Finite 3)]
              eq_refl ltac:(discriminate) Hnan)
    as (p & s & H1 & H2 & _).
  exists p, s. split; assumption.
Defined.

End RecorderFacts.

(** ** The combiner as a container: names, lookup, removal *)

Module ContainerFacts.
Import StatisticalModel StatisticsCombiner Combiner.

Lemma str_in_In (x : string) (xs : list string) :
  str_in x xs = true <-> In x xs.
Proof.
  unfold str_in. rewrite existsb_exists. split.
  - intros (y & Hy & E). apply String.eqb_eq in E. subst y. exact Hy.
  - intros H. exists x. split; [exact H | apply String.eqb_refl].
Qed.

Lemma str_in_not_In (x : string) (xs : list string) :
  str_in x xs = false <-> ~ In x xs.
Proof.
  rewrite <- str_in_In. destruct (str_in x xs); split; intros H;
    try discriminate; try congruence; try reflexivity.
Qed.

Lemma first_named_Some (name : string) (models : list StatisticalModel)
    (m : StatisticalModel) :
  first_named name models = Some m -> In m models /\ analysis m = name.
Proof.
  induction models as [|m0 rest IH]; simpl; [discriminate|].
  destruct (String.eqb (analysis m0) name) eqn:E.
  - intros H. injection H as <-. apply String.eqb_eq in E. auto.
  - intros H. destruct (IH H). auto.
Qed.

Lemma first_named_None (name : string) (models : list StatisticalModel) :
  first_named name models = None <-> ~ In name (map analysis models).
Proof.
  induction models as [|m0 rest IH]; simpl; [tauto|].
  destruct (String.eqb (analysis m0) name) eqn:E.
  - apply String.eqb_eq in E. split; [discriminate|]. intros H. tauto.
  - apply String.eqb_neq in E. rewrite IH. tauto.
Qed.

Lemma first_named_app_other (name : string) (models : list StatisticalModel)
    (m : StatisticalModel) :
  analysis m <> name ->
  first_named name (models ++ [m]) = first_named name models.
Proof.
  intros Hne. induction models as [|m0 rest IH]; simpl.
  - apply String.eqb_neq in Hne. rewrite Hne. reflexivity.
  - destruct (String.eqb (analysis m0) name); [reflexivity | exact IH].
Qed.

Lemma first_named_app_new (models : list StatisticalModel)
    (m : StatisticalModel) :
  ~ In (analysis m) (map analysis models) ->
  first_named (analysis m) (models ++ [m]) = Some m.
Proof.
  induction models as [|m0 rest IH]; simpl.
  - rewrite String.eqb_refl. reflexivity.
  - intros H. destruct (String.eqb (analysis m0) (analysis m)) eqn:E.
    + apply String.eqb_eq in E. tauto.
    + apply IH. tauto.
Qed.

Lemma append_Ok (self self' : StatisticsCombiner) (obj : pyobject) :
  append self obj = Ok self' ->
  exists m, obj = Model m
            /\ ~ In (analysis m) (analyses self)
            /\ _statistical_models self' = _statistical_models self ++ [m].
Proof.
  unfold append. destruct obj as [m | t]; [|discriminate].
  destruct (str_in (analysis m) (analyses self)) eqn:E; [discriminate|].
  intros H. injection H as <-. exists m. split; [reflexivity|].
  split; [apply str_in_not_In; exact E | reflexivity].
Qed.

Lemma append_all_spec (args : list pyobject) (self self' : StatisticsCombiner) :
  append_all self args = Ok self' ->
  NoDup (analyses self) ->
  NoDup (analyses self')
  /\ map Model (_statistical_models self')
     = map Model (_statistical_models self) ++ args.
Proof.
  revert self. induction args as [|arg rest IH]; intros self H Hnd.
  - injection H as <-. rewrite app_nil_r. auto.
  - cbn [append_all] in H.
    destruct (append self arg) as [self1 | e] eqn:E; [|discriminate].
    destruct (append_Ok _ _ _ E) as (m & -> & Hnew & Hmodels).
    assert (Hnd1 : NoDup (analyses self1)).
    { unfold analyses in *. rewrite Hmodels, map_app. simpl.
      apply NoDup_app. split; [exact Hnd|]. split.
      - intros x Hx Hm. apply list_elem_of_singleton in Hm. subst x.
        apply Hnew. apply list_elem_of_In. exact Hx.
      - apply NoDup_singleton. }
    destruct (IH self1 H Hnd1) as [Hnd' Hmap].
    split; [exact Hnd'|].
    rewrite Hmap, Hmodels, map_app. simpl. rewrite <- app_assoc. reflexivity.
Qed.

(** X19. The names in a combiner are distinct.  A combiner that
    [__init__] builds holds exactly the given objects, all of them
    statistical models, in the given order and under distinct names; and
    [append] keeps the names distinct, because it raises
    AnalysisQueryError for a model whose name is taken and TypeError for
    an object that is not a statistical model, and otherwise adds the
    model at the end. *)
Theorem names_stay_distinct (self : StatisticsCombiner) (obj : pyobject)
    (args : list pyobject) :
  match __init__ args with
  | Ok built =>
      NoDup (analyses built)
      /\ map Model (_statistical_models built) = args
  | Raise _ => True
  end
  /\ match append self obj with
     | Ok self' =>
         exists m, obj = Model m
                   /\ ~ In (analysis m) (analyses self)
                   /\ _statistical_models self' = _statistical_models self ++ [m]
                   /\ (NoDup (analyses self) -> NoDup (analyses self'))
     | Raise (AnalysisQueryError msg) =>
         exists m, obj = Model m
                   /\ In (analysis m) (analyses self)
                   /\ msg = analysis m +:+ " already exists."
     | Raise (TypeError msg) =>
         exists type_repr, obj = Other type_repr
                           /\ msg = "Can not append type " +:+ type_repr +:+ "."
     | Raise _ => False
     end.
Proof.
  split.
  - unfold __init__.
    destruct (append_all _ args) as [built | e] eqn:E; [|exact I].
    apply append_all_spec in E; [|apply NoDup_nil_2]. exact E.
  - destruct (append self obj) as [self' | e] eqn:E.
    + destruct (append_Ok _ _ _ E) as (m & -> & Hnew & Hmodels).
      exists m. repeat split; try assumption.
      intros Hnd. unfold analyses in *. rewrite Hmodels, map_app. simpl.
      apply NoDup_app. split; [exact Hnd|]. split.
      * intros x Hx Hm. apply list_elem_of_singleton in Hm. subst x.
        apply Hnew. apply list_elem_of_In. exact Hx.
      * apply NoDup_singleton.
    + unfold append in E. destruct obj as [m | t].
      * destruct (str_in (analysis m) (analyses self)) eqn:Hin;
          [|discriminate].
        injection E as <-. exists m. split; [reflexivity|].
        split; [apply str_in_In; exact Hin | reflexivity].
      * injection E as <-. exists t. split; reflexivity.
Qed.

(** X20. Lookup by name.  [self[name]] returns a member of that name, the
    first in the list, when the name is among the analyses, and raises
    AnalysisQueryError when it is not.  After [append] has added a model,
    its name finds it, every other name finds what it found before, and
    the model is also the last by position, [self[len - 1]] and
    [self[-1]]. *)
Theorem lookup_by_name (self : StatisticsCombiner) (name : string) :
  match __getitem__ self (ItemStr name) with
  | Ok model =>
      In model (_statistical_models self) /\ analysis model = name
  | Raise e =>
      ~ In name (analyses self)
      /\ e = AnalysisQueryError ("'" +:+ name +:+ "' is not among the analyses.")
  end
  /\ (forall m self',
        append self (Model m) = Ok self' ->
        __getitem__ self' (ItemStr (analysis m)) = Ok m
        /\ (name <> analysis m ->
            __getitem__ self' (ItemStr name) = __getitem__ self (ItemStr name))
        /\ len self' = S (len self)
        /\ __getitem__ self' (ItemInt (Z.of_nat (len self))) = Ok m
        /\ __getitem__ self' (ItemInt (-1)) = Ok m).
Proof.
  split.
  - unfold __getitem__.
    destruct (first_named name (_statistical_models self)) as [model|] eqn:E.
    + exact (first_named_Some _ _ _ E).
    + split; [apply first_named_None; exact E | reflexivity].
  - intros m self' H.
    destruct (append_Ok _ _ _ H) as (m' & Hm & Hnew & Hmodels).
    injection Hm as <-.
    unfold __getitem__, len. rewrite Hmodels. repeat split.
    + rewrite first_named_app_new by exact Hnew. reflexivity.
    + intros Hne. rewrite first_named_app_other by congruence. reflexivity.
    + rewrite length_app. simpl. lia.
    + rewrite length_app. simpl.
      replace (Z.of_nat (length (_statistical_models self))
               <? Z.of_nat (length (_statistical_models self) + 1))%Z
        with true by (symmetry; apply Z.ltb_lt; lia).
      unfold list_getitem. rewrite length_app. simpl.
      replace (Z.of_nat (length (_statistical_models self)) <? 0)%Z
        with false by (symmetry; apply Z.ltb_ge; lia).
      replace ((0 <=? Z.of_nat (length (_statistical_models self)))%Z
               && (Z.of_nat (length (_statistical_models self))
                   <? Z.of_nat (length (_statistical_models self) + 1))%Z)%bool
        with true
        by (symmetry; apply andb_true_iff; split;
            [apply Z.leb_le | apply Z.ltb_lt]; lia).
      rewrite Nat2Z.id.
      rewrite lookup_app_r by lia. rewrite Nat.sub_diag. reflexivity.
    + rewrite length_app. simpl.
      replace (-1 <? Z.of_nat (length (_statistical_models self) + 1))%Z
        with true by (symmetry; apply Z.ltb_lt; lia).
      unfold list_getitem. rewrite length_app. simpl.
      replace ((0 <=? -1 + Z.of_nat (length (_statistical_models self) + 1))%Z
               && (-1 + Z.of_nat (length (_statistical_models self) + 1)
                   <? Z.of_nat (length (_statistical_models self) + 1))%Z)%bool
        with true
        by (symmetry; apply andb_true_iff; split;
            [apply Z.leb_le | apply Z.ltb_lt]; lia).
      replace (Z.to_nat (-1 + Z.of_nat (length (_statistical_models self) + 1)))
        with (length (_statistical_models self)) by lia.
      rewrite lookup_app_r by lia. rewrite Nat.sub_diag. reflexivity.
Qed.

(** X21. Lookup by position.  [self[i]] is the model at position [i]
    for [0 <= i < len], and the AnalysisQueryError for [i >= len].  A
    negative [i] passes the test [i < len]: it counts from the end when
    [-len <= i], and below that the list raises its own IndexError, not
    the AnalysisQueryError. *)
Theorem lookup_by_position (self : StatisticsCombiner) (i : Z) :
  let models := _statistical_models self in
  let n := Z.of_nat (len self) in
  ((0 <= i < n)%Z ->
   exists model, models !! Z.to_nat i = Some model
                 /\ __getitem__ self (ItemInt i) = Ok model)
  /\ ((n <= i)%Z ->
      __getitem__ self (ItemInt i)
      = Raise (AnalysisQueryError
                 "Request exceeds number of statistical models available."))
  /\ ((- n <= i < 0)%Z ->
      exists model, models !! Z.to_nat (i + n) = Some model
                    /\ __getitem__ self (ItemInt i) = Ok model)
  /\ ((i < - n)%Z -> __getitem__ self (ItemInt i) = Raise ListIndexError).
Proof.
  cbv zeta. unfold __getitem__, list_getitem, len.
  set (models := _statistical_models self).
  repeat split.
  - intros H.
    destruct (lookup_lt_is_Some_2 models (Z.to_nat i) ltac:(lia)) as [model E].
    exists model. split; [exact E|].
    replace (i <? Z.of_nat (length models))%Z with true
      by (symmetry; apply Z.ltb_lt; lia).
    replace (i <? 0)%Z with false by (symmetry; apply Z.ltb_ge; lia).
    replace ((0 <=? i)%Z && (i <? Z.of_nat (length models))%Z)%bool with true
      by (symmetry; apply andb_true_iff; split;
          [apply Z.leb_le | apply Z.ltb_lt]; lia).
    rewrite E. reflexivity.
  - intros H.
    replace (i <? Z.of_nat (length models))%Z with false
      by (symmetry; apply Z.ltb_ge; lia).
    reflexivity.
  - intros H.
    destruct (lookup_lt_is_Some_2 models (Z.to_nat (i + Z.of_nat (length models)))
                ltac:(lia)) as [model E].
    exists model. split; [exact E|].
    replace (i <? Z.of_nat (length models))%Z with true
      by (symmetry; apply Z.ltb_lt; lia).
    replace (i <? 0)%Z with true by (symmetry; apply Z.ltb_lt; lia).
    replace ((0 <=? i + Z.of_nat (length models))%Z
             && (i + Z.of_nat (length models) <? Z.of_nat (length models))%Z)%bool
      with true
      by (symmetry; apply andb_true_iff; split;
          [apply Z.leb_le | apply Z.ltb_lt]; lia).
    rewrite E. reflexivity.
  - intros H.
    replace (i <? Z.of_nat (length models))%Z with true
      by (symmetry; apply Z.ltb_lt; lia).
    replace (i <? 0)%Z with true by (symmetry; apply Z.ltb_lt; lia).
    replace ((0 <=? i + Z.of_nat (length models))%Z
             && (i + Z.of_nat (length models) <? Z.of_nat (length models))%Z)%bool
      with false
      by (symmetry; apply andb_false_iff; left; apply Z.leb_gt; lia).
    reflexivity.
Qed.

End ContainerFacts.

(** ** The combiner: removal, extremes over the members *)

Module MembersFacts.
Import StatisticalModel StatisticsCombiner Combiner.

Lemma last_named_spec (name : string) (models : list StatisticalModel)
    (acc : option StatisticalModel) :
  match last_named name models acc with
  | Some m => (In m models /\ analysis m = name) \/ acc = Some m
  | None => acc = None /\ ~ In name (map analysis models)
  end.
Proof.
  revert acc. induction models as [|m0 rest IH]; intros acc; simpl.
  - destruct acc; [right; reflexivity | split; [reflexivity | tauto]].
  - specialize (IH (if String.eqb (analysis m0) name then Some m0 else acc)).
    destruct (last_named name rest _) as [m|].
    + destruct IH as [[Hin Hn] | Hacc]; [left; tauto|].
      destruct (String.eqb (analysis m0) name) eqn:E.
      * injection Hacc as <-. apply String.eqb_eq in E. left. tauto.
      * right. exact Hacc.
    + destruct IH as [Hacc Hnot].
      destruct (String.eqb (analysis m0) name) eqn:E; [discriminate|].
      apply String.eqb_neq in E. split; [exact Hacc | tauto].
Qed.

Section Removal.
Variable same_model : StatisticalModel -> StatisticalModel -> bool.
Hypothesis same_model_refl : forall m, same_model m m = true.
Hypothesis same_model_name :
  forall a b, same_model a b = true -> analysis a = analysis b.

Lemma list_remove_named (models : list StatisticalModel)
    (m : StatisticalModel) :
  NoDup (map analysis models) -> In m models ->
  exists before after,
    models = before ++ m :: after
    /\ list_remove same_model m models = Some (before ++ after).
Proof.
  induction models as [|m0 rest IH]; intros Hnd Hin; [destruct Hin|].
  simpl in Hnd. apply NoDup_cons in Hnd. destruct Hnd as [Hfresh Hnd].
  simpl. destruct (same_model m0 m) eqn:E.
  - assert (m0 = m).
    { destruct Hin as [H | H]; [exact H|]. exfalso. apply Hfresh.
      rewrite (same_model_name _ _ E). apply list_elem_of_In.
      apply in_map. exact H. }
    subst m0. exists [], rest. split; reflexivity.
  - destruct Hin as [H | H]; [subst m0; rewrite same_model_refl in E;
                               discriminate|].
    destruct (IH Hnd H) as (before & after & -> & Hrm).
    rewrite Hrm. exists (m0 :: before), after. split; reflexivity.
Qed.

(** X22. With distinct names, and a comparison of model objects that
    holds between an object and itself and only between models of one
    name, [remove] takes out the model of the given name and nothing
    else, keeping the order of the others; afterwards the name is not
    found and every other name finds what it found before.  For a name
    that is not among the analyses it raises AnalysisQueryError. *)
Theorem remove_takes_out_the_named_model (self : StatisticsCombiner)
    (name : string) :
  NoDup (analyses self) ->
  match remove same_model self name with
  | Ok self' =>
      (exists before m after,
         _statistical_models self = before ++ m :: after
         /\ analysis m = name
         /\ _statistical_models self' = before ++ after)
      /\ ~ In name (analyses self')
      /\ NoDup (analyses self')
      /\ (forall other, other <> name ->
            __getitem__ self' (ItemStr other) = __getitem__ self (ItemStr other))
  | Raise e =>
      ~ In name (analyses self)
      /\ e = AnalysisQueryError ("'" +:+ name +:+ "' is not among the analyses.")
  end.
Proof.
  intros Hnd. unfold remove.
  pose proof (last_named_spec name (_statistical_models self) None) as Hlast.
  destruct (last_named name (_statistical_models self) None) as [m|].
  - destruct Hlast as [[Hin Hname] | Hx]; [|discriminate].
    destruct (list_remove_named _ m Hnd Hin) as (before & after & Hsplit & Hrm).
    rewrite Hrm.
    unfold analyses in *. cbn [_statistical_models]. rewrite Hsplit in Hnd.
    rewrite map_app in Hnd. simpl in Hnd.
    apply NoDup_app in Hnd. destruct Hnd as (Hb & Hdisj & Hma).
    apply NoDup_cons in Hma. destruct Hma as [Hfresh Ha].
    split; [exists before, m, after; auto|].
    split; [|split].
    + rewrite map_app, in_app_iff. intros [H | H].
      * apply list_elem_of_In in H. apply (Hdisj _ H). rewrite Hname. left.
      * apply Hfresh. rewrite Hname. apply list_elem_of_In. exact H.
    + rewrite map_app. apply NoDup_app. split; [exact Hb|]. split; [|exact Ha].
      intros x Hx Hin'. apply (Hdisj x Hx). right. exact Hin'.
    + intros other Hne. unfold __getitem__. cbn [_statistical_models].
      rewrite Hsplit.
      assert (E : first_named other (before ++ m :: after)
                  = first_named other (before ++ after)).
      { clear -Hne Hname. induction before as [|b before IH]; simpl.
        - replace (String.eqb (analysis m) other) with false; [reflexivity|].
          symmetry. apply String.eqb_neq. congruence.
        - destruct (String.eqb (analysis b) other); [reflexivity | exact IH]. }
      rewrite E. reflexivity.
  - destruct Hlast as [_ Hnot]. split; [exact Hnot | reflexivity].
Qed.
End Removal.

(** X22, witness. *)
Lemma remove_takes_out_the_named_model_witness :
  let a := constant_member "a" (Finite 1) in
  let b := constant_member "b" (Finite 2) in
  (forall m, same_name m m = true)
  /\ (forall x y, same_name x y = true -> analysis x = analysis y)
  /\ NoDup (analyses {| _statistical_models := [a; b] |})
  /\ remove same_name {| _statistical_models := [a; b] |} "a"
     = Ok {| _statistical_models := [b] |}
  /\ ~ In "a" (analyses {| _statistical_models := [b] |}).
Proof.
  intros a b.
  assert (Hrefl : forall m, same_name m m = true)
    by (intros m; apply String.eqb_refl).
  assert (Hname : forall x y, same_name x y = true -> analysis x = analysis y)
    by (intros x y H; apply String.eqb_eq; exact H).
  assert (Hnd : NoDup (analyses {| _statistical_models := [a; b] |})).
  { unfold analyses. simpl. apply NoDup_cons. split.
    - intros H. apply list_elem_of_singleton in H. discriminate.
    - apply NoDup_singleton. }
  split; [exact Hrefl|]. split; [exact Hname|]. split; [exact Hnd|].
  pose proof (remove_takes_out_the_named_model same_name Hrefl Hname
                {| _statistical_models := [a; b] |} "a" Hnd) as H.
  change (remove same_name {| _statistical_models := [a; b] |} "a")
    with (Ok {| _statistical_models := [b] |}) in H.
  split; [reflexivity | exact (proj1 (proj2 H))].
Defined.

(** *** Python's [max] and [min] *)

Lemma ltb_not_nan (a b : pyfloat) :
  (a <? b)%py = true -> Float.isnan a = false /\ Float.isnan b = false.
Proof. destruct a, b; simpl; intros H; try discriminate; auto. Qed.

Lemma max_step (acc x : pyfloat) :
  Float.isnan acc = false ->
  Float.isnan (Float.max acc x) = false
  /\ (acc <=? Float.max acc x)%py = true
  /\ (Float.max acc x = acc \/ Float.max acc x = x)
  /\ (Float.isnan x = false -> (x <=? Float.max acc x)%py = true).
Proof.
  intros Hacc. unfold Float.max, Float.gtb.
  destruct (acc <? x)%py eqn:E.
  - destruct (ltb_not_nan _ _ E) as [_ Hx].
    split; [exact Hx|]. split; [unfold Float.leb; rewrite E; reflexivity|].
    split; [right; reflexivity|]. intros _. apply FloatOrder.leb_refl. exact Hx.
  - split; [exact Hacc|]. split; [apply FloatOrder.leb_refl; exact Hacc|].
    split; [left; reflexivity|]. intros Hx.
    apply FloatOrder.not_ltb_leb; assumption.
Qed.

Lemma py_max_spec (first : pyfloat) (rest : list pyfloat) :
  Float.isnan first = false ->
  Float.isnan (py_max first rest) = false
  /\ In (py_max first rest) (first :: rest)
  /\ (first <=? py_max first rest)%py = true
  /\ (forall x, In x rest -> Float.isnan x = false ->
        (x <=? py_max first rest)%py = true).
Proof.
  unfold py_max. revert first. induction rest as [|x rest IH];
    intros first Hf; simpl.
  - split; [exact Hf|]. split; [left; reflexivity|].
    split; [apply FloatOrder.leb_refl; exact Hf|]. intros x [].
  - destruct (max_step first x Hf) as (Hn & Hle & Hor & Hx).
    destruct (IH _ Hn) as (Hn' & Hin & Hle' & Hall).
    split; [exact Hn'|]. split; [|split].
    + destruct Hin as [Hin | Hin]; [|right; right; exact Hin].
      rewrite <- Hin. destruct Hor as [-> | ->]; [left | right; left];
        reflexivity.
    + eapply FloatOrder.leb_trans; eassumption.
    + intros y [<- | Hy] Hyn.
      * eapply FloatOrder.leb_trans; [exact (Hx Hyn) | exact Hle'].
      * exact (Hall y Hy Hyn).
Qed.

Lemma py_max_nan (rest : list pyfloat) : py_max NaN rest = NaN.
Proof.
  unfold py_max. induction rest as [|x rest IH]; simpl; [reflexivity|].
  replace (Float.max NaN x) with NaN by (destruct x; reflexivity). exact IH.
Qed.

Section Extremes.
Variable minimum_poi_of : StatisticalModel -> pyfloat.
Variable s95exp_of : StatisticalModel -> pyfloat.

(** X23. [minimum_poi] is the largest of the members' smallest allowed
    POI values: it is the value of one member and no member's number is
    above it, so a POI at or above it is allowed by every member.  An
    empty combiner raises ValueError.  The comparison is that of Python's
    [max]: a NaN of the first member is returned, a NaN of a later member
    is passed over. *)
Theorem minimum_poi_is_the_largest (self : StatisticsCombiner) :
  match minimum_poi minimum_poi_of self with
  | Raise e =>
      _statistical_models self = []
      /\ e = ValueError
  | Ok v =>
      exists first rest,
        _statistical_models self = first :: rest
        /\ (exists m, In m (first :: rest) /\ v = minimum_poi_of m)
        /\ (Float.isnan (minimum_poi_of first) = true -> v = NaN)
        /\ (Float.isnan (minimum_poi_of first) = false ->
            Float.isnan v = false
            /\ forall m, In m (first :: rest) ->
                 Float.isnan (minimum_poi_of m) = false ->
                 (minimum_poi_of m <=? v)%py = true)
  end.
Proof.
  unfold minimum_poi.
  destruct (_statistical_models self) as [|first rest]; simpl;
    [split; reflexivity|].
  exists first, rest. split; [reflexivity|].
  destruct (Float.isnan (minimum_poi_of first)) eqn:Hnan.
  - apply FloatFacts.isnan_true in Hnan. rewrite Hnan, py_max_nan.
    split; [exists first; split; [left; reflexivity | symmetry; exact Hnan]|].
    split; [reflexivity | discriminate].
  - destruct (py_max_spec _ (map minimum_poi_of rest) Hnan)
      as (Hn & Hin & Hle & Hall).
    split; [|split; [discriminate|]].
    + destruct Hin as [Hin | Hin].
      * exists first. split; [left; reflexivity | symmetry; exact Hin].
      * apply in_map_iff in Hin. destruct Hin as (m & <- & Hm).
        exists m. split; [right; exact Hm | reflexivity].
    + intros _. split; [exact Hn|].
      intros m [<- | Hm] Hmn; [exact Hle|].
      apply Hall; [apply in_map; exact Hm | exact Hmn].
Qed.

Lemma min_position_spec (best : nat) (best_value : pyfloat) (i : nat)
    (xs : list pyfloat) :
  Float.isnan best_value = false ->
  Forall (fun x => Float.isnan x = false) xs ->
  (min_position best best_value i xs = best
   /\ Forall (fun x => (best_value <=? x)%py = true) xs)
  \/ (exists pre v post,
        xs = pre ++ v :: post
        /\ min_position best best_value i xs = (i + length pre)%nat
        /\ (v <? best_value)%py = true
        /\ Forall (fun x => (v <? x)%py = true) pre
        /\ Forall (fun x => (v <=? x)%py = true) post).
Proof.
  revert best best_value i. induction xs as [|x xs IH];
    intros best bv i Hbv Hxs; simpl.
  - left. split; [reflexivity | constructor].
  - inversion Hxs as [|? ? Hx Hrest]; subst.
    destruct (x <? bv)%py eqn:E.
    + destruct (IH i x (S i) Hx Hrest)
        as [[Hp Hall] | (pre & v & post & -> & Hp & Hlt & Hpre & Hpost)].
      * right. exists [], x, xs. simpl. rewrite Nat.add_0_r.
        split; [reflexivity|]. split; [exact Hp|]. split; [exact E|].
        split; [constructor | exact Hall].
      * right. exists (x :: pre), v, post.
        split; [reflexivity|]. split; [rewrite Hp; simpl; lia|].
        split; [|split; [|exact Hpost]].
        -- eapply FloatOrder.ltb_leb_trans; [exact Hlt|].
           unfold Float.leb. rewrite E. reflexivity.
        -- constructor; [exact Hlt | exact Hpre].
    + assert (Hle : (bv <=? x)%py = true)
        by (apply FloatOrder.not_ltb_leb; assumption).
      destruct (IH best bv (S i) Hbv Hrest)
        as [[Hp Hall] | (pre & v & post & -> & Hp & Hlt & Hpre & Hpost)].
      * left. split; [exact Hp|]. constructor; assumption.
      * right. exists (x :: pre), v, post.
        split; [reflexivity|]. split; [rewrite Hp; simpl; lia|].
        split; [exact Hlt|]. split; [|exact Hpost].
        constructor; [|exact Hpre].
        eapply FloatOrder.ltb_leb_trans; eassumption.
Qed.

Lemma min_position_bound (best : nat) (best_value : pyfloat) (i : nat)
    (xs : list pyfloat) :
  (best < i)%nat ->
  (min_position best best_value i xs < i + length xs)%nat.
Proof.
  revert best best_value i. induction xs as [|x xs IH];
    intros best bv i Hb; simpl; [lia|].
  destruct (x <? bv)%py.
  - specialize (IH i x (S i) ltac:(lia)). lia.
  - specialize (IH best bv (S i) ltac:(lia)). lia.
Qed.

Lemma min_position_nan (best i : nat) (xs : list pyfloat) :
  min_position best NaN i xs = best.
Proof.
  revert i. induction xs as [|x xs IH]; intros i; simpl; [reflexivity|].
  replace (x <? NaN)%py with false by (destruct x; reflexivity). apply IH.
Qed.

Lemma index_of_position_found (p : nat) (v : pyfloat) (i : nat)
    (xs : list pyfloat) :
  (i <= p < i + length xs)%nat ->
  exists j, index_of_position p v i xs = Some j /\ (i <= j <= p)%nat.
Proof.
  revert i. induction xs as [|x xs IH]; intros i H; simpl in *; [lia|].
  destruct (Nat.eqb i p) eqn:E; simpl.
  - exists i. split; [reflexivity | lia].
  - apply Nat.eqb_neq in E. destruct (x ==? v)%py.
    + exists i. split; [reflexivity | lia].
    + destruct (IH (S i) ltac:(lia)) as (j & Hj & Hr).
      exists j. split; [exact Hj | lia].
Qed.

Lemma index_of_position_first (v : pyfloat) (i : nat)
    (pre post : list pyfloat) :
  Forall (fun x => (v <? x)%py = true) pre ->
  index_of_position (i + length pre) v i (pre ++ v :: post)
  = Some (i + length pre)%nat.
Proof.
  revert i. induction pre as [|x pre IH]; intros i H; simpl.
  - rewrite Nat.add_0_r, Nat.eqb_refl. reflexivity.
  - inversion H as [|? ? Hx Hrest]; subst.
    replace (Nat.eqb i (i + S (length pre))) with false
      by (symmetry; apply Nat.eqb_neq; lia).
    replace (x ==? v)%py with false.
    + rewrite <- Nat.add_succ_comm. apply IH. exact Hrest.
    + symmetry. destruct x, v; try discriminate; try reflexivity;
        FloatOrder.order.
Qed.

Lemma getitem_position (self : StatisticsCombiner) (j : nat)
    (m : StatisticalModel) :
  _statistical_models self !! j = Some m ->
  __getitem__ self (ItemInt (Z.of_nat j)) = Ok m.
Proof.
  intros H. pose proof (lookup_lt_Some _ _ _ H) as Hlt.
  unfold __getitem__, list_getitem, len. cbv zeta.
  replace (Z.of_nat j <? 0)%Z with false by (symmetry; apply Z.ltb_ge; lia).
  replace (Z.of_nat j <? Z.of_nat (length (_statistical_models self)))%Z
    with true by (symmetry; apply Z.ltb_lt; lia).
  replace (0 <=? Z.of_nat j)%Z with true by (symmetry; apply Z.leb_le; lia).
  simpl. rewrite Nat2Z.id, H. reflexivity.
Qed.

(** X24. [find_most_sensitive] returns the member with the least
    expected limit [s95exp], the first of them when several share the
    least value: when all the limits are numbers, every member before the
    returned one has a strictly larger limit and every member after it
    one that is not smaller.  An empty combiner raises ValueError.  When
    the limit of the first member is NaN the first member is returned,
    whatever the others. *)
Theorem most_sensitive_is_the_first_minimum (self : StatisticsCombiner) :
  match find_most_sensitive s95exp_of self with
  | Raise e =>
      _statistical_models self = []
      /\ e = ValueError
  | Ok m =>
      In m (_statistical_models self)
      /\ (Forall (fun m' => Float.isnan (s95exp_of m') = false)
            (_statistical_models self) ->
          exists before after,
            _statistical_models self = before ++ m :: after
            /\ Forall (fun m' => (s95exp_of m <? s95exp_of m')%py = true)
                 before
            /\ Forall (fun m' => (s95exp_of m <=? s95exp_of m')%py = true)
                 after)
      /\ (forall first rest,
            _statistical_models self = first :: rest ->
            Float.isnan (s95exp_of first) = true -> m = first)
  end.
Proof.
  unfold find_most_sensitive.
  destruct (_statistical_models self) as [|first rest] eqn:Hmodels;
    [split; reflexivity|].
  cbn [map].
  set (results := s95exp_of first :: map s95exp_of rest).
  set (p := min_position 0 (s95exp_of first) 1 (map s95exp_of rest)).
  assert (Hp : (p < length results)%nat).
  { pose proof (min_position_bound 0 (s95exp_of first) 1
                  (map s95exp_of rest) ltac:(lia)).
    unfold results. simpl. fold p in H. lia. }
  destruct (index_of_position_found p (nth p results NaN) 0 results
              ltac:(lia)) as (j & Hj & Hjp).
  rewrite Hj.
  assert (Hjlen : (j < length (first :: rest))%nat).
  { unfold results in Hp. simpl in Hp |- *. rewrite length_map in Hp. lia. }
  destruct (lookup_lt_is_Some_2 (first :: rest) j Hjlen) as [m Hm].
  assert (Hget : __getitem__ self (ItemInt (Z.of_nat j)) = Ok m).
  { apply getitem_position. rewrite Hmodels. exact Hm. }
  rewrite Hget.
  split; [apply list_elem_of_In; eapply list_elem_of_lookup_2; exact Hm|].
  split.
  - intros Hnum. inversion Hnum as [|? ? Hfirst Hrest]; subst.
    assert (Hvals : Forall (fun x => Float.isnan x = false)
                      (map s95exp_of rest)).
    { clear -Hrest. induction Hrest; simpl; constructor; assumption. }
    destruct (min_position_spec 0 (s95exp_of first) 1 (map s95exp_of rest)
                Hfirst Hvals)
      as [[Hp0 Hall] | (pre & v & post & Hsplit & Hpv & Hlt & Hpre & Hpost)].
    + fold p in Hp0. assert (j = 0%nat) by lia. subst j.
      injection Hm as <-. exists [], rest. split; [reflexivity|].
      split; [constructor|].
      clear -Hall. induction rest as [|r rest IH]; simpl in *;
        [constructor|].
      inversion Hall; subst. constructor; [assumption | apply IH; assumption].
    + fold p in Hpv.
      apply map_eq_app in Hsplit.
      destruct Hsplit as (mpre & mrest & -> & Hmpre & Hmrest).
      destruct mrest as [|mv mpost]; [discriminate|].
      simpl in Hmrest. injection Hmrest as Hv Hmpost.
      assert (Hlen : length pre = length mpre)
        by (rewrite <- Hmpre; apply length_map).
      assert (Hnth : nth p results NaN = v).
      { unfold results. rewrite Hpv. simpl.
        rewrite map_app, Hmpre. simpl. rewrite Hv, Hmpost.
        rewrite app_nth2 by lia. rewrite Nat.sub_diag. reflexivity. }
      assert (Hidx : index_of_position p (nth p results NaN) 0 results
                     = Some p).
      { rewrite Hnth. unfold results. simpl.
        replace (Nat.eqb 0 p) with false
          by (symmetry; apply Nat.eqb_neq; lia).
        replace (s95exp_of first ==? v)%py with false.
        - simpl. rewrite map_app, Hmpre. simpl. rewrite Hv, Hmpost.
          rewrite Hpv. apply index_of_position_first. exact Hpre.
        - symmetry. clear -Hlt.
          destruct (s95exp_of first), v; try discriminate; try reflexivity;
            FloatOrder.order. }
      rewrite Hidx in Hj. injection Hj as <-.
      assert (Hmv : m = mv).
      { rewrite Hpv in Hm. simpl in Hm.
        rewrite lookup_app_r in Hm by lia.
        replace (length pre - length mpre)%nat with 0%nat in Hm by lia.
        simpl in Hm. congruence. }
      subst m. exists (first :: mpre), mpost. split; [reflexivity|].
      rewrite Hv. split.
      * constructor; [exact Hlt|].
        clear -Hpre Hmpre. revert pre Hpre Hmpre.
        induction mpre as [|a mpre IH]; intros pre Hpre Hmpre;
          [constructor|].
        destruct pre as [|b pre]; [discriminate|].
        simpl in Hmpre. injection Hmpre as Hb Hmpre.
        inversion Hpre as [|? ? H1 H2]; subst.
        constructor; [exact H1 | exact (IH _ H2 eq_refl)].
      * clear -Hpost Hmpost. revert post Hpost Hmpost.
        induction mpost as [|a mpost IH]; intros post Hpost Hmpost;
          [constructor|].
        destruct post as [|b post]; [discriminate|].
        simpl in Hmpost. injection Hmpost as Hb Hmpost.
        inversion Hpost as [|? ? H1 H2]; subst.
        constructor; [exact H1 | exact (IH _ H2 eq_refl)].
  - intros first' rest' Heq Hnan. injection Heq as <- <-.
    apply FloatFacts.isnan_true in Hnan.
    assert (p = 0%nat) by (unfold p; rewrite Hnan; apply min_position_nan).
    assert (j = 0%nat) by lia. subst j. injection Hm as <-. reflexivity.
Qed.
End Extremes.

End MembersFacts.

(** ** The combiner: the joint likelihoods and their fits *)

Module JointLikelihoodFacts.
Import StatisticalModel StatisticsCombiner Combiner.

Section Asimov.
Variable asimov_likelihood_of :
  StatisticalModel -> pyfloat -> ExpectationType -> string ->
  gmap string pyval -> outcome pyfloat.
Variable poi_test : pyfloat.
Variable expected : ExpectationType.
Variable test_statistics : string.
Variable kwargs : gmap string (gmap string pyval).

Let answers (m : StatisticalModel) (r : outcome pyfloat) : Prop :=
  asimov_likelihood_of m poi_test expected test_statistics (kwargs_of kwargs m)
  = r.

Lemma asimov_loop_all_return (models : list StatisticalModel)
    (values : list pyfloat) (nll : pyfloat) :
  Forall2 (fun m v => answers m (Returns v)) models values ->
  asimov_likelihood_loop asimov_likelihood_of poi_test expected
    test_statistics kwargs models nll
  = Returns (fold_left Float.add values nll).
Proof.
  intros H. revert nll. induction H as [|m v models values Hm _ IH];
    intros nll; [reflexivity|].
  cbn [asimov_likelihood_loop fold_left]. unfold answers, kwargs_of in Hm.
  rewrite Hm.
  destruct (Float.isnan (nll + v)%py) eqn:E; [|apply IH].
  apply FloatFacts.isnan_true in E. rewrite E.
  rewrite CombinerSpec.sum_from_nan. reflexivity.
Qed.

Lemma asimov_loop_raise (before after : list StatisticalModel)
    (m : StatisticalModel) (values : list pyfloat) (err : exn)
    (nll : pyfloat) :
  Forall2 (fun m v => answers m (Returns v)) before values ->
  Float.isnan (fold_left Float.add values nll) = false ->
  answers m (Raises err) ->
  asimov_likelihood_loop asimov_likelihood_of poi_test expected
    test_statistics kwargs (before ++ m :: after) nll
  = Raises err.
Proof.
  intros H. revert nll. induction H as [|m0 v models values Hm _ IH];
    intros nll Hsum Herr.
  - cbn [app asimov_likelihood_loop]. unfold answers, kwargs_of in Herr.
    rewrite Herr. reflexivity.
  - cbn [app asimov_likelihood_loop]. unfold answers, kwargs_of in Hm.
    rewrite Hm. cbn [fold_left] in Hsum.
    rewrite (CombinerSpec.sum_not_nan_start _ _ Hsum).
    apply IH; assumption.
Qed.

(** X25. [asimov_likelihood] adds up the members' values like
    [likelihood], and stops at a NaN sum; but it catches nothing: when a
    member raises, NegativeExpectedYields included, after members whose
    running sum is a number, the exception leaves [asimov_likelihood],
    where [likelihood] would return NaN with a warning. *)
Theorem asimov_likelihood_sums_or_raises (self : StatisticsCombiner) :
  (forall values,
     Forall2 (fun m v => answers m (Returns v))
       (_statistical_models self) values ->
     let sum := fold_left Float.add values (Finite 0) in
     asimov_likelihood asimov_likelihood_of self poi_test expected true
       test_statistics kwargs = Returns sum
     /\ asimov_likelihood asimov_likelihood_of self poi_test expected false
          test_statistics kwargs
        = Returns (if Float.isnan sum then sum else Float.exp (- sum)%py))
  /\ (forall before m after values err return_nll,
        _statistical_models self = before ++ m :: after ->
        Forall2 (fun m v => answers m (Returns v)) before values ->
        Float.isnan (fold_left Float.add values (Finite 0)) = false ->
        answers m (Raises err) ->
        asimov_likelihood asimov_likelihood_of self poi_test expected
          return_nll test_statistics kwargs = Raises err).
Proof.
  split.
  - intros values H sum. unfold asimov_likelihood.
    rewrite (asimov_loop_all_return _ _ _ H). fold sum.
    split; reflexivity.
  - intros before m after values err return_nll Hsplit H Hsum Herr.
    unfold asimov_likelihood. rewrite Hsplit.
    rewrite (asimov_loop_raise _ _ _ _ _ _ H Hsum Herr). reflexivity.
Qed.
End Asimov.

Section Joint.
Variable format_3f : pyfloat -> string.
Variable poi_test : pyfloat.
Variable expected : ExpectationType.
Variable kwargs : gmap string (gmap string pyval).

(** X26. The joint negative log-likelihood is additive over [append]:
    when the members of a combiner return the values [values] and a
    model that [append] accepts returns [v], the combiner with the model
    added has the negative log-likelihood of the old one plus [v]. *)
Theorem likelihood_after_append (self self' : StatisticsCombiner)
    (m : StatisticalModel) (values : list pyfloat) (v : pyfloat) :
  append self (Model m) = Ok self' ->
  Forall2 (returns poi_test expected kwargs) (_statistical_models self)
    values ->
  returns poi_test expected kwargs m v ->
  exists nll,
    likelihood format_3f self poi_test expected true kwargs
    = Returns (nll, [])
    /\ likelihood format_3f self' poi_test expected true kwargs
       = Returns ((nll + v)%py, []).
Proof.
  intros Happ Hall Hm.
  destruct (ContainerFacts.append_Ok _ _ _ Happ) as (m' & E & _ & Hmodels).
  injection E as <-.
  exists (fold_left Float.add values (Finite 0)).
  unfold likelihood. rewrite Hmodels.
  rewrite (CombinerSpec.likelihood_loop_all_return format_3f poi_test
             expected kwargs _ values (Finite 0) Hall).
  assert (Hall' : Forall2 (returns poi_test expected kwargs)
                    (_statistical_models self ++ [m]) (values ++ [v])).
  { apply Forall2_app; [exact Hall|]. constructor; [exact Hm | constructor]. }
  rewrite (CombinerSpec.likelihood_loop_all_return format_3f poi_test
             expected kwargs _ _ (Finite 0) Hall').
  rewrite fold_left_app. split; reflexivity.
Qed.
End Joint.

(** X26, witness. *)
Lemma likelihood_after_append_witness :
  let a := constant_member "a" (Finite 1) in
  let b := constant_member "b" (Finite 2) in
  let format_3f := fun _ : pyfloat => "1.000" in
  append {| _statistical_models := [a] |} (Model b)
  = Ok {| _statistical_models := [a; b] |}
  /\ Forall2 (returns (Finite 1) observed ∅) [a] [Finite 1]
  /\ returns (Finite 1) observed ∅ b (Finite 2)
  /\ exists nll,
       likelihood format_3f {| _statistical_models := [a] |} (Finite 1)
         observed true ∅ = Returns (nll, [])
       /\ likelihood format_3f {| _statistical_models := [a; b] |} (Finite 1)
            observed true ∅ = Returns ((nll + Finite 2)%py, []).
Proof.
  intros a b format_3f.
  assert (H1 : append {| _statistical_models := [a] |} (Model b)
               = Ok {| _statistical_models := [a; b] |}) by reflexivity.
  assert (H2 : Forall2 (returns (Finite 1) observed ∅) [a] [Finite 1])
    by (constructor; [reflexivity | constructor]).
  assert (H3 : returns (Finite 1) observed ∅ b (Finite 2)) by reflexivity.
  split; [exact H1|]. split; [exact H2|]. split; [exact H3|].
  exact (likelihood_after_append format_3f (Finite 1) observed ∅
           {| _statistical_models := [a] |}
           {| _statistical_models := [a; b] |} b [Finite 1] (Finite 2)
           H1 H2 H3).
Defined.

(** *** The fits *)

Lemma halve_twice (v : pyfloat) : (Finite 2 * v / Finite 2)%py = v.
Proof.
  destruct v as [r | | |]; simpl; try reflexivity.
  - replace (Float.Reqb 2 0) with false
      by (symmetry; apply FloatFacts.Reqb_false; lra).
    f_equal. field.
  - unfold Float.signed_inf.
    replace (Float.Rltb 0 2) with true
      by (symmetry; apply FloatFacts.Rltb_true; lra).
    simpl. replace (Float.Rltb 2 0) with false
      by (symmetry; apply FloatFacts.Rltb_false; lra).
    reflexivity.
  - unfold Float.signed_inf.
    replace (Float.Rltb 0 2) with true
      by (symmetry; apply FloatFacts.Rltb_true; lra).
    simpl. replace (Float.Rltb 2 0) with false
      by (symmetry; apply FloatFacts.Rltb_false; lra).
    reflexivity.
Qed.

Section Fits.
Variable minimum_poi_of : StatisticalModel -> pyfloat.
Variable asimov_likelihood_of :
  StatisticalModel -> pyfloat -> ExpectationType -> string ->
  gmap string pyval -> outcome pyfloat.
Variable format_3f : pyfloat -> string.
Variable maximize_likelihood_of :
  StatisticalModel -> ExpectationType -> pyfloat.
Variable sigma_mu_of :
  StatisticalModel -> pyfloat -> ExpectationType -> pyfloat.
Variable scipy_minimize :
  (pyfloat -> outcome (pyfloat * list warning)) -> pyfloat ->
  pyfloat * pyfloat -> Z -> outcome (OptimizeResult * list warning).

(** X27. What [maximize_likelihood] returns when the optimiser succeeds
    and reports, as [opt.fun], the value of the objective at [opt.x]:
    the halving undoes the doubling of [twice_nll], and the second entry
    is the joint negative log-likelihood at the returned POI, or, for
    [return_nll = False], the exponential of its negative; NaN and
    infinite values come through unchanged. *)
Theorem maximize_likelihood_returns_the_joint_nll
    (self : StatisticsCombiner) (expected : ExpectationType)
    (allow_negative_signal : bool) (poi_upper_bound : pyfloat) (maxiter : Z)
    (kwargs : gmap string (gmap string pyval))
    (bounds : pyfloat * pyfloat) (opt : OptimizeResult)
    (warnings seen : list warning) (nll : pyfloat) :
  poi_bounds minimum_poi_of self allow_negative_signal poi_upper_bound
  = Ok bounds ->
  scipy_minimize (twice_nll format_3f self expected kwargs)
    (mu_init maximize_likelihood_of sigma_mu_of self expected) bounds maxiter
  = Returns (opt, warnings) ->
  success opt = true ->
  likelihood format_3f self (x opt) expected true kwargs
  = Returns (nll, seen) ->
  fun_ opt = (Finite 2 * nll)%py ->
  maximize_likelihood minimum_poi_of format_3f maximize_likelihood_of
    sigma_mu_of scipy_minimize self true expected allow_negative_signal
    poi_upper_bound maxiter kwargs
  = (Ok (x opt, nll), warnings)
  /\ maximize_likelihood minimum_poi_of format_3f maximize_likelihood_of
       sigma_mu_of scipy_minimize self false expected allow_negative_signal
       poi_upper_bound maxiter kwargs
     = (Ok (x opt, Float.exp (- nll)%py), warnings).
Proof.
  intros Hb Hopt Hs Hl Hf. unfold maximize_likelihood. cbv zeta.
  rewrite Hb, Hopt. unfold fitted. rewrite Hs, Hf, halve_twice.
  split; reflexivity.
Qed.

Lemma asimov_loop_qtilde (poi_test : pyfloat) (expected : ExpectationType)
    (kwargs : gmap string (gmap string pyval))
    (models : list StatisticalModel) (nll : pyfloat) :
  asimov_likelihood_loop asimov_likelihood_of poi_test expected "qtilde"
    kwargs models nll
  = asimov_likelihood_loop
      (fun m poi_test expected _ kwargs =>
         asimov_likelihood_of m poi_test expected "qtilde" kwargs)
      poi_test expected "qtilde" kwargs models nll.
Proof.
  revert nll. induction models as [|m models IH]; intros nll;
    [reflexivity|].
  cbn [asimov_likelihood_loop].
  destruct (asimov_likelihood_of m poi_test expected "qtilde" _);
    [|reflexivity].
  destruct (Float.isnan _); [reflexivity | apply IH].
Qed.

(** X28. In [maximize_asimov_likelihood] the requested
    [test_statistics] decides the lower bound of the POI and nothing
    else: the objective asks every member for its Asimov likelihood with
    the default "qtilde", so two requests give the same result as soon as
    both are, or both are not, among "q" and "qmu"; and the members could
    ignore the kind they are asked for without any change. *)
Theorem asimov_fit_asks_for_qtilde (self : StatisticsCombiner)
    (return_nll : bool) (expected : ExpectationType)
    (test_statistics test_statistics' : string) (poi_upper_bound : pyfloat)
    (kwargs : gmap string (gmap string pyval)) :
  let fit asimov_likelihood_of test_statistics :=
    maximize_asimov_likelihood minimum_poi_of asimov_likelihood_of
      scipy_minimize self return_nll expected test_statistics
      poi_upper_bound kwargs in
  (forall mu,
     twice_asimov_nll asimov_likelihood_of self expected kwargs mu
     = twice_asimov_nll
         (fun m poi_test expected _ kwargs =>
            asimov_likelihood_of m poi_test expected "qtilde" kwargs)
         self expected kwargs mu)
  /\ (str_in test_statistics ["q"; "qmu"]
      = str_in test_statistics' ["q"; "qmu"] ->
      fit asimov_likelihood_of test_statistics
      = fit asimov_likelihood_of test_statistics')
  /\ fit asimov_likelihood_of "q0" = fit asimov_likelihood_of "qtilde"
  /\ fit asimov_likelihood_of "q" = fit asimov_likelihood_of "qmu".
Proof.
  cbv zeta. split; [|split; [|split]].
  - intros mu. unfold twice_asimov_nll, asimov_likelihood.
    rewrite asimov_loop_qtilde. reflexivity.
  - intros H. unfold maximize_asimov_likelihood. cbv zeta. rewrite H.
    reflexivity.
  - reflexivity.
  - reflexivity.
Qed.
End Fits.

(** X27, witness. *)
Lemma maximize_likelihood_returns_the_joint_nll_witness :
  let a := constant_member "a" (Finite 1) in
  let self := {| _statistical_models := [a] |} in
  let format_3f := fun _ : pyfloat => "1.000" in
  let best := fun (_ : StatisticalModel) (_ : ExpectationType) => Finite 1 in
  let sigma :=
    fun (_ : StatisticalModel) (_ : pyfloat) (_ : ExpectationType) =>
      Finite 1 in
  maximize_likelihood (fun _ => Finite 0) format_3f best sigma
    one_step_minimize self true observed false (Finite 10) 200 ∅
  = (Ok (mu_init best sigma self observed, Finite (0 + 1)), []).
Proof.
  intros a self format_3f best sigma.
  refine (proj1 (maximize_likelihood_returns_the_joint_nll
                   (fun _ => Finite 0) format_3f best sigma one_step_minimize
                   self observed false (Finite 10) 200 ∅
                   (Finite 0, Finite 10)
                   {| success := true; fun_ := (Finite 2 * Finite (0 + 1))%py;
                      x := mu_init best sigma self observed |}
                   [] [] (Finite (0 + 1)) _ _ _ _ _)); reflexivity.
Defined.

End JointLikelihoodFacts.

(** ** The fit: what the minimiser is given *)

Module FitFacts.
Import OptimizerCore.

Section Fit.
Variable objective : Type.
Variable minimize :
  objective -> list pyfloat -> bool -> option objective ->
  list (pyfloat * pyfloat) -> list constraint -> gmap string pyopt ->
  outcome (pyfloat * list pyfloat).
Variable func : objective.
Variable model_configuration : ModelConfig.
Variable do_grad : bool.
Variable hessian : option objective.
Variable logpdf : option (list pyfloat -> pyfloat).
Variable options : gmap string pyopt.

Let with_index :=
  <["poi_index" := OptInt (poi_index model_configuration)]> options.

(** A call with a fixed POI, no [initial_parameters] and no [bounds],
    on a given list of constraints. *)
Lemma fit_on_given_list (value : pyfloat) (l : loc) (cs : list constraint)
    (st : store) :
  constraint_lists st !! l = Some cs ->
  exists st',
    fit objective minimize func model_configuration do_grad hessian None None
      (Some value) logpdf (Some l) options st
    = Some (match list_setitem (suggested_init model_configuration)
                    (poi_index model_configuration) value with
            | None => Raises IndexError
            | Some pars =>
                reported logpdf
                  (minimize func pars do_grad hessian
                     (fixed_poi_bounds model_configuration (Some value))
                     (cs ++ [fixed_poi_constraint model_configuration value])
                     with_index)
            end, st')
    /\ constraint_lists st'
       = match list_setitem (suggested_init model_configuration)
                 (poi_index model_configuration) value with
         | None => constraint_lists st
         | Some _ =>
             <[l := cs ++ [fixed_poi_constraint model_configuration value]]>
               (constraint_lists st)
         end.
Proof.
  intros Hcs. unfold fit, fit_lists, new_floats, new_bounds, fit_fix_poi.
  cbn [mbind option_bind float_lists bound_lists constraint_lists].
  rewrite lookup_insert_eq. cbn [mbind option_bind].
  destruct (list_setitem (suggested_init model_configuration)
              (poi_index model_configuration) value) as [pars|].
  - cbn [float_lists bound_lists constraint_lists]. rewrite Hcs.
    cbn [mbind option_bind float_lists bound_lists constraint_lists].
    rewrite !lookup_insert_eq. cbn [mbind option_bind].
    eexists.
    unfold reported, with_index, fixed_poi_constraint.
    destruct (minimize _ _ _ _ _ _ _) as [[fun_ x]|err];
      (split; [reflexivity|]); reflexivity.
  - cbn [mbind option_bind]. eexists. split; reflexivity.
Qed.

(** The same call without a list of constraints. *)
Lemma fit_on_new_list (value : pyfloat) (st : store) :
  exists st',
    fit objective minimize func model_configuration do_grad hessian None None
      (Some value) logpdf None options st
    = Some (match list_setitem (suggested_init model_configuration)
                    (poi_index model_configuration) value with
            | None => Raises IndexError
            | Some pars =>
                reported logpdf
                  (minimize func pars do_grad hessian
                     (fixed_poi_bounds model_configuration (Some value))
                     [fixed_poi_constraint model_configuration value]
                     with_index)
            end, st').
Proof.
  unfold fit, fit_lists, new_floats, new_bounds, new_constraints, fit_fix_poi.
  cbn [mbind option_bind float_lists bound_lists constraint_lists].
  rewrite !lookup_insert_eq.
  cbn [mbind option_bind float_lists bound_lists constraint_lists].
  destruct (list_setitem (suggested_init model_configuration)
              (poi_index model_configuration) value) as [pars|];
    cbn [mbind option_bind float_lists bound_lists constraint_lists].
  - rewrite !lookup_insert_eq. cbn [mbind option_bind app].
    eexists.
    unfold reported, with_index, fixed_poi_constraint.
    destruct (minimize _ _ _ _ _ _ _) as [[fun_ x]|err]; reflexivity.
  - eexists. reflexivity.
Qed.

(** X29. A list of constraints that is given to two fits in a row
    constrains the second fit with the POI value of the first: the first
    call hands the minimiser the list with its own equality constraint
    added, the second call the list with both, and both stay in the
    caller's list.  A call without a list of constraints hands over its
    own constraint alone. *)
Theorem second_fit_keeps_the_first_constraint (first second : pyfloat)
    (pars1 pars2 : list pyfloat) (l : loc) (cs : list constraint)
    (st : store) :
  constraint_lists st !! l = Some cs ->
  list_setitem (suggested_init model_configuration)
    (poi_index model_configuration) first = Some pars1 ->
  list_setitem (suggested_init model_configuration)
    (poi_index model_configuration) second = Some pars2 ->
  let call value constraints st :=
    fit objective minimize func model_configuration do_grad hessian None None
      (Some value) logpdf constraints options st in
  let minimized pars value constraints :=
    reported logpdf
      (minimize func pars do_grad hessian
         (fixed_poi_bounds model_configuration (Some value)) constraints
         with_index) in
  let c1 := fixed_poi_constraint model_configuration first in
  let c2 := fixed_poi_constraint model_configuration second in
  exists st1 st2 st3,
    call first (Some l) st = Some (minimized pars1 first (cs ++ [c1]), st1)
    /\ call second (Some l) st1
       = Some (minimized pars2 second (cs ++ [c1; c2]), st2)
    /\ constraint_lists st2 !! l = Some (cs ++ [c1; c2])
    /\ call second None st1 = Some (minimized pars2 second [c2], st3).
Proof.
  intros Hcs H1 H2. cbv zeta.
  destruct (fit_on_given_list first l cs st Hcs) as (st1 & Hfit1 & Hst1).
  rewrite H1 in Hfit1, Hst1.
  assert (Hcs1 : constraint_lists st1 !! l
                 = Some (cs ++ [fixed_poi_constraint model_configuration
                                  first])).
  { rewrite Hst1. apply lookup_insert_eq. }
  destruct (fit_on_given_list second l _ st1 Hcs1) as (st2 & Hfit2 & Hst2).
  rewrite H2 in Hfit2, Hst2.
  destruct (fit_on_new_list second st1) as (st3 & Hfit3).
  rewrite H2 in Hfit3.
  exists st1, st2, st3. split; [exact Hfit1|]. split; [|split].
  - rewrite Hfit2, <- app_assoc. reflexivity.
  - rewrite Hst2, lookup_insert_eq, <- app_assoc. reflexivity.
  - exact Hfit3.
Qed.

(** X30. Where the fixed POI is written.  With [n] suggested initial
    values and no [initial_parameters], a [poi_index] in [[0, n)] sets
    that entry of the starting point, one in [[-n, 0)] the entry counted
    from the end; for any other index the call raises IndexError before
    the minimiser is called and before the constraint is added, so that a
    given list of constraints stays as it was. *)
Theorem fixed_poi_index_range (value : pyfloat) (l : loc)
    (cs : list constraint) (st : store) :
  constraint_lists st !! l = Some cs ->
  let init := suggested_init model_configuration in
  let i := poi_index model_configuration in
  let n := Z.of_nat (length init) in
  let written (position : nat) (result : outcome (pyfloat * list pyfloat))
      (st' : store) :=
    result
    = reported logpdf
        (minimize func (<[position := value]> init) do_grad hessian
           (fixed_poi_bounds model_configuration (Some value))
           (cs ++ [fixed_poi_constraint model_configuration value])
           with_index)
    /\ constraint_lists st' !! l
       = Some (cs ++ [fixed_poi_constraint model_configuration value]) in
  exists result st',
    fit objective minimize func model_configuration do_grad hessian None None
      (Some value) logpdf (Some l) options st = Some (result, st')
    /\ ((0 <= i < n)%Z -> written (Z.to_nat i) result st')
    /\ ((- n <= i < 0)%Z -> written (Z.to_nat (i + n)) result st')
    /\ ((i < - n \/ n <= i)%Z ->
        result = Raises IndexError /\ constraint_lists st' !! l = Some cs).
Proof.
  intros Hcs. cbv zeta.
  destruct (fit_on_given_list value l cs st Hcs) as (st' & Hfit & Hst').
  eexists. exists st'. split; [exact Hfit|].
  unfold list_setitem in *. cbv zeta in *.
  set (i := poi_index model_configuration) in *.
  set (n := Z.of_nat (length (suggested_init model_configuration))) in *.
  split; [|split].
  - intros Hi.
    replace (i <? 0)%Z with false in * by (symmetry; apply Z.ltb_ge; lia).
    replace ((0 <=? i)%Z && (i <? n)%Z)%bool with true in *
      by (symmetry; apply andb_true_iff; split;
          [apply Z.leb_le | apply Z.ltb_lt]; lia).
    split; [reflexivity|]. rewrite Hst'. apply lookup_insert_eq.
  - intros Hi.
    replace (i <? 0)%Z with true in * by (symmetry; apply Z.ltb_lt; lia).
    replace ((0 <=? i + n)%Z && (i + n <? n)%Z)%bool with true in *
      by (symmetry; apply andb_true_iff; split;
          [apply Z.leb_le | apply Z.ltb_lt]; lia).
    split; [reflexivity|]. rewrite Hst'. apply lookup_insert_eq.
  - intros [Hi | Hi].
    + replace (i <? 0)%Z with true in * by (symmetry; apply Z.ltb_lt; lia).
      replace ((0 <=? i + n)%Z && (i + n <? n)%Z)%bool with false in *
        by (symmetry; apply andb_false_iff; left; apply Z.leb_gt; lia).
      split; [reflexivity|]. rewrite Hst'. exact Hcs.
    + replace (i <? 0)%Z with false in * by (symmetry; apply Z.ltb_ge; lia).
      replace ((0 <=? i)%Z && (i <? n)%Z)%bool with false in *
        by (symmetry; apply andb_false_iff; right; apply Z.ltb_ge; lia).
      split; [reflexivity|]. rewrite Hst'. exact Hcs.
Qed.
End Fit.

(** X29, witness. *)
Lemma second_fit_keeps_the_first_constraint_witness :
  let st := {| float_lists := ∅; bound_lists := ∅;
               constraint_lists := {[ 1%positive := [] ]} |} in
  let config := {| poi_index := 0;
                   suggested_init := [Finite 0; Finite 0];
                   fixed_poi_bounds := fun _ => [(Finite 0, Finite 10);
                                                 (NInf, PInf)] |} in
  let minimize := fun (_ : unit) (pars : list pyfloat) (_ : bool)
                      (_ : option unit) (_ : list (pyfloat * pyfloat))
                      (cs : list constraint) (_ : gmap string pyopt) =>
                    Returns (Finite (INR (length cs)), pars) in
  exists st1 st2,
    fit unit minimize tt config false None None None (Some (Finite 1)) None
      (Some 1%positive) ∅ st
    = Some (Returns (Finite (INR 1), [Finite 1; Finite 0]), st1)
    /\ fit unit minimize tt config false None None None (Some (Finite 2)) None
         (Some 1%positive) ∅ st1
       = Some (Returns (Finite (INR 2), [Finite 2; Finite 0]), st2)
    /\ constraint_lists st2 !! 1%positive
       = Some [fixed_poi_constraint config (Finite 1);
               fixed_poi_constraint config (Finite 2)].
Proof.
  intros st config minimize.
  destruct (second_fit_keeps_the_first_constraint unit minimize tt config
              false None None ∅ (Finite 1) (Finite 2)
              [Finite 1; Finite 0] [Finite 2; Finite 0] 1%positive [] st
              eq_refl eq_refl eq_refl)
    as (st1 & st2 & _ & H1 & H2 & H3 & _).
  exists st1, st2. split; [exact H1|]. split; [exact H2 | exact H3].
Defined.

(** X30, witness. *)
Lemma fixed_poi_index_range_witness :
  let st := {| float_lists := ∅; bound_lists := ∅;
               constraint_lists := {[ 1%positive := [] ]} |} in
  let config := {| poi_index := 2;
                   suggested_init := [Finite 0; Finite 0];
                   fixed_poi_bounds := fun _ => [(Finite 0, Finite 10);
                                                 (NInf, PInf)] |} in
  let minimize := fun (_ : unit) (pars : list pyfloat) (_ : bool)
                      (_ : option unit) (_ : list (pyfloat * pyfloat))
                      (_ : list constraint) (_ : gmap string pyopt) =>
                    Returns (Finite 0, pars) in
  exists st',
    fit unit minimize tt config false None None None (Some (Finite 1)) None
      (Some 1%positive) ∅ st
    = Some (Raises IndexError, st')
    /\ constraint_lists st' !! 1%positive = Some [].
Proof.
  intros st config minimize.
  destruct (fixed_poi_index_range unit minimize tt config false None None ∅
              (Finite 1) 1%positive [] st eq_refl)
    as (result & st' & Hfit & _ & _ & Hout).
  destruct (Hout ltac:(right; simpl; lia)) as [-> Hcs].
  exists st'. split; [exact Hfit | exact Hcs].
Defined.

End FitFacts.
